(** * The buzz-map enrichment pipeline: a shallow embedding

    The repository is four AWS Lambda handlers written in Python and chained
    through DynamoDB Streams:

    - [InstagramCrawlFunction.py]  (crawler, writes the raw Instagram store)
    - [InstagramExtractFunction.py] (extractor, raw Instagram -> SemiFinalDB)
    - [YoutubeExtractFunction.py]  (extractor, raw YouTube -> SemiFinalDB)
    - [GeoCodeingFunction.py]      (geocoder, SemiFinalDB -> FinalDB)

    Python values are embedded as the inductive [pyval]; dictionaries are
    stdpp [gmap]s keyed by strings.  Every outside effect (the inference
    call, the geocoding call, [put_item], [time.sleep], [random.uniform],
    [datetime.now]) is taken from an explicit environment record and logged
    in a trace of events, so that "how many calls were made" and "what was
    written" are statements about the trace.

    A Python float is carried as the rational it denotes.  The float
    arithmetic of the two buzz formulas is binary64: every division and
    product is rounded to the nearest double, ties to even (module
    [Float64]).  The waits of the retry helper, the coordinates and the
    parsed number literals are kept as exact rationals. *)

From Stdlib Require Import ZArith QArith Qround Qpower String Ascii List Lia Lqa.
From Stdlib Require Import Sorted.
From stdpp Require Import gmap strings.

Set Warnings "-register-all".
Local Open Scope string_scope.
Local Open Scope Z_scope.

(** ** Binary64 arithmetic

    A double is a rational [m * 2^e] with [|m| < 2^53] and [e >= -1074],
    an infinity or nan.  [round] sends a rational to the nearest double,
    ties to the even mantissa, and to an infinity from [2^1024 - 2^970]
    on, as IEEE 754 does in its default mode.  The sign of zero is not
    kept: no operation of the handlers tells the two zeros apart. *)

Module Float64.

Inductive t : Type :=
| Finite (q : Q)
| Inf (negative : bool)
| NaN.

(** The exponent of the least subnormal, and the bits of a mantissa. *)
Definition emin : Z := -1074.
Definition prec : Z := 53.

(** To the nearest integer, ties to even. *)
Definition rne (q : Q) : Z :=
  let f := Qfloor q in
  match (q - inject_Z f ?= 1 # 2)%Q with
  | Lt => f
  | Gt => f + 1
  | Eq => if Z.even f then f else f + 1
  end.

(** The integer part of the binary logarithm of a positive rational. *)
Definition ilog2 (q : Q) : Z :=
  let k := Z.log2 (Qnum q) - Z.log2 (Zpos (Qden q)) in
  if Qle_bool (2 ^ k) q then k else k - 1.

(** The exponent of the last place of a positive rational. *)
Definition ulp_exp (q : Q) : Z := Z.max emin (ilog2 q - (prec - 1)).

(** Rounding of a positive rational, the exponent unbounded above. *)
Definition round_pos (q : Q) : Q :=
  let e := ulp_exp q in
  (inject_Z (rne (q / 2 ^ e)) * 2 ^ e)%Q.

Definition overflow : Q := (2 ^ 1024)%Q.

Definition round (q : Q) : t :=
  match (q ?= 0)%Q with
  | Eq => Finite 0
  | Gt =>
      let r := round_pos q in
      if Qle_bool overflow r then Inf false else Finite r
  | Lt =>
      let r := round_pos (- q) in
      if Qle_bool overflow r then Inf true else Finite (- r)
  end.

Definition is_zero (x : t) : bool :=
  match x with
  | Finite q => Qeq_bool q 0
  | _ => false
  end.

Definition is_nan (x : t) : bool :=
  match x with
  | NaN => true
  | _ => false
  end.

(** [x < y]: false whenever a side is nan. *)
Definition ltb (x y : t) : bool :=
  match x, y with
  | Finite p, Finite q => negb (Qle_bool q p)
  | Inf true, Finite _ | Inf true, Inf false | Finite _, Inf false => true
  | _, _ => false
  end.

(** IEEE division.  (Python raises before dividing by a zero.) *)
Definition quot (x y : t) : t :=
  match x, y with
  | NaN, _ | _, NaN => NaN
  | Inf _, Inf _ => NaN
  | Inf s, Finite d => Inf (xorb s (negb (Qle_bool 0 d)))
  | Finite _, Inf _ => Finite 0
  | Finite n, Finite d =>
      if Qeq_bool d 0
      then if Qeq_bool n 0 then NaN else Inf (negb (Qle_bool 0 n))
      else round (n / d)
  end.

(** IEEE product. *)
Definition mul (x y : t) : t :=
  match x, y with
  | NaN, _ | _, NaN => NaN
  | Inf s, Inf s' => Inf (xorb s s')
  | Inf s, Finite q | Finite q, Inf s =>
      if Qeq_bool q 0 then NaN else Inf (xorb s (negb (Qle_bool 0 q)))
  | Finite p, Finite q => round (p * q)
  end.

(** The order of the doubles, nan apart. *)
Definition le (x y : t) : Prop :=
  match x, y with
  | NaN, _ | _, NaN => False
  | Inf true, _ => True
  | _, Inf false => True
  | Finite p, Finite q => (p <= q)%Q
  | _, _ => False
  end.

End Float64.

Arguments Float64.round : simpl never.
Arguments Float64.round_pos : simpl never.
Arguments Float64.rne : simpl never.
Arguments Float64.ilog2 : simpl never.

(** ** Python values, exceptions and builtins *)

Module Py.

(** The exception classes the handlers can meet.  [GenericError] carries
    what [call_gemini_for_extraction] inspects: [str(e)] and, when the
    exception has a [response] attribute, its [status_code] (where
    [getattr(e.response, 'status_code', 0)] already applied its default). *)
Inductive exn : Type :=
| ValueError
| KeyError
| TypeError
| AttributeError
| IndexError
| ClientError
| InvalidOperation
| OverflowError
| ZeroDivisionError
| GenericError (msg : string) (status : option Z).

(** Outcome of a Python expression: a value or a raised exception. *)
Inductive res (A : Type) : Type :=
| Ret (a : A)
| Raise (e : exn).
Arguments Ret {A} a.
Arguments Raise {A} e.

Definition res_bind {A B} (r : res A) (k : A -> res B) : res B :=
  match r with
  | Ret a => k a
  | Raise e => Raise e
  end.

Inductive pyval : Type :=
| PNone
| PBool (b : bool)
| PInt (z : Z)
| PFloat (q : Q)
| PStr (s : string)
| PDecimal (q : Q)
| PList (l : list pyval)
| PDict (d : gmap string pyval).

(** Truth value testing ([if x:], [x and y], [not x]). *)
Definition truthy (v : pyval) : bool :=
  match v with
  | PNone => false
  | PBool b => b
  | PInt z => negb (z =? 0)
  | PFloat q => negb (Qeq_bool q 0)
  | PStr s => negb (String.eqb s "")
  | PDecimal q => negb (Qeq_bool q 0)
  | PList l => match l with [] => false | _ => true end
  | PDict d => negb (bool_decide (dom d = ∅))
  end.

(** [d.get(k)] and [d.get(k, default)] on a dictionary. *)
Definition get (d : gmap string pyval) (k : string) : pyval :=
  default PNone (d !! k).

Definition get_default (d : gmap string pyval) (k : string) (dflt : pyval) : pyval :=
  default dflt (d !! k).

(** [d[k]]: raises [KeyError] when the key is absent. *)
Definition subscript (d : gmap string pyval) (k : string) : res pyval :=
  match d !! k with
  | Some v => Ret v
  | None => Raise KeyError
  end.

(** [v.get(k, default)] on an arbitrary value: only dictionaries have
    [get]; every other value raises [AttributeError]. *)
Definition attr_get (v : pyval) (k : string) (dflt : pyval) : res pyval :=
  match v with
  | PDict d => Ret (get_default d k dflt)
  | _ => Raise AttributeError
  end.

(** [v[k]] for a string key on an arbitrary value: a dictionary looks the
    key up, every other value raises [TypeError]. *)
Definition item_key (v : pyval) (k : string) : res pyval :=
  match v with
  | PDict d => subscript d k
  | _ => Raise TypeError
  end.

(** [v[i]] for a non-negative index on an arbitrary value. *)
Definition item_index (v : pyval) (i : nat) : res pyval :=
  match v with
  | PList l =>
      match nth_error l i with
      | Some x => Ret x
      | None => Raise IndexError
      end
  | PStr s =>
      match String.get i s with
      | Some c => Ret (PStr (String c EmptyString))
      | None => Raise IndexError
      end
  | PDict _ => Raise KeyError
  | _ => Raise TypeError
  end.

(** *** Strings *)

(** [s.replace(c, new)] for a one-character pattern [c]. *)
Fixpoint replace_char (c : ascii) (new : string) (s : string) : string :=
  match s with
  | EmptyString => EmptyString
  | String a rest =>
      if Ascii.eqb a c then new ++ replace_char c new rest
      else String a (replace_char c new rest)
  end.

(** [v.replace(c, new)] on a value: only strings have [replace]. *)
Definition str_replace (v : pyval) (c : ascii) (new : string) : res string :=
  match v with
  | PStr s => Ret (replace_char c new s)
  | _ => Raise AttributeError
  end.

(** [needle in haystack] on strings. *)
Fixpoint contains (needle haystack : string) : bool :=
  String.prefix needle haystack
  || match haystack with
     | EmptyString => false
     | String _ rest => contains needle rest
     end.

Definition newline : ascii := Ascii.ascii_of_nat 10.

(** *** Numeric literals: [int(s)] and [float(s)]

    The forms a DynamoDB number attribute can take: an optional sign,
    decimal digits, an optional fraction and an optional exponent.
    (Python also accepts surrounding blanks, underscores between digits and
    the words inf and nan; DynamoDB never sends them.) *)

Definition digit_val (c : ascii) : option Z :=
  let n := Z.of_nat (nat_of_ascii c) in
  if (48 <=? n) && (n <=? 57) then Some (n - 48) else None.

(** Reads a run of digits, returning the accumulated value, how many
    digits were read and the rest of the string. *)
Fixpoint read_digits (s : string) (acc : Z) (cnt : nat) : Z * nat * string :=
  match s with
  | EmptyString => (acc, cnt, s)
  | String c rest =>
      match digit_val c with
      | Some d => read_digits rest (10 * acc + d) (S cnt)
      | None => (acc, cnt, s)
      end
  end.

Definition read_sign (s : string) : bool * string :=
  match s with
  | String "-" rest => (true, rest)
  | String "+" rest => (false, rest)
  | _ => (false, s)
  end.

Definition int_of_string (s : string) : res Z :=
  let '(neg, body) := read_sign s in
  match read_digits body 0 0 with
  | (v, S _, EmptyString) => Ret (if neg then - v else v)
  | _ => Raise ValueError
  end.

Definition read_exponent (s : string) : option Z :=
  match s with
  | EmptyString => Some 0
  | String c rest =>
      if Ascii.eqb c "e" || Ascii.eqb c "E" then
        let '(neg, body) := read_sign rest in
        match read_digits body 0 0 with
        | (v, S _, EmptyString) => Some (if neg then - v else v)
        | _ => None
        end
      else None
  end.

Definition scale10 (m e : Z) : Q :=
  if 0 <=? e then inject_Z (m * 10 ^ e)
  else Qmake m (Z.to_pos (10 ^ (- e))).

Definition float_of_string (s : string) : res Q :=
  let '(neg, body) := read_sign s in
  let '(ip, n1, r1) := read_digits body 0 0 in
  let '(mant, n2, r2) :=
    match r1 with
    | String "." frac =>
        let '(m, n, r) := read_digits frac ip 0 in (m, n, r)
    | _ => (ip, 0%nat, r1)
    end in
  match (n1 + n2)%nat, read_exponent r2 with
  | S _, Some e =>
      Ret (scale10 (if neg then - mant else mant) (e - Z.of_nat n2))
  | _, _ => Raise ValueError
  end.

(** *** Arithmetic on numbers

    [as_number] is the value of a number as a comparison with an integer
    sees it (exactly): integers, booleans and floats are accepted,
    anything else raises [TypeError].  The operands of [/] and [*] go
    through [to_float] below. *)
Definition as_number (v : pyval) : res Q :=
  match v with
  | PInt z => Ret (inject_Z z)
  | PFloat q => Ret q
  | PBool b => Ret (if b then 1%Q else 0%Q)
  | _ => Raise TypeError
  end.

Definition Qltb (a b : Q) : bool := negb (Qle_bool b a).

(** [float(z)] as the operators apply it to an integer operand, and
    [n / d] between integers: correctly rounded, [OverflowError] when the
    result is too large for a float. *)
Definition float_of_ratio (q : Q) : res Float64.t :=
  match Float64.round q with
  | Float64.Inf _ => Raise OverflowError
  | x => Ret x
  end.

(** The float operand of [/] and [*]: an integer or a boolean is
    converted, a float is taken as the double nearest to its rational,
    anything else raises [TypeError]. *)
Definition to_float (v : pyval) : res Float64.t :=
  match v with
  | PInt z => float_of_ratio (inject_Z z)
  | PBool b => float_of_ratio (inject_Z (if b then 1 else 0))
  | PFloat q => Ret (Float64.round q)
  | _ => Raise TypeError
  end.

(** [x / y] between floats. *)
Definition float_div (x y : Float64.t) : res Float64.t :=
  if Float64.is_zero y then Raise ZeroDivisionError
  else Ret (Float64.quot x y).

(** [min(5, x)]: Python keeps the first argument unless a later one is
    strictly smaller; [max(1, y)] keeps the first unless a later one is
    strictly greater.  The integer literals are returned as integers. *)
Inductive num : Type :=
| NInt (z : Z)
| NFloat (q : Q).

Definition num_val (n : num) : Q :=
  match n with
  | NInt z => inject_Z z
  | NFloat q => q
  end.

Definition py_min (a b : num) : num :=
  if Qltb (num_val b) (num_val a) then b else a.

Definition py_max (a b : num) : num :=
  if Qltb (num_val a) (num_val b) then b else a.

(** [int(x)]: the identity on integers, truncation toward zero on floats. *)
Definition Qtrunc (q : Q) : Z := Z.quot (Qnum q) (Zpos (Qden q)).

Definition py_int (n : num) : Z :=
  match n with
  | NInt z => z
  | NFloat q => Qtrunc q
  end.

(** [int(v)] on an arbitrary value. *)
Definition int_of_value (v : pyval) : res Z :=
  match v with
  | PInt z => Ret z
  | PBool b => Ret (if b then 1 else 0)
  | PFloat q => Ret (Qtrunc q)
  | PDecimal q => Ret (Qtrunc q)
  | PStr s => int_of_string s
  | _ => Raise TypeError
  end.

(** [Decimal(str(v))]: numbers convert, a string converts when it is a
    decimal literal, everything else is an invalid literal. *)
Definition decimal_of_value (v : pyval) : res Q :=
  match v with
  | PInt z => Ret (inject_Z z)
  | PFloat q => Ret q
  | PDecimal q => Ret q
  | PStr s =>
      match float_of_string s with
      | Ret q => Ret q
      | Raise _ => Raise InvalidOperation
      end
  | _ => Raise InvalidOperation
  end.

(** [a == b] between strings and [None], as used by [x in [...]]. *)
Definition is_str (v : pyval) (s : string) : bool :=
  match v with
  | PStr s' => String.eqb s' s
  | _ => false
  end.

Definition is_none (v : pyval) : bool :=
  match v with
  | PNone => true
  | _ => false
  end.

(** *** [datetime]

    A [datetime] is a count of microseconds (since the epoch, in UTC when
    the value is timezone-aware, on the local calendar when it is naive).
    Subtracting an aware value from a naive one raises [TypeError]. *)
Record datetime : Type := mkDatetime { dt_micros : Z; dt_aware : bool }.

(** [(a - b).total_seconds()]: the microseconds of the difference
    divided by [10**6], as a float. *)
Definition total_seconds (a b : datetime) : res Float64.t :=
  if Bool.eqb (dt_aware a) (dt_aware b)
  then float_of_ratio (Qmake (dt_micros a - dt_micros b) 1000000)
  else Raise TypeError.

End Py.

(** ** Effects: the trace of outside calls *)

Module World.
Import Py.

(** What a handler does to the outside world, in order.
    - [EvGenerate contents]: one [generate_content] request was sent;
    - [EvSleep secs]: [time.sleep(secs)];
    - [EvPut item]: [put_item(Item=item)] returned normally, the store now
      holds [item] under its key (a rejected write leaves no event);
    - [EvGeocode index text]: one [search_place_index_for_text] request. *)
Inductive event : Type :=
| EvGenerate (contents : string)
| EvSleep (secs : Q)
| EvPut (item : gmap string pyval)
| EvGeocode (index : string) (text : pyval).

Definition trace : Type := list event.

(** Handlers run in a state-and-exception monad over the trace. *)
Definition M (A : Type) : Type := trace -> res A * trace.

Definition ret {A} (a : A) : M A := fun tr => (Ret a, tr).
Definition raise {A} (e : exn) : M A := fun tr => (Raise e, tr).
Definition bind {A B} (m : M A) (k : A -> M B) : M B :=
  fun tr =>
    match m tr with
    | (Ret a, tr') => k a tr'
    | (Raise e, tr') => (Raise e, tr')
    end.
Definition lift {A} (r : res A) : M A := fun tr => (r, tr).
Definition emit (ev : event) : M unit := fun tr => (Ret tt, (tr ++ [ev])%list).
Definition get_trace : M trace := fun tr => (Ret tr, tr).

(** [try: body except Exception as e: handler(e)] *)
Definition try_except {A} (body : M A) (handler : exn -> M A) : M A :=
  fun tr =>
    match body tr with
    | (Ret a, tr') => (Ret a, tr')
    | (Raise e, tr') => handler e tr'
    end.

Definition is_generate (ev : event) : bool :=
  match ev with EvGenerate _ => true | _ => false end.
Definition is_sleep (ev : event) : bool :=
  match ev with EvSleep _ => true | _ => false end.
Definition is_put (ev : event) : bool :=
  match ev with EvPut _ => true | _ => false end.
Definition is_geocode (ev : event) : bool :=
  match ev with EvGeocode _ _ => true | _ => false end.

(** How many events of a kind a trace holds. *)
Definition count (p : event -> bool) (tr : trace) : nat :=
  length (List.filter p tr).
Arguments count : simpl never.

(** The items written, oldest first. *)
Definition puts (tr : trace) : list (gmap string pyval) :=
  omap (fun ev => match ev with EvPut it => Some it | _ => None end) tr.

(** The sleeps taken, oldest first. *)
Definition sleeps (tr : trace) : list Q :=
  omap (fun ev => match ev with EvSleep q => Some q | _ => None end) tr.

End World.

Declare Scope py_scope.
Delimit Scope py_scope with py.
Notation "'let!' x ':=' m 'in' k" := (World.bind m (fun x => k))
  (at level 10, x name, m at level 100, k at level 200) : py_scope.
Notation "'let!' '_' ':=' m 'in' k" := (World.bind m (fun _ => k))
  (at level 10, m at level 100, k at level 200) : py_scope.
Notation "'let?' x ':=' m 'in' k" := (Py.res_bind m (fun x => k))
  (at level 10, x name, m at level 100, k at level 200) : py_scope.
Local Open Scope py_scope.

(** ** DynamoDB Streams records *)

Module Stream.
Import Py.

(** A typed attribute value as it arrives in a stream image: a JSON object
    with (normally exactly one) type tag.  The unmarshallers only ask
    whether the tags S, N and M are present, so an attribute is the triple
    of what sits under these three tags; any other tag (NULL, BOOL, L, ...)
    is an attribute with none of the three. *)
Inductive attr : Type :=
  Attr (S_tag : option string) (N_tag : option string)
       (M_tag : option (gmap string attr)).

Abbreviation image := (gmap string attr).

(** One element of [event['Records']]: [record['eventName']] and
    [record['dynamodb']['NewImage']] (absent on REMOVE events and on
    streams that do not carry new images). *)
Record record : Type := mkRecord {
  eventName : string;
  NewImage : option image
}.

Definition is_upsert (r : record) : bool :=
  String.eqb (eventName r) "INSERT" || String.eqb (eventName r) "MODIFY".

(** [record['dynamodb']['NewImage']] *)
Definition new_image (r : record) : res image :=
  match NewImage r with
  | Some img => Ret img
  | None => Raise KeyError
  end.

(** The loop [for key, value in d.items(): data[key] = ...] once every
    value has been converted: the first exception met aborts the loop;
    otherwise the keys whose conversion produced a value are kept. *)
Definition first_raise (acc : option exn) (r : res (option pyval)) : option exn :=
  match acc, r with
  | Some e, _ => Some e
  | None, Raise e => Some e
  | None, Ret _ => None
  end.

Definition collect (conv : gmap string (res (option pyval))) : res (gmap string pyval) :=
  match map_fold (fun _ r acc => first_raise acc r) None conv with
  | Some e => Raise e
  | None => Ret (omap (fun r => match r with Ret o => o | Raise _ => None end) conv)
  end.

End Stream.

(** ** The environment of the two extractors

    The module-level clients and the outside services of
    [InstagramExtractFunction.py] and [YoutubeExtractFunction.py]. *)

Module Extract.
Import Py World.

Record env : Type := mkEnv {
  (** [gemini_client] / [GEMINI_CLIENT] was initialised *)
  gemini_client : bool;
  (** [ddb_table] / [DDB_TABLE] was initialised *)
  ddb_table : bool;
  (** the outcome of the body of the [try] in [call_gemini_for_extraction]
      ([generate_content], [response.text.strip()], [json.loads]) for the
      n-th request of the invocation and its contents *)
  generate_content : nat -> string -> res pyval;
  (** the n-th value of [random.uniform(0, 1)] *)
  uniform : nat -> Q;
  (** [put_item(Item=item)]: [None] when the store accepts the write *)
  put_item : gmap string pyval -> option exn;
  (** [datetime.fromisoformat] *)
  fromisoformat : string -> res datetime;
  (** [datetime.now(timezone.utc).isoformat()] *)
  utcnow_iso : string;
  (** how an f-string renders a value that is not a string *)
  repr : pyval -> string
}.

(** [f"{v}"] *)
Definition format (E : env) (v : pyval) : string :=
  match v with
  | PStr s => s
  | _ => repr E v
  end.

Definition MAX_RETRIES : nat := 5.
Definition INITIAL_BACKOFF_TIME : Z := 10.

(** ["TooManyRequests" in str(e) or (hasattr(e, 'response') and
    getattr(e.response, 'status_code', 0) == 429)].  The builtin exception
    classes carry interpreter messages without the marker and have no
    [response] attribute. *)
Definition is_rate_limit (e : exn) : bool :=
  match e with
  | GenericError msg status =>
      contains "TooManyRequests" msg
      || match status with Some c => c =? 429 | None => false end
  | _ => false
  end.

(** [INITIAL_BACKOFF_TIME * (2 ** attempt) + random.uniform(0, 1)] *)
Definition wait_time (attempt : nat) (jitter : Q) : Q :=
  inject_Z (INITIAL_BACKOFF_TIME * 2 ^ Z.of_nat attempt) + jitter.

(** One pass through the body of [for attempt in range(MAX_RETRIES)]:
    [Some v] when the function returns [v], [None] when the loop goes on. *)
Definition attempt_once (E : env) (contents : string) (attempt : nat)
  : M (option pyval) :=
  let! tr := get_trace in
  let! _ := emit (EvGenerate contents) in
  match generate_content E (count is_generate tr) contents with
  | Ret parsed => ret (Some parsed)
  | Raise e =>
      if is_rate_limit e then
        let! tr' := get_trace in
        let! _ := emit (EvSleep (wait_time attempt (uniform E (count is_sleep tr')))) in
        ret None
      else ret (Some PNone)
  end.

Fixpoint retry_loop (E : env) (contents : string) (attempts : list nat)
  : M pyval :=
  match attempts with
  | [] => ret PNone
  | attempt :: rest =>
      let! r := attempt_once E contents attempt in
      match r with
      | Some v => ret v
      | None => retry_loop E contents rest
      end
  end.

(** [call_gemini_for_extraction]; [contents] is [f"TEXT: {text}"]. *)
Definition call_gemini_for_extraction (E : env) (contents : string) : M pyval :=
  if negb (gemini_client E) then ret PNone
  else retry_loop E contents (seq 0 MAX_RETRIES).

(** [datetime.fromisoformat(v.replace('Z', '+00:00'))] *)
Definition parse_time (E : env) (v : pyval) : res datetime :=
  let? s := str_replace v "Z" "+00:00" in
  fromisoformat E s.

(** [max(1, min(5, buzz_score))] on a finite score *)
Definition clamp_1_5 (score : Q) : num :=
  py_max (NInt 1) (py_min (NInt 5) (NFloat score)).

(** [max(1, min(5, buzz_score))] on any float: [inf < 5] is false, so
    [min] keeps 5; [-inf < 5] holds and [-inf > 1] does not, so [max]
    keeps 1; every comparison with nan is false, so [min] keeps 5. *)
Definition clamp_score (score : Float64.t) : num :=
  match score with
  | Float64.Finite q => clamp_1_5 q
  | Float64.Inf false => NInt 5
  | Float64.Inf true => NInt 1
  | Float64.NaN => NInt 5
  end.

(** The float literal [0.01]. *)
Definition hundredth : Float64.t := Float64.round (1 # 100).

(** The tail shared by [save_to_target_db] and [save_to_semifinal_db]:
    [put_item] inside the [try], and what the function returns when the
    write raises ([on_client_error] for [ClientError], [False] for the
    rest). *)
Definition write_item (E : env) (on_client_error : pyval)
    (built : res (gmap string pyval)) : M pyval :=
  match built with
  | Raise ClientError => ret on_client_error
  | Raise _ => ret (PBool false)
  | Ret item =>
      match put_item E item with
      | None => let! _ := emit (EvPut item) in ret (PBool true)
      | Some ClientError => ret on_client_error
      | Some _ => ret (PBool false)
      end
  end.

End Extract.

(** ** InstagramExtractFunction.py *)

Module InstagramExtract.
Import Py World Stream Extract.

(** [unmarshal_dynamodb_json]: every number is read with [int]. *)
Fixpoint unmarshal_value (value : attr) : res (option pyval) :=
  match value with
  | Attr (Some s) _ _ => Ret (Some (PStr s))
  | Attr None (Some n) _ =>
      let? z := int_of_string n in Ret (Some (PInt z))
  | Attr None None (Some m) =>
      if bool_decide (dom m = ∅) then Ret None
      else
        let? data := collect (unmarshal_value <$> m) in
        Ret (Some (PDict data))
  | Attr None None None => Ret None
  end.

Definition unmarshal_dynamodb_json (dynamodb_json : image)
  : res (gmap string pyval) :=
  collect (unmarshal_value <$> dynamodb_json).

(** The value of [buzz_score] when the item is built. *)
Definition buzz_score (E : env) (original_data : gmap string pyval) : res num :=
  let likes := get_default original_data "like_count" (PInt 0) in
  let timestamp_str := get original_data "timestamp" in
  let crawled_at_str := get original_data "crawled_at" in
  if truthy timestamp_str && truthy crawled_at_str then
    let? dt_crawled := parse_time E crawled_at_str in
    let? dt_posted := parse_time E timestamp_str in
    let? secs := total_seconds dt_crawled dt_posted in
    let? elapsed_days :=
      float_div secs (Float64.Finite (inject_Z (24 * 3600))) in
    let elapsed_days :=
      if Float64.ltb elapsed_days hundredth then hundredth
      else elapsed_days in
    let? l := to_float likes in
    let? per_day := float_div l elapsed_days in
    let? score := float_div per_day (Float64.Finite 100) in
    Ret (clamp_score score)
  else Ret (NInt 1).

(** The dictionary [item] of [save_to_target_db]. *)
Definition build_item (E : env) (original_data : gmap string pyval)
    (extracted_data : pyval) : res (gmap string pyval) :=
  let? score := buzz_score E original_data in
  let? post_id := subscript original_data "media_id" in
  let? url := subscript original_data "permalink" in
  let? title := subscript original_data "caption" in
  let? place_name := attr_get extracted_data "placeName" (PStr "N/A") in
  let? address := attr_get extracted_data "address" (PStr "N/A") in
  Ret (<["postId" := post_id]>
       (<["platform" := PStr "Instagram"]>
       (<["url" := url]>
       (<["title" := title]>
       (<["placeName" := place_name]>
       (<["address" := address]>
       (<["buzz" := PInt (py_int score)]>
       (<["fetchedAt" := PStr (utcnow_iso E)]> ∅)))))))).

Definition save_to_target_db (E : env) (original_data : gmap string pyval)
    (extracted_data : pyval) : M pyval :=
  if negb (ddb_table E) then ret (PBool false)
  else write_item E (PBool false) (build_item E original_data extracted_data).

(** The body of [for record in event['Records']]. *)
Definition process_record (E : env) (record : Stream.record) : M unit :=
  if is_upsert record then
    let! new_image := lift (new_image record) in
    let! original_data := lift (unmarshal_dynamodb_json new_image) in
    let media_id := get original_data "media_id" in
    let caption_text := get original_data "caption" in
    if truthy media_id && truthy caption_text then
      let! extracted_data :=
        call_gemini_for_extraction E ("TEXT: " ++ format E caption_text) in
      if truthy extracted_data then
        let! _ := save_to_target_db E original_data extracted_data in
        ret tt
      else ret tt
    else ret tt
  else ret tt.

Fixpoint process_records (E : env) (records : list Stream.record) : M unit :=
  match records with
  | [] => ret tt
  | record :: rest =>
      let! _ := process_record E record in
      process_records E rest
  end.

(** [lambda_handler]; the result is the [statusCode] of the response. *)
Definition lambda_handler (E : env) (records : list Stream.record) : M Z :=
  if negb (gemini_client E) || negb (ddb_table E) then ret 500
  else
    let! _ := process_records E records in
    ret 200.

End InstagramExtract.

(** ** YoutubeExtractFunction.py *)

Module YoutubeExtract.
Import Py World Stream Extract.

(** [unmarshal_dynamodb_json]: a number is read with [int] unless its text
    has a decimal point, and with [float] then. *)
Fixpoint unmarshal_value (value : attr) : res (option pyval) :=
  match value with
  | Attr (Some s) _ _ => Ret (Some (PStr s))
  | Attr None (Some n) _ =>
      if negb (contains "." n)
      then let? z := int_of_string n in Ret (Some (PInt z))
      else let? q := float_of_string n in Ret (Some (PFloat q))
  | Attr None None (Some m) =>
      if bool_decide (dom m = ∅) then Ret None
      else
        let? data := collect (unmarshal_value <$> m) in
        Ret (Some (PDict data))
  | Attr None None None => Ret None
  end.

Definition unmarshal_dynamodb_json (dynamodb_json : image)
  : res (gmap string pyval) :=
  collect (unmarshal_value <$> dynamodb_json).

(** [subscribers > 0]: defined between numbers only. *)
Definition positive (v : pyval) : res bool :=
  let? q := as_number v in Ret (Qltb 0 q).

(** The value of [buzz_score] when the item is built. *)
Definition buzz_score (E : env) (original_data : gmap string pyval) : res num :=
  let views := get_default original_data "views" (PInt 0) in
  let subscribers := get_default original_data "subscriber_count" (PInt 1) in
  let published_at_str := get original_data "published_at" in
  let crawled_at_str := get original_data "crawled_at" in
  let? timed :=
    if truthy published_at_str && truthy crawled_at_str
    then positive subscribers else Ret false in
  if timed then
    let? dt_crawled := parse_time E crawled_at_str in
    let? dt_published := parse_time E published_at_str in
    let? secs := total_seconds dt_crawled dt_published in
    let? elapsed_hours := float_div secs (Float64.Finite 3600) in
    let elapsed_hours :=
      if Float64.ltb elapsed_hours (Float64.Finite 1)
      then Float64.Finite 1 else elapsed_hours in
    let? v := to_float views in
    let hundred_views := Float64.mul (Float64.Finite 100) v in
    let? s := to_float subscribers in
    let? score :=
      float_div hundred_views (Float64.mul s elapsed_hours) in
    Ret (clamp_score score)
  else Ret (NInt 1).

(** The dictionary [item] of [save_to_semifinal_db]. *)
Definition build_item (E : env) (original_data : gmap string pyval)
    (extracted_data : pyval) : res (gmap string pyval) :=
  let? score := buzz_score E original_data in
  let? post_id := subscript original_data "videoId" in
  let? url := subscript original_data "url" in
  let? title := subscript original_data "title" in
  let? place_name := attr_get extracted_data "placeName" (PStr "N/A") in
  let? address := attr_get extracted_data "address" (PStr "N/A") in
  let? fetched_at := subscript original_data "crawled_at" in
  Ret (<["postId" := post_id]>
       (<["platform" := PStr "Youtube"]>
       (<["url" := url]>
       (<["title" := title]>
       (<["placeName" := place_name]>
       (<["address" := address]>
       (<["buzz" := PInt (py_int score)]>
       (<["fetchedAt" := fetched_at]> ∅)))))))).

(** [save_to_semifinal_db]: the [except ClientError] branch has no
    [return], so the function yields [None] there. *)
Definition save_to_semifinal_db (E : env) (original_data : gmap string pyval)
    (extracted_data : pyval) : M pyval :=
  if negb (ddb_table E) then ret (PBool false)
  else write_item E PNone (build_item E original_data extracted_data).

(** [f"Title: {...get('title', '')}\nDescription: {...get('description', '')}"] *)
Definition extraction_text (E : env) (original_data : gmap string pyval) : string :=
  "Title: " ++ format E (get_default original_data "title" (PStr ""))
  ++ String newline
       ("Description: "
        ++ format E (get_default original_data "description" (PStr ""))).

(** The body of [for record in event['Records']]; the result is the
    increment of [saved_count]. *)
Definition process_record (E : env) (record : Stream.record) : M Z :=
  if is_upsert record then
    let! new_image := lift (new_image record) in
    let! original_data := lift (unmarshal_dynamodb_json new_image) in
    let! extracted_data :=
      call_gemini_for_extraction E ("TEXT: " ++ extraction_text E original_data) in
    if truthy extracted_data then
      let! saved := save_to_semifinal_db E original_data extracted_data in
      ret (if truthy saved then 1 else 0)
    else ret 0
  else ret 0.

Fixpoint process_records (E : env) (records : list Stream.record)
    (saved_count : Z) : M Z :=
  match records with
  | [] => ret saved_count
  | record :: rest =>
      let! n := process_record E record in
      process_records E rest (saved_count + n)
  end.

(** [lambda_handler]; the result is the [statusCode] and [saved_count]. *)
Definition lambda_handler (E : env) (records : list Stream.record)
  : M (Z * Z) :=
  if negb (ddb_table E) || negb (gemini_client E) then ret (500, 0)
  else
    let! saved_count := process_records E records 0 in
    ret (200, saved_count).

End YoutubeExtract.

(** ** GeoCodeingFunction.py *)

Module GeoCoding.
Import Py World Stream.

Record env : Type := mkEnv {
  (** [DDB_TARGET_TABLE] was initialised *)
  ddb_target_table : bool;
  (** [LOCATION_CLIENT] was initialised *)
  location_client : bool;
  (** [PLACE_INDEX_NAME] *)
  place_index_name : string;
  (** [LOCATION_CLIENT.search_place_index_for_text(IndexName=..., Text=...,
      FilterCountries=['JPN'], MaxResults=1)] *)
  search_place_index_for_text : string -> pyval -> res pyval;
  (** [put_item(Item=item)]: [None] when the store accepts the write *)
  put_item : gmap string pyval -> option exn
}.

(** [unmarshal_dynamodb_json] *)
Fixpoint unmarshal_value (value : attr) : res (option pyval) :=
  match value with
  | Attr (Some s) _ _ => Ret (Some (PStr s))
  | Attr None (Some n) _ =>
      if negb (contains "." n)
      then let? z := int_of_string n in Ret (Some (PInt z))
      else let? q := float_of_string n in Ret (Some (PFloat q))
  | Attr None None (Some m) =>
      if bool_decide (dom m = ∅) then Ret None
      else
        let? data := collect (unmarshal_value <$> m) in
        Ret (Some (PDict data))
  | Attr None None None => Ret None
  end.

Definition unmarshal_dynamodb_json (dynamodb_json : image)
  : res (gmap string pyval) :=
  collect (unmarshal_value <$> dynamodb_json).

(** [address in ['N/A', 'null']] *)
Definition is_sentinel (address : pyval) : bool :=
  is_str address "N/A" || is_str address "null".

(** The body of the [try] in [geocode_address], after the request. *)
Definition read_response (response : pyval) : res pyval :=
  if truthy response then
    let? results := item_key response "Results" in
    if truthy results then
      let? first := item_index results 0 in
      let? place := item_key first "Place" in
      let? geometry := item_key place "Geometry" in
      let? point := item_key geometry "Point" in
      let? p0 := item_index point 0 in
      let? p1 := item_index point 1 in
      Ret (PDict (<["lng" := p0]> (<["lat" := p1]> ∅)))
    else Ret PNone
  else Ret PNone.

Definition geocode_address (E : env) (address : pyval) : M pyval :=
  if negb (location_client E) || negb (truthy address)
     || is_sentinel address || negb (truthy (PStr (place_index_name E)))
  then ret PNone
  else
    try_except
      (let! _ := emit (EvGeocode (place_index_name E) address) in
       let! response :=
         lift (search_place_index_for_text E (place_index_name E) address) in
       lift (read_response response))
      (fun _ => ret PNone).

(** The dictionary [item] of [save_to_final_db]. *)
Definition build_item (data : gmap string pyval) (coords : pyval)
  : res (gmap string pyval) :=
  let? post_id := subscript data "postId" in
  let? platform := subscript data "platform" in
  let? url := subscript data "url" in
  let? title := subscript data "title" in
  let? fetched_at := subscript data "fetchedAt" in
  let place_name := get_default data "placeName" (PStr "N/A") in
  let address := get_default data "address" (PStr "N/A") in
  let? lat_v := attr_get coords "lat" (PFloat 0) in
  let? lat := decimal_of_value lat_v in
  let? lng_v := attr_get coords "lng" (PFloat 0) in
  let? lng := decimal_of_value lng_v in
  let buzz := get_default data "buzz" (PInt 0) in
  Ret (<["postId" := post_id]>
       (<["platform" := platform]>
       (<["url" := url]>
       (<["title" := title]>
       (<["fetchedAt" := fetched_at]>
       (<["placeName" := place_name]>
       (<["address" := address]>
       (<["lat" := PDecimal lat]>
       (<["lng" := PDecimal lng]>
       (<["buzz" := buzz]> ∅)))))))))).

Definition save_to_final_db (E : env) (data : gmap string pyval)
    (coords : pyval) : M bool :=
  if negb (ddb_target_table E) then ret false
  else
    match build_item data coords with
    | Raise _ => ret false
    | Ret item =>
        match put_item E item with
        | None => let! _ := emit (EvPut item) in ret true
        | Some _ => ret false
        end
    end.

(** [record_id and address_to_geocode and
     address_to_geocode not in ['N/A', 'null', None]] *)
Definition geocodable (record_id address : pyval) : bool :=
  truthy record_id && truthy address
  && negb (is_sentinel address || is_none address).

(** The body of [for record in event['Records']]; the result is the
    increment of [success_count]. *)
Definition process_record (E : env) (record : Stream.record) : M Z :=
  if is_upsert record then
    let! new_image := lift (new_image record) in
    let! original_data := lift (unmarshal_dynamodb_json new_image) in
    let record_id := get original_data "postId" in
    let address_to_geocode := get original_data "address" in
    if geocodable record_id address_to_geocode then
      let! coordinates := geocode_address E address_to_geocode in
      if truthy coordinates then
        let! saved := save_to_final_db E original_data coordinates in
        ret (if saved then 1 else 0)
      else ret 0
    else ret 0
  else ret 0.

Fixpoint process_records (E : env) (records : list Stream.record)
    (success_count : Z) : M Z :=
  match records with
  | [] => ret success_count
  | record :: rest =>
      let! n := process_record E record in
      process_records E rest (success_count + n)
  end.

(** [lambda_handler]; the result is the [statusCode] and [success_count]. *)
Definition lambda_handler (E : env) (records : list Stream.record)
  : M (Z * Z) :=
  if negb (ddb_target_table E) || negb (location_client E) then ret (500, 0)
  else
    let! success_count := process_records E records 0 in
    ret (200, success_count).

End GeoCoding.

(** ** InstagramCrawlFunction.py *)

Module InstagramCrawl.
Import Py World.

Record env : Type := mkEnv {
  (** the global [table] exists and is set *)
  table : bool;
  (** [table.put_item(Item=item)]: [None] when the store accepts the write *)
  put_item : gmap string pyval -> option exn;
  (** [datetime.now(timezone.utc).isoformat()] *)
  utcnow_iso : string
}.

(** The dictionary [item] of [save_to_dynamodb]. *)
Definition build_item (E : env) (media_item : gmap string pyval)
  : res (gmap string pyval) :=
  let? caption :=
    str_replace (get_default media_item "caption" (PStr " ")) newline " " in
  let? like_count := int_of_value (get_default media_item "like_count" (PInt 0)) in
  let? comments_count :=
    int_of_value (get_default media_item "comments_count" (PInt 0)) in
  Ret (<["media_id" := get media_item "id"]>
       (<["permalink" := get media_item "permalink"]>
       (<["caption" := PStr caption]>
       (<["timestamp" := get media_item "timestamp"]>
       (<["like_count" := PInt like_count]>
       (<["comments_count" := PInt comments_count]>
       (<["media_type" := get media_item "media_type"]>
       (<["crawled_at" := PStr (utcnow_iso E)]> ∅)))))))).

Definition save_to_dynamodb (E : env) (media_item : gmap string pyval) : M bool :=
  if negb (table E) then ret false
  else
    match build_item E media_item with
    | Raise _ => ret false
    | Ret item =>
        match put_item E item with
        | None => let! _ := emit (EvPut item) in ret true
        | Some _ => ret false
        end
    end.

End InstagramCrawl.

(** ** InstagramCrawlFunction.py: fetching and the handler *)

Module InstagramFetch.
Import Py World.

(** What [requests.get(...)], [raise_for_status()] and [response.json()]
    come to: the decoded body, a [requests.exceptions.RequestException]
    (the one class the crawler catches), or any other exception. *)
Inductive fetched : Type :=
| Fetched (data : pyval)
| RequestFailed
| Crashed (e : exn).

(** Where a page of media is asked: the first page of a hashtag, or the
    address a page gave as [paging.next]. *)
Inductive endpoint : Type :=
| TopMedia (hashtag_id : pyval)
| Next (url : pyval).

Record api : Type := mkApi {
  (** [ACCESS_TOKEN] *)
  access_token : string;
  (** [INSTAGRAM_BUSINESS_ACCOUNT_ID] *)
  account_id : string;
  (** the request of [get_hashtag_id] *)
  search_hashtag : fetched;
  (** the n-th request of [get_top_hashtag_media], sent to an endpoint *)
  top_media : nat -> endpoint -> fetched;
  (** [datetime.strptime(v, '%Y-%m-%dT%H:%M:%S%z')] *)
  strptime : pyval -> res datetime;
  (** [datetime.now(timezone.utc)] in [get_top_hashtag_media] *)
  now : datetime
}.

Definition MAX_COUNT : Z := 80.
Definition MAX_DAYS : Z := 30.

Definition unset_token (A : api) : bool :=
  String.eqb (access_token A) "YOUR_ACCESS_TOKEN".

Definition unset_account (A : api) : bool :=
  String.eqb (account_id A) "YOUR_INSTAGRAM_BUSINESS_ACCOUNT_ID".

(** ["key" in v] on an arbitrary value. *)
Definition has_member (key : string) (v : pyval) : res bool :=
  match v with
  | PDict d => Ret (bool_decide (is_Some (d !! key)))
  | PStr s => Ret (contains key s)
  | PList l => Ret (existsb (fun x => is_str x key) l)
  | _ => Raise TypeError
  end.

(** [for x in v]: the values a loop over [v] meets. *)
Definition iterate (v : pyval) : res (list pyval) :=
  match v with
  | PList l => Ret l
  | PDict d => Ret (PStr <$> (map_to_list d).*1)
  | PStr s => Ret ((fun c => PStr (String c EmptyString)) <$> list_ascii_of_string s)
  | _ => Raise TypeError
  end.

(** [get_hashtag_id]: no request is sent without a token and an account. *)
Definition get_hashtag_id (A : api) : res pyval :=
  if String.eqb (access_token A) "" || unset_token A then Ret PNone
  else if String.eqb (account_id A) "" || unset_account A then Ret PNone
  else
    match search_hashtag A with
    | RequestFailed => Ret PNone
    | Crashed e => Raise e
    | Fetched data =>
        let? listed :=
          if truthy data then has_member "data" data else Ret false in
        if listed then
          let? entries := item_key data "data" in
          if truthy entries then
            let? first := item_index entries 0 in
            item_key first "id"
          else Ret PNone
        else Ret PNone
    end.

(** [datetime.now(timezone.utc) - timedelta(days=max_days)] *)
Definition date_limit (A : api) (max_days : Z) : datetime :=
  mkDatetime (dt_micros (now A) - max_days * 86400000000) (dt_aware (now A)).

(** [a < b] between datetimes. *)
Definition earlier (a b : datetime) : res bool :=
  if Bool.eqb (dt_aware a) (dt_aware b)
  then Ret (dt_micros a <? dt_micros b)
  else Raise TypeError.

(** How the loop over one page ends: at its end, or at a [return]. *)
Inductive scan : Type :=
| Continue (all_media : list (gmap string pyval))
| Return (all_media : list (gmap string pyval)).

(** [for media in new_media: ...] *)
Fixpoint scan_page (A : api) (limit : datetime) (max_count : Z)
    (new_media : list pyval) (all_media : list (gmap string pyval))
  : res scan :=
  match new_media with
  | [] => Ret (Continue all_media)
  | media :: rest =>
      match media with
      | PDict m =>
          let? media_timestamp := strptime A (get m "timestamp") in
          let? old := earlier media_timestamp limit in
          if old then Ret (Return all_media)
          else if max_count <=? Z.of_nat (length all_media)
          then Ret (Return all_media)
          else scan_page A limit max_count rest (all_media ++ [m])
      | _ => Raise AttributeError
      end
  end.

(** The [while len(all_media) < max_count] loop; [None] when [fuel]
    rounds were not enough to leave it. *)
Fixpoint fetch_pages (fuel : nat) (A : api) (limit : datetime)
    (max_count : Z) (page : nat) (target : endpoint)
    (all_media : list (gmap string pyval))
  : M (option (list (gmap string pyval))) :=
  match fuel with
  | O => ret None
  | S fuel' =>
      if negb (Z.of_nat (length all_media) <? max_count)
      then ret (Some all_media)
      else
        match top_media A page target with
        | RequestFailed => ret (Some all_media)
        | Crashed e => raise e
        | Fetched (PDict data) =>
            let! new_media :=
              lift (iterate (get_default data "data" (PList []))) in
            let! scanned :=
              lift (scan_page A limit max_count new_media all_media) in
            match scanned with
            | Return collected => ret (Some collected)
            | Continue collected =>
                match data !! "paging" with
                | Some paging =>
                    let! more := lift (has_member "next" paging) in
                    if more then
                      let! url := lift (item_key paging "next") in
                      let! _ := emit (EvSleep 1) in
                      fetch_pages fuel' A limit max_count (S page)
                        (Next url) collected
                    else ret (Some collected)
                | None => ret (Some collected)
                end
            end
        | Fetched _ => raise AttributeError
        end
  end.

Definition get_top_hashtag_media (fuel : nat) (A : api) (hashtag_id : pyval)
    (max_count max_days : Z) : M (option (list (gmap string pyval))) :=
  if negb (truthy hashtag_id) then ret (Some [])
  else
    fetch_pages fuel A (date_limit A max_days) max_count 0
      (TopMedia hashtag_id) [].

(** [float(v)] on an arbitrary value. *)
Definition float_of_value (v : pyval) : res Q :=
  match v with
  | PInt z => Ret (inject_Z z)
  | PFloat q => Ret q
  | PDecimal q => Ret q
  | PBool b => Ret (if b then 1%Q else 0%Q)
  | PStr s => float_of_string s
  | _ => Raise TypeError
  end.

(** [float(x.get('like_count', 0))] *)
Definition like_key (media : gmap string pyval) : res Q :=
  float_of_value (get_default media "like_count" (PInt 0)).

(** [sorted(l, key=..., reverse=True)] on items paired with their keys:
    stable, greatest key first. *)
Fixpoint insert_desc {A} (x : Q * A) (l : list (Q * A)) : list (Q * A) :=
  match l with
  | [] => [x]
  | y :: rest =>
      if Qltb (fst x) (fst y) then y :: insert_desc x rest
      else x :: l
  end.

Definition sort_desc {A} (l : list (Q * A)) : list (Q * A) :=
  fold_right insert_desc [] l.

(** The keys of a list; the first exception if a key cannot be computed. *)
Fixpoint keyed (media_list : list (gmap string pyval))
  : res (list (Q * gmap string pyval)) :=
  match media_list with
  | [] => Ret []
  | media :: rest =>
      let? k := like_key media in
      let? keyed_rest := keyed rest in
      Ret ((k, media) :: keyed_rest)
  end.

(** [try: sorted(...) except Exception: media_list] *)
Definition media_list_sorted (media_list : list (gmap string pyval))
  : list (gmap string pyval) :=
  match keyed media_list with
  | Ret pairs => (sort_desc pairs).*2
  | Raise _ => media_list
  end.

(** [for media in media_list_sorted: if save_to_dynamodb(media): ...] *)
Fixpoint save_all (E : InstagramCrawl.env)
    (media_list : list (gmap string pyval)) (saved_count : Z) : M Z :=
  match media_list with
  | [] => ret saved_count
  | media :: rest =>
      let! saved := InstagramCrawl.save_to_dynamodb E media in
      save_all E rest (if saved then saved_count + 1 else saved_count)
  end.

(** [lambda_handler]: the [statusCode] and the number of items saved;
    [None] when [fuel] rounds of paging were not enough. *)
Definition lambda_handler (fuel : nat) (A : api) (E : InstagramCrawl.env)
  : M (option (Z * Z)) :=
  let! hashtag_id := lift (get_hashtag_id A) in
  if negb (truthy hashtag_id) && (unset_token A || unset_account A)
  then ret (Some (400, 0))
  else if truthy hashtag_id then
    let! fetched_media :=
      get_top_hashtag_media fuel A hashtag_id MAX_COUNT MAX_DAYS in
    match fetched_media with
    | None => ret None
    | Some [] => ret (Some (200, 0))
    | Some media_list =>
        let! saved_count := save_all E (media_list_sorted media_list) 0 in
        ret (Some (200, saved_count))
    end
  else ret (Some (500, 0)).

End InstagramFetch.

(** ** A reader for ISO 8601 timestamps

    [datetime.fromisoformat] is a field of the extractors' environment.
    [Iso.fromisoformat] is the instance used to run the handlers on
    concrete records: it reads the forms the two crawlers store,
    [YYYY-MM-DDTHH:MM:SS], an optional [.ffffff] and an optional UTC offset
    [+HH:MM] or [+HHMM]. *)

Module Iso.
Import Py.

(** The [len] digits of [s] that start at position [pos]. *)
Definition number_at (s : string) (pos len : nat) : option Z :=
  match read_digits (String.substring pos len s) 0 0 with
  | (v, cnt, EmptyString) => if Nat.eqb cnt len then Some v else None
  | _ => None
  end.

Definition char_at (s : string) (pos : nat) (c : ascii) : bool :=
  match String.get pos s with
  | Some c' => Ascii.eqb c' c
  | None => false
  end.

Definition is_leap (y : Z) : bool :=
  ((y mod 4 =? 0) && negb (y mod 100 =? 0)) || (y mod 400 =? 0).

Definition days_in_month (y m : Z) : Z :=
  if m =? 2 then (if is_leap y then 29 else 28)
  else if (m =? 4) || (m =? 6) || (m =? 9) || (m =? 11) then 30
  else 31.

(** Days from 1970-01-01 to the given civil date. *)
Definition days_from_civil (y m d : Z) : Z :=
  let y' := if m <=? 2 then y - 1 else y in
  let era := y' / 400 in
  let yoe := y' - era * 400 in
  let mp := if 2 <? m then m - 3 else m + 9 in
  let doy := (153 * mp + 2) / 5 + d - 1 in
  let doe := yoe * 365 + yoe / 4 - yoe / 100 + doy in
  era * 146097 + doe - 719468.

(** The part after the seconds: microseconds and the offset in minutes. *)
Definition read_fraction (rest : string) : option (Z * string) :=
  match rest with
  | String "." r =>
      match number_at r 0 6 with
      | Some us => Some (us, String.substring 6 (String.length r - 6) r)
      | None => None
      end
  | _ => Some (0, rest)
  end.

Definition read_offset (rest : string) : option (option Z) :=
  match rest with
  | EmptyString => Some None
  | String sg r =>
      let sign :=
        if Ascii.eqb sg "+" then Some 1
        else if Ascii.eqb sg "-" then Some (-1) else None in
      let hm :=
        if Nat.eqb (String.length r) 5 && char_at r 2 ":"
        then Some (number_at r 0 2, number_at r 3 2)
        else if Nat.eqb (String.length r) 4
        then Some (number_at r 0 2, number_at r 2 2)
        else None in
      match sign, hm with
      | Some sg', Some (Some h, Some mi) =>
          if (h <? 24) && (mi <? 60) then Some (Some (sg' * (h * 60 + mi)))
          else None
      | _, _ => None
      end
  end.

Definition fromisoformat (s : string) : res datetime :=
  let fields :=
    (number_at s 0 4, number_at s 5 2, number_at s 8 2,
     number_at s 11 2, number_at s 14 2, number_at s 17 2) in
  let seps :=
    char_at s 4 "-" && char_at s 7 "-" && (char_at s 10 "T" || char_at s 10 " ")
    && char_at s 13 ":" && char_at s 16 ":" in
  match fields with
  | (Some y, Some mo, Some d, Some h, Some mi, Some sec) =>
      let valid :=
        seps && (1 <=? y) && (1 <=? mo) && (mo <=? 12) && (1 <=? d)
        && (d <=? days_in_month y mo) && (h <? 24) && (mi <? 60) && (sec <? 60) in
      match read_fraction (String.substring 19 (String.length s - 19) s) with
      | Some (us, rest) =>
          match read_offset rest with
          | Some off =>
              if valid then
                let local :=
                  ((days_from_civil y mo d * 24 + h) * 60 + mi) * 60 + sec in
                Ret (mkDatetime
                       ((local - 60 * default 0 off) * 1000000 + us)
                       (bool_decide (is_Some off)))
              else Raise ValueError
          | None => Raise ValueError
          end
      | None => Raise ValueError
      end
  | _ => Raise ValueError
  end.

End Iso.

(** ** The buzz formulas as the specification words them *)

Module Spec.
Import Py.

(** "floored to a minimum of [m]" *)
Definition floor_at (m x : Float64.t) : Float64.t :=
  if Float64.ltb x m then m else x.

(** "clamp(x, lo, hi)", inclusive on both ends *)
Definition clamp (x lo hi : Q) : Q :=
  if Qltb x lo then lo else if Qltb hi x then hi else x.

(** "truncated to integer" (toward zero, no rounding) *)
Definition truncate (x : Q) : Z := Z.quot (Qnum x) (Zpos (Qden x)).

(** The clamp to 1..5 and the truncation of a raw score: an infinite
    score clamps to the nearer end, and nan has no clamp. *)
Definition clamped (raw : Float64.t) : option Z :=
  match raw with
  | Float64.Finite q => Some (truncate (clamp q 1 5))
  | Float64.Inf negative => Some (if negative then 1 else 5)
  | Float64.NaN => None
  end.

(** Instagram: clamp(likeCount / elapsedDays / 100, 1, 5), elapsedDays
    floored to 0.01; each division is a float division. *)
Definition instagram_buzz (like_count elapsed_days : Float64.t) : option Z :=
  clamped
    (Float64.quot
       (Float64.quot like_count (floor_at Extract.hundredth elapsed_days))
       (Float64.Finite 100)).

(** YouTube: clamp(100 * viewCount / (subscriberCount * elapsedHours), 1, 5),
    elapsedHours floored to 1.0; the products and the division are float
    operations. *)
Definition youtube_buzz (views subscriber_count elapsed_hours : Float64.t)
  : option Z :=
  clamped
    (Float64.quot
       (Float64.mul (Float64.Finite 100) views)
       (Float64.mul subscriber_count
          (floor_at (Float64.Finite 1) elapsed_hours))).

(** Elapsed time in days and in hours, from the seconds between the two
    instants. *)
Definition elapsed_days (seconds : Float64.t) : Float64.t :=
  Float64.quot seconds (Float64.Finite 86400).

Definition elapsed_hours (seconds : Float64.t) : Float64.t :=
  Float64.quot seconds (Float64.Finite 3600).

(** The unmarshalling contract: strings pass through, a number is an
    integer when its text has no decimal point and a float otherwise. *)
Definition number_value (n : string) : res pyval :=
  if contains "." n
  then let? q := float_of_string n in Ret (PFloat q)
  else let? z := int_of_string n in Ret (PInt z).

(** An attempt that "fails with a rate-limit signal". *)
Definition rate_limit_failure (outcome : res pyval) : bool :=
  match outcome with
  | Raise e => Extract.is_rate_limit e
  | Ret _ => false
  end.

(** What [k] rate-limited attempts in a row leave in the trace: a request
    and the wait that follows it, [k] times over, the attempts numbered
    from [attempt] and the jitter drawn from the [draw]-th random number
    on. *)
Fixpoint rate_limited_rounds (E : Extract.env) (contents : string)
    (attempt draw k : nat) : World.trace :=
  match k with
  | O => []
  | S k' =>
      World.EvGenerate contents
      :: World.EvSleep
           (Extract.wait_time attempt (Extract.uniform E draw))
      :: rate_limited_rounds E contents (S attempt) (S draw) k'
  end.

(** "Geocoding returns coordinates": the result is an object whose [lat]
    and [lng] are numbers. *)
Definition numeric_coordinates (v : pyval) : option (Q * Q) :=
  match v with
  | PDict c =>
      match c !! "lat", c !! "lng" with
      | Some lat_v, Some lng_v =>
          match decimal_of_value lat_v, decimal_of_value lng_v with
          | Ret lat, Ret lng => Some (lat, lng)
          | _, _ => None
          end
      | _, _ => None
      end
  | _ => None
  end.

(** Total of a list of waits. *)
Definition total_wait (l : list Q) : Q := fold_right Qplus 0%Q l.

(** What [n] attempts numbered from [a] may wait in all when every jitter
    is at most one second. *)
Fixpoint wait_budget (a n : nat) : Q :=
  match n with
  | O => 0%Q
  | S n' => (inject_Z (10 * 2 ^ Z.of_nat a) + 1 + wait_budget (S a) n')%Q
  end.

(** A collected media item is one whose timestamp was read and found not
    earlier than the limit. *)
Definition in_window (A : InstagramFetch.api) (limit : datetime)
    (media : gmap string pyval) : Prop :=
  exists t,
    InstagramFetch.strptime A (get media "timestamp") = Ret t
    /\ InstagramFetch.earlier t limit = Ret false.


End Spec.

(** ** Concrete environments and records *)

Module Samples.
Import Py World Stream.

(** An extraction result with both fields. *)
Definition answer : gmap string pyval :=
  <["placeName" := PStr "Ramen Ichi"]> (<["address" := PStr "Shibuya, Tokyo"]> ∅).

(** Both clients initialised, a store that accepts every write, and an
    inference service that answers the n-th request with the n-th entry of
    [script] (and fails for good once the script is used up). *)
Definition extract_env (script : list (res pyval)) : Extract.env :=
  {| Extract.gemini_client := true;
     Extract.ddb_table := true;
     Extract.generate_content :=
       fun n _ => nth n script (Raise (GenericError "unavailable" None));
     Extract.uniform := fun _ => 1 # 2;
     Extract.put_item := fun _ => None;
     Extract.fromisoformat := Iso.fromisoformat;
     Extract.utcnow_iso := "2024-03-01T00:00:00+00:00";
     Extract.repr := fun _ => "" |}.

(** A raw Instagram post after unmarshalling. *)
Definition instagram_post (likes : Z) (posted crawled : string)
  : gmap string pyval :=
  <["media_id" := PStr "17900000000000001"]>
  (<["permalink" := PStr "https://www.instagram.com/p/abc/"]>
  (<["caption" := PStr "ramen"]>
  (<["timestamp" := PStr posted]>
  (<["crawled_at" := PStr crawled]>
  (<["like_count" := PInt likes]> ∅))))).

(** A raw YouTube video after unmarshalling; [None] leaves the timestamp
    out of the record. *)
Definition youtube_video (views subscribers : Z)
    (published crawled : option string) : gmap string pyval :=
  let with_time (k : string) (t : option string) (d : gmap string pyval) :=
    match t with
    | Some s => <[k := PStr s]> d
    | None => d
    end in
  with_time "published_at" published
    (with_time "crawled_at" crawled
       (<["videoId" := PStr "dQw4w9WgXcQ"]>
       (<["url" := PStr "https://www.youtube.com/watch?v=dQw4w9WgXcQ"]>
       (<["title" := PStr "ramen tour"]>
       (<["description" := PStr "Shibuya"]>
       (<["views" := PInt views]>
       (<["subscriber_count" := PInt subscribers]> ∅))))))).

(** Two rate-limited attempts and then an answer; a failure of another
    kind on the first attempt. *)
Definition limited_script : list (res pyval) :=
  [Raise (GenericError "429 TooManyRequests" None);
   Raise (GenericError "quota exceeded" (Some 429));
   Ret (PDict answer)].

Definition broken_script : list (res pyval) :=
  [Raise (GenericError "500 internal error" (Some 500))].

(** A stream image with one number attribute that has a decimal point,
    and the INSERT record that carries it. *)
Definition decimal_image : image :=
  <["media_id" := Attr (Some "17900000000000001") None None]>
  (<["caption" := Attr (Some "ramen") None None]>
  (<["rating" := Attr None (Some "4.5") None]> ∅)).

Definition decimal_record : Stream.record :=
  mkRecord "INSERT" (Some decimal_image).

(** The answer the system instruction asks for when the text names no
    place: both values null. *)
Definition null_answer : gmap string pyval :=
  <["placeName" := PNone]> (<["address" := PNone]> ∅).

(** An INSERT record of the raw Instagram store. *)
Definition instagram_image : image :=
  <["media_id" := Attr (Some "17900000000000001") None None]>
  (<["permalink" := Attr (Some "https://www.instagram.com/p/abc/") None None]>
  (<["caption" := Attr (Some "ramen") None None]>
  (<["timestamp" := Attr (Some "2024-01-01T00:00:00+0000") None None]>
  (<["crawled_at" := Attr (Some "2024-01-02T00:00:00+00:00") None None]>
  (<["like_count" := Attr None (Some "500") None]> ∅))))).

Definition instagram_record : Stream.record :=
  mkRecord "INSERT" (Some instagram_image).

(** An INSERT record of the raw YouTube store. *)
Definition youtube_image : image :=
  <["videoId" := Attr (Some "dQw4w9WgXcQ") None None]>
  (<["url" := Attr (Some "https://www.youtube.com/watch?v=dQw4w9WgXcQ") None None]>
  (<["title" := Attr (Some "ramen tour") None None]>
  (<["description" := Attr (Some "Shibuya") None None]>
  (<["published_at" := Attr (Some "2024-01-01T00:00:00Z") None None]>
  (<["crawled_at" := Attr (Some "2024-01-01T02:00:00+00:00") None None]>
  (<["views" := Attr None (Some "1000") None]>
  (<["subscriber_count" := Attr None (Some "100") None]> ∅))))))).

Definition youtube_record : Stream.record :=
  mkRecord "INSERT" (Some youtube_image).

(** A geocoding response with one result at [point], and one with no
    result. *)
Definition provider_response (point : list pyval) : pyval :=
  PDict {[ "Results" :=
    PList [PDict {[ "Place" :=
      PDict {[ "Geometry" :=
        PDict {[ "Point" := PList point ]} ]} ]}] ]}.

Definition empty_response : pyval :=
  PDict {[ "Results" := PList [] ]}.

(** A configured geocoder whose provider answers every request with
    [outcome], writing to a store that accepts every write. *)
Definition geocoder_env (outcome : res pyval) : GeoCoding.env :=
  {| GeoCoding.ddb_target_table := true;
     GeoCoding.location_client := true;
     GeoCoding.place_index_name := "buzz-map-index";
     GeoCoding.search_place_index_for_text := fun _ _ => outcome;
     GeoCoding.put_item := fun _ => None |}.

(** An INSERT record of the intermediate store with the given address
    attribute. *)
Definition intermediate_image (address : option string) : image :=
  let base : image :=
    <["postId" := Attr (Some "17900000000000001") None None]>
    (<["platform" := Attr (Some "Instagram") None None]>
    (<["url" := Attr (Some "https://www.instagram.com/p/abc/") None None]>
    (<["title" := Attr (Some "ramen") None None]>
    (<["placeName" := Attr (Some "Ramen Ichi") None None]>
    (<["buzz" := Attr None (Some "5") None]>
    (<["fetchedAt" := Attr (Some "2024-03-01T00:00:00+00:00") None None]> ∅)))))) in
  match address with
  | Some a => <["address" := Attr (Some a) None None]> base
  | None => base
  end.

Definition intermediate_record (address : option string) : Stream.record :=
  mkRecord "INSERT" (Some (intermediate_image address)).

(** The same record once unmarshalled, with the address "Shibuya, Tokyo". *)
Definition intermediate_data : gmap string pyval :=
  <["address" := PStr "Shibuya, Tokyo"]>
  (<["postId" := PStr "17900000000000001"]>
  (<["platform" := PStr "Instagram"]>
  (<["url" := PStr "https://www.instagram.com/p/abc/"]>
  (<["title" := PStr "ramen"]>
  (<["placeName" := PStr "Ramen Ichi"]>
  (<["buzz" := PInt 5]>
  (<["fetchedAt" := PStr "2024-03-01T00:00:00+00:00"]> ∅))))))).

(** Raw records that lack a required field: a YouTube video without
    [videoId], one without [title] and [description], and an Instagram
    post without [caption]. *)
Definition youtube_record_without_id : Stream.record :=
  mkRecord "INSERT" (Some (delete "videoId" youtube_image)).

Definition youtube_record_without_text : Stream.record :=
  mkRecord "INSERT"
    (Some (delete "title" (delete "description" youtube_image))).

Definition instagram_record_without_caption : Stream.record :=
  mkRecord "INSERT" (Some (delete "caption" instagram_image)).

(** The crawler of the raw Instagram store, and two media items as the
    hashtag endpoint returns them: one with a two-line caption, one
    without any. *)
Definition crawl_env : InstagramCrawl.env :=
  {| InstagramCrawl.table := true;
     InstagramCrawl.put_item := fun _ => None;
     InstagramCrawl.utcnow_iso := "2024-01-02T00:00:00+00:00" |}.

Definition media (caption : option string) : gmap string pyval :=
  let base : gmap string pyval :=
    <["id" := PStr "17900000000000001"]>
    (<["permalink" := PStr "https://www.instagram.com/p/abc/"]>
    (<["timestamp" := PStr "2024-01-01T00:00:00+0000"]>
    (<["like_count" := PInt 500]>
    (<["comments_count" := PInt 3]>
    (<["media_type" := PStr "IMAGE"]> ∅))))) in
  match caption with
  | Some c => <["caption" := PStr c]> base
  | None => base
  end.

(** The raw item stored for [media None]. *)
Definition stored_item_without_caption : gmap string pyval :=
  <["media_id" := PStr "17900000000000001"]>
  (<["permalink" := PStr "https://www.instagram.com/p/abc/"]>
  (<["caption" := PStr " "]>
  (<["timestamp" := PStr "2024-01-01T00:00:00+0000"]>
  (<["like_count" := PInt 500]>
  (<["comments_count" := PInt 3]>
  (<["media_type" := PStr "IMAGE"]>
  (<["crawled_at" := PStr "2024-01-02T00:00:00+00:00"]> ∅))))))).

(** The stream image DynamoDB sends for a stored raw Instagram item
    without caption in the source. *)
Definition stored_image_without_caption : image :=
  <["media_id" := Attr (Some "17900000000000001") None None]>
  (<["permalink" := Attr (Some "https://www.instagram.com/p/abc/") None None]>
  (<["caption" := Attr (Some " ") None None]>
  (<["timestamp" := Attr (Some "2024-01-01T00:00:00+0000") None None]>
  (<["like_count" := Attr None (Some "500") None]>
  (<["comments_count" := Attr None (Some "3") None]>
  (<["media_type" := Attr (Some "IMAGE") None None]>
  (<["crawled_at" := Attr (Some "2024-01-02T00:00:00+00:00") None None]>
     ∅))))))).

(** The intermediate records the two extractors write for
    [instagram_post 500] one day old and [youtube_video 1000 100] two
    hours old, with [answer] as extraction result. *)
Definition instagram_item : gmap string pyval :=
  <["postId" := PStr "17900000000000001"]>
  (<["platform" := PStr "Instagram"]>
  (<["url" := PStr "https://www.instagram.com/p/abc/"]>
  (<["title" := PStr "ramen"]>
  (<["placeName" := PStr "Ramen Ichi"]>
  (<["address" := PStr "Shibuya, Tokyo"]>
  (<["buzz" := PInt 5]>
  (<["fetchedAt" := PStr "2024-03-01T00:00:00+00:00"]> ∅))))))).

Definition youtube_item : gmap string pyval :=
  <["postId" := PStr "dQw4w9WgXcQ"]>
  (<["platform" := PStr "Youtube"]>
  (<["url" := PStr "https://www.youtube.com/watch?v=dQw4w9WgXcQ"]>
  (<["title" := PStr "ramen tour"]>
  (<["placeName" := PStr "Ramen Ichi"]>
  (<["address" := PStr "Shibuya, Tokyo"]>
  (<["buzz" := PInt 5]>
  (<["fetchedAt" := PStr "2024-01-01T02:00:00+00:00"]> ∅))))))).

(** The unmarshalled images of [instagram_record] and [youtube_record]. *)
Definition instagram_data : gmap string pyval :=
  instagram_post 500 "2024-01-01T00:00:00+0000" "2024-01-02T00:00:00+00:00".

Definition youtube_data : gmap string pyval :=
  youtube_video 1000 100
    (Some "2024-01-01T00:00:00Z") (Some "2024-01-01T02:00:00+00:00").

(** The final record written for [intermediate_data] resolved to the
    point [139.70, 35.65]. *)
Definition final_item : gmap string pyval :=
  <["postId" := PStr "17900000000000001"]>
  (<["platform" := PStr "Instagram"]>
  (<["url" := PStr "https://www.instagram.com/p/abc/"]>
  (<["title" := PStr "ramen"]>
  (<["fetchedAt" := PStr "2024-03-01T00:00:00+00:00"]>
  (<["placeName" := PStr "Ramen Ichi"]>
  (<["address" := PStr "Shibuya, Tokyo"]>
  (<["lat" := PDecimal (3565 # 100)]>
  (<["lng" := PDecimal (1397 # 10)]>
  (<["buzz" := PInt 5]> ∅))))))))).

Definition resolving_env : GeoCoding.env :=
  geocoder_env
    (Ret (provider_response [PFloat (1397 # 10); PFloat (3565 # 100)])).

(** A hashtag with two pages of media: two recent items, then one from
    before the window of 30 days that ends on 2024-01-02. *)
Definition media_at (id : string) (timestamp : string) (likes : Z)
  : gmap string pyval :=
  <["id" := PStr id]>
  (<["permalink" := PStr "https://www.instagram.com/p/abc/"]>
  (<["caption" := PStr "ramen"]>
  (<["timestamp" := PStr timestamp]>
  (<["like_count" := PInt likes]> ∅)))).

Definition first_page : pyval :=
  PDict (<["data" :=
            PList [PDict (media_at "1" "2024-01-01T00:00:00+0000" 10);
                   PDict (media_at "2" "2023-12-25T10:00:00+0000" 500)]]>
         (<["paging" := PDict {[ "next" := PStr "https://graph.facebook.com/page2" ]}]> ∅)).

Definition second_page : pyval :=
  PDict (<["data" :=
            PList [PDict (media_at "3" "2023-11-01T00:00:00+0000" 900)]]>
         (<["paging" := PDict {[ "next" := PStr "https://graph.facebook.com/page3" ]}]> ∅)).

Definition hashtag_api : InstagramFetch.api :=
  {| InstagramFetch.access_token := "token";
     InstagramFetch.account_id := "17841400000000000";
     InstagramFetch.search_hashtag :=
       InstagramFetch.Fetched
         (PDict {[ "data" := PList [PDict {[ "id" := PStr "17843826142012701" ]}] ]});
     InstagramFetch.top_media :=
       fun n _ =>
         match n with
         | O => InstagramFetch.Fetched first_page
         | S O => InstagramFetch.Fetched second_page
         | _ => InstagramFetch.RequestFailed
         end;
     InstagramFetch.strptime :=
       fun v =>
         match v with
         | PStr s => Iso.fromisoformat s
         | _ => Raise TypeError
         end;
     InstagramFetch.now := mkDatetime 1704153600000000 true |}.

(** A hashtag with one page of media and then an empty page that names
    no next page (only the previous one). *)
Definition only_page : pyval :=
  PDict (<["data" :=
            PList [PDict (media_at "1" "2024-01-01T00:00:00+0000" 10)]]>
         (<["paging" := PDict {[ "next" := PStr "https://graph.facebook.com/page2" ]}]> ∅)).

Definition empty_page : pyval :=
  PDict (<["data" := PList []]>
         (<["paging" := PDict {[ "previous" := PStr "https://graph.facebook.com/page1" ]}]> ∅)).

Definition drained_api : InstagramFetch.api :=
  {| InstagramFetch.access_token := "token";
     InstagramFetch.account_id := "17841400000000000";
     InstagramFetch.search_hashtag :=
       InstagramFetch.Fetched
         (PDict {[ "data" := PList [PDict {[ "id" := PStr "17843826142012701" ]}] ]});
     InstagramFetch.top_media :=
       fun n _ =>
         match n with
         | O => InstagramFetch.Fetched only_page
         | _ => InstagramFetch.Fetched empty_page
         end;
     InstagramFetch.strptime :=
       fun v =>
         match v with
         | PStr s => Iso.fromisoformat s
         | _ => Raise TypeError
         end;
     InstagramFetch.now := mkDatetime 1704153600000000 true |}.

(** A caption of two lines. *)
Definition two_line_caption : string :=
  String.append "ramen" (String newline "shop").

(** The raw item the crawler stores for [media_at id timestamp likes]. *)
Definition crawled_item (id : string) (timestamp : string) (likes : Z)
  : gmap string pyval :=
  <["media_id" := PStr id]>
  (<["permalink" := PStr "https://www.instagram.com/p/abc/"]>
  (<["caption" := PStr "ramen"]>
  (<["timestamp" := PStr timestamp]>
  (<["like_count" := PInt likes]>
  (<["comments_count" := PInt 0]>
  (<["media_type" := PNone]>
  (<["crawled_at" := PStr "2024-01-02T00:00:00+00:00"]> ∅))))))).

End Samples.

(** * Theorems *)

(** ** Rounding to binary64 *)

Section Rounding.
Local Open Scope Q_scope.

Lemma rne_bounds q :
  (Qfloor q <= Float64.rne q <= Qfloor q + 1)%Z.
Proof.
  unfold Float64.rne.
  destruct (q - inject_Z (Qfloor q) ?= 1 # 2); [destruct (Z.even _)| |]; lia.
Qed.

Lemma rne_mono p q : p <= q -> (Float64.rne p <= Float64.rne q)%Z.
Proof.
  intros Hpq.
  pose proof (Qfloor_resp_le _ _ Hpq) as Hf.
  destruct (Z.eq_dec (Qfloor p) (Qfloor q)) as [Heq|Hne].
  - unfold Float64.rne. rewrite Heq.
    destruct (Qcompare_spec (p - inject_Z (Qfloor q)) (1 # 2)) as [Hp|Hp|Hp];
      destruct (Qcompare_spec (q - inject_Z (Qfloor q)) (1 # 2)) as [Hq|Hq|Hq];
      try destruct (Z.even _); try lia; exfalso; lra.
  - pose proof (rne_bounds p). pose proof (rne_bounds q). lia.
Qed.

Lemma rne_Z z : Float64.rne (inject_Z z) = z.
Proof.
  unfold Float64.rne. rewrite Qfloor_Z.
  destruct (Qcompare_spec (inject_Z z - inject_Z z) (1 # 2)) as [H|H|H];
    try reflexivity; exfalso; lra.
Qed.

Lemma rne_le_Z q k : q <= inject_Z k -> (Float64.rne q <= k)%Z.
Proof. intros H. apply rne_mono in H. now rewrite rne_Z in H. Qed.

Lemma Z_le_rne q k : inject_Z k <= q -> (k <= Float64.rne q)%Z.
Proof. intros H. apply rne_mono in H. now rewrite rne_Z in H. Qed.

(** Powers of two *)
Lemma pow2_pos z : 0 < 2 ^ z.
Proof. now apply Qpower_0_lt. Qed.

Lemma pow2_add a b : 2 ^ (a + b) == 2 ^ a * 2 ^ b.
Proof. now apply Qpower_plus. Qed.

Lemma pow2_mono a b : (a <= b)%Z -> 2 ^ a <= 2 ^ b.
Proof. intros H. apply Qpower_le_compat_l; [exact H | discriminate]. Qed.

Lemma pow2_lt_inv a b : 2 ^ a < 2 ^ b -> (a < b)%Z.
Proof.
  intros H. destruct (Z_lt_le_dec a b) as [|Hle]; [assumption|].
  apply pow2_mono in Hle. exfalso. lra.
Qed.

Lemma pow2_Z n : (0 <= n)%Z -> inject_Z (2 ^ n) == 2 ^ n.
Proof. intros H. now rewrite Zpower_Qpower. Qed.

Lemma pow2_succ a : 2 ^ (a + 1) == 2 * 2 ^ a.
Proof. rewrite pow2_add. change (2 ^ 1) with 2. lra. Qed.

Lemma ilog2_spec q :
  0 < q -> 2 ^ Float64.ilog2 q <= q /\ q < 2 ^ (Float64.ilog2 q + 1).
Proof.
  intros Hq. unfold Float64.ilog2.
  destruct q as [n d]. cbn [Qnum Qden].
  assert (Hn : (0 < n)%Z) by (unfold Qlt in Hq; cbn in Hq; lia).
  set (a := Z.log2 n). set (b := Z.log2 (Zpos d)).
  assert (Ha : (0 <= a)%Z) by apply Z.log2_nonneg.
  assert (Hb : (0 <= b)%Z) by apply Z.log2_nonneg.
  destruct (Z.log2_spec n Hn) as [Hn1 Hn2]. fold a in Hn1, Hn2.
  destruct (Z.log2_spec (Zpos d) eq_refl) as [Hd1 Hd2]. fold b in Hd1, Hd2.
  assert (Hqn : n # d == inject_Z n / inject_Z (Zpos d)) by apply Qmake_Qdiv.
  assert (Hdpos : 0 < inject_Z (Zpos d)) by reflexivity.
  assert (Hmul : (n # d) * inject_Z (Zpos d) == inject_Z n).
  { rewrite Hqn. field. intro H0; rewrite H0 in Hdpos; discriminate. }
  assert (Qn1 : 2 ^ a <= inject_Z n).
  { rewrite <- pow2_Z by lia. now rewrite <- Zle_Qle. }
  assert (Qn2 : inject_Z n < 2 ^ (a + 1)).
  { rewrite <- pow2_Z by lia. rewrite <- Zlt_Qlt. replace (a + 1)%Z with (Z.succ a) by lia. exact Hn2. }
  assert (Qd1 : 2 ^ b <= inject_Z (Zpos d)).
  { rewrite <- pow2_Z by lia. now rewrite <- Zle_Qle. }
  assert (Qd2 : inject_Z (Zpos d) < 2 ^ (b + 1)).
  { rewrite <- pow2_Z by lia. rewrite <- Zlt_Qlt. replace (b + 1)%Z with (Z.succ b) by lia. exact Hd2. }
  pose proof (pow2_pos b) as Pb. pose proof (pow2_pos (a - b)) as Pk.
  assert (Eab : 2 ^ a == 2 ^ (a - b) * 2 ^ b).
  { rewrite <- pow2_add. now replace (a - b + b)%Z with a by lia. }
  rewrite pow2_succ in Qn2, Qd2.
  set (D := inject_Z (Zpos d)) in *. set (N := inject_Z n) in *.
  set (x := n # d) in *.
  destruct (Qle_bool (2 ^ (a - b)) x) eqn:Hc.
  - apply Qle_bool_iff in Hc. split; [exact Hc|].
    rewrite pow2_succ.
    (* x * D = N < 2 * 2^a = 2 * 2^(a-b) * 2^b <= 2 * 2^(a-b) * D *)
    apply Qnot_le_lt. intros Hge.
    assert (2 * 2 ^ (a - b) * D <= x * D) by (apply Qmult_le_compat_r; lra).
    assert (2 * 2 ^ (a - b) * 2 ^ b <= 2 * 2 ^ (a - b) * D).
    { apply Qmult_le_l; lra. }
    nra.
  - assert (Hlt : x < 2 ^ (a - b)).
    { apply Qnot_le_lt. intros H. apply Qle_bool_iff in H. congruence. }
    replace (a - b - 1 + 1)%Z with (a - b)%Z by lia.
    split; [|exact Hlt].
    assert (E1 : 2 ^ (a - b) == 2 * 2 ^ (a - b - 1)).
    { rewrite <- pow2_succ. now replace (a - b - 1 + 1)%Z with (a - b)%Z by lia. }
    pose proof (pow2_pos (a - b - 1)) as Pk1.
    apply Qnot_lt_le. intros Hlt'.
    (* x < 2^(k-1), D < 2*2^b  => N = x*D < 2^(k-1) * 2 * 2^b = 2^a <= N *)
    assert (0 < x) by exact Hq.
    assert (x * D < 2 ^ (a - b - 1) * D) by (apply Qmult_lt_compat_r; lra).
    assert (2 ^ (a - b - 1) * D < 2 ^ (a - b - 1) * (2 * 2 ^ b)).
    { apply Qmult_lt_l; lra. }
    nra.
Qed.

Lemma ulp_exp_ge q : (Float64.emin <= Float64.ulp_exp q)%Z.
Proof. unfold Float64.ulp_exp. lia. Qed.

Lemma round_pos_nonneg q : 0 <= q -> 0 <= Float64.round_pos q.
Proof.
  intros Hq. unfold Float64.round_pos.
  pose proof (pow2_pos (Float64.ulp_exp q)) as P.
  apply Qmult_le_0_compat; [|lra].
  change 0 with (inject_Z 0). rewrite <- Zle_Qle. apply Z_le_rne.
  change (inject_Z 0) with 0. apply Qle_shift_div_l; [exact P | lra].
Qed.

(** The scaled value lies below 2^53, and at or above 2^52 unless the
    exponent is the least one. *)
Lemma below_pow q :
  0 < q -> q < 2 ^ (53 + Float64.ulp_exp q).
Proof.
  intros Hq. destruct (ilog2_spec q Hq) as [_ Hlt].
  eapply Qlt_le_trans; [exact Hlt|]. apply pow2_mono.
  unfold Float64.ulp_exp, Float64.prec. lia.
Qed.

Lemma above_pow q :
  0 < q -> (Float64.emin < Float64.ulp_exp q)%Z ->
  2 ^ (52 + Float64.ulp_exp q) <= q.
Proof.
  intros Hq He. destruct (ilog2_spec q Hq) as [Hle _].
  eapply Qle_trans; [|exact Hle]. apply pow2_mono.
  unfold Float64.ulp_exp, Float64.prec in *. lia.
Qed.

Lemma scaled_lt q :
  0 < q -> q / 2 ^ Float64.ulp_exp q < 2 ^ 53.
Proof.
  intros Hq. pose proof (pow2_pos (Float64.ulp_exp q)) as P.
  apply Qlt_shift_div_r; [exact P|].
  rewrite <- pow2_add. now apply below_pow.
Qed.

Lemma scaled_ge q :
  0 < q -> (Float64.emin < Float64.ulp_exp q)%Z ->
  2 ^ 52 <= q / 2 ^ Float64.ulp_exp q.
Proof.
  intros Hq He. pose proof (pow2_pos (Float64.ulp_exp q)) as P.
  apply Qle_shift_div_l; [exact P|].
  rewrite <- pow2_add. now apply above_pow.
Qed.

Lemma round_pos_le_pow q :
  0 < q -> Float64.round_pos q <= 2 ^ (53 + Float64.ulp_exp q).
Proof.
  intros Hq. unfold Float64.round_pos. rewrite pow2_add.
  pose proof (pow2_pos (Float64.ulp_exp q)) as P.
  apply Qmult_le_compat_r; [|lra].
  rewrite <- (pow2_Z 53) by lia. rewrite <- Zle_Qle.
  apply rne_le_Z. rewrite pow2_Z by lia.
  apply Qlt_le_weak, scaled_lt, Hq.
Qed.

Lemma round_pos_ge_pow q :
  0 < q -> (Float64.emin < Float64.ulp_exp q)%Z ->
  2 ^ (52 + Float64.ulp_exp q) <= Float64.round_pos q.
Proof.
  intros Hq He. unfold Float64.round_pos. rewrite pow2_add.
  pose proof (pow2_pos (Float64.ulp_exp q)) as P.
  apply Qmult_le_compat_r; [|lra].
  rewrite <- (pow2_Z 52) by lia. rewrite <- Zle_Qle.
  apply Z_le_rne. rewrite pow2_Z by lia.
  now apply scaled_ge.
Qed.

Lemma ulp_exp_mono p q :
  0 < p -> p <= q -> (Float64.ulp_exp p <= Float64.ulp_exp q)%Z.
Proof.
  intros Hp Hpq.
  assert (Hq : 0 < q) by lra.
  destruct (Z_le_gt_dec (Float64.ulp_exp p) (Float64.ulp_exp q)) as [|Hgt];
    [assumption|exfalso].
  pose proof (ulp_exp_ge q) as Hmin.
  assert (He : (Float64.emin < Float64.ulp_exp p)%Z) by lia.
  pose proof (above_pow p Hp He) as H1'.
  pose proof (below_pow q Hq) as H2'.
  assert (H3 : 2 ^ (52 + Float64.ulp_exp p) < 2 ^ (53 + Float64.ulp_exp q)) by lra.
  apply pow2_lt_inv in H3. lia.
Qed.

Lemma round_pos_mono p q :
  0 < p -> p <= q -> Float64.round_pos p <= Float64.round_pos q.
Proof.
  intros Hp Hpq.
  assert (Hq : 0 < q) by lra.
  pose proof (ulp_exp_mono p q Hp Hpq) as He.
  destruct (Z.eq_dec (Float64.ulp_exp p) (Float64.ulp_exp q)) as [Heq|Hne].
  - unfold Float64.round_pos. rewrite Heq.
    pose proof (pow2_pos (Float64.ulp_exp q)) as P.
    apply Qmult_le_compat_r; [|lra].
    rewrite <- Zle_Qle. apply rne_mono.
    apply Qmult_le_compat_r; [exact Hpq|].
    apply Qlt_le_weak, Qinv_lt_0_compat, P.
  - pose proof (ulp_exp_ge p) as Hmin.
    eapply Qle_trans; [apply round_pos_le_pow, Hp|].
    eapply Qle_trans; [|apply round_pos_ge_pow; [exact Hq | lia]].
    apply pow2_mono. lia.
Qed.

(** A positive result is at least the least positive double. *)
Lemma round_pos_ge_min q :
  0 < q -> 0 < Float64.round_pos q -> 2 ^ Float64.emin <= Float64.round_pos q.
Proof.
  intros Hq Hr. unfold Float64.round_pos in *.
  pose proof (pow2_pos (Float64.ulp_exp q)) as P.
  set (m := Float64.rne _) in *.
  assert (Hm : (1 <= m)%Z).
  { destruct (Z_lt_le_dec m 1) as [Hlt|]; [exfalso|assumption].
    assert (inject_Z m <= 0) by (change 0 with (inject_Z 0); rewrite <- Zle_Qle; lia).
    nra. }
  assert (1 <= inject_Z m) by (change 1 with (inject_Z 1); now rewrite <- Zle_Qle).
  eapply Qle_trans; [apply (pow2_mono _ _ (ulp_exp_ge q))|]. nra.
Qed.

(** *** The rounding function *)

Lemma round_not_nan q : Float64.round q <> Float64.NaN.
Proof.
  unfold Float64.round.
  destruct (q ?= 0); [discriminate| |]; destruct (Qle_bool _ _); discriminate.
Qed.

Lemma round_mono p q :
  p <= q -> Float64.le (Float64.round p) (Float64.round q).
Proof.
  intros Hpq. unfold Float64.round.
  destruct (Qcompare_spec p 0) as [Hp|Hp|Hp];
    destruct (Qcompare_spec q 0) as [Hq|Hq|Hq];
    try (exfalso; lra).
  - cbn [Float64.le]. lra.
  - pose proof (round_pos_nonneg q (Qlt_le_weak _ _ Hq)).
    destruct (Qle_bool _ _); cbn [Float64.le]; [trivial | lra].
  - assert (Hp' : 0 <= - p) by lra.
    pose proof (round_pos_nonneg (- p) Hp').
    destruct (Qle_bool _ _); cbn [Float64.le]; [trivial | lra].
  - assert (Hq' : 0 < - q) by lra.
    assert (Hle : - q <= - p) by lra.
    pose proof (round_pos_mono (- q) (- p) Hq' Hle) as Hm.
    destruct (Qle_bool Float64.overflow (Float64.round_pos (- p))) eqn:Op.
    + destruct (Qle_bool Float64.overflow (Float64.round_pos (- q)));
        cbn [Float64.le]; trivial.
    + destruct (Qle_bool Float64.overflow (Float64.round_pos (- q))) eqn:Oq;
        cbn [Float64.le]; [|lra].
      apply Qle_bool_iff in Oq.
      assert (Hc : Float64.overflow <= Float64.round_pos (- p)) by lra.
      apply Qle_bool_iff in Hc. congruence.
  - assert (Hp' : 0 <= - p) by lra.
    pose proof (round_pos_nonneg (- p) Hp').
    pose proof (round_pos_nonneg q (Qlt_le_weak _ _ Hq)).
    destruct (Qle_bool _ _); destruct (Qle_bool _ _); cbn [Float64.le]; trivial; lra.
  - pose proof (round_pos_mono p q Hp Hpq) as Hm.
    destruct (Qle_bool Float64.overflow (Float64.round_pos q)) eqn:Oq.
    + destruct (Qle_bool Float64.overflow (Float64.round_pos p));
        cbn [Float64.le]; trivial.
    + destruct (Qle_bool Float64.overflow (Float64.round_pos p)) eqn:Op;
        cbn [Float64.le]; [|lra].
      apply Qle_bool_iff in Op.
      assert (Hc : Float64.overflow <= Float64.round_pos q) by lra.
      apply Qle_bool_iff in Hc. congruence.
Qed.

(** A finite result is below the overflow threshold, and a positive one
    is at least the least positive double. *)
Lemma round_finite_bound q r :
  Float64.round q = Float64.Finite r ->
  - Float64.overflow < r /\ r < Float64.overflow.
Proof.
  assert (Ho : 0 < Float64.overflow) by apply pow2_pos.
  unfold Float64.round.
  destruct (Qcompare_spec q 0) as [Hq|Hq|Hq].
  - intros [= <-]. lra.
  - assert (Hq' : 0 <= - q) by lra.
    pose proof (round_pos_nonneg (- q) Hq').
    destruct (Qle_bool _ _) eqn:O; [discriminate|]. intros [= <-].
    assert (~ Float64.overflow <= Float64.round_pos (- q)).
    { intros Hc. apply Qle_bool_iff in Hc. congruence. }
    lra.
  - pose proof (round_pos_nonneg q (Qlt_le_weak _ _ Hq)).
    destruct (Qle_bool _ _) eqn:O; [discriminate|]. intros [= <-].
    assert (~ Float64.overflow <= Float64.round_pos q).
    { intros Hc. apply Qle_bool_iff in Hc. congruence. }
    lra.
Qed.

Lemma round_positive q r :
  Float64.round q = Float64.Finite r -> 0 < r ->
  0 < q /\ 2 ^ Float64.emin <= r.
Proof.
  unfold Float64.round.
  destruct (Qcompare_spec q 0) as [Hq|Hq|Hq].
  - intros [= <-] Hr. exfalso. lra.
  - assert (Hq' : 0 <= - q) by lra.
    pose proof (round_pos_nonneg (- q) Hq').
    destruct (Qle_bool _ _); [discriminate|]. intros [= <-] Hr.
    exfalso. lra.
  - destruct (Qle_bool _ _); [discriminate|]. intros [= <-] Hr.
    split; [exact Hq|]. now apply round_pos_ge_min.
Qed.

(** Rounding a positive rational that is at least the least positive
    double gives a result that is not zero. *)
Lemma round_not_zero q :
  2 ^ Float64.emin <= q -> Float64.is_zero (Float64.round q) = false.
Proof.
  intros Hq. pose proof (pow2_pos Float64.emin) as P.
  unfold Float64.round.
  destruct (Qcompare_spec q 0) as [H|H|H]; try (exfalso; lra).
  destruct (Qle_bool _ _); [reflexivity|]. cbn [Float64.is_zero].
  assert (Hm : Float64.round_pos (2 ^ Float64.emin) <= Float64.round_pos q)
    by (apply round_pos_mono; assumption).
  assert (He : Float64.round_pos (2 ^ Float64.emin) == 2 ^ Float64.emin)
    by (vm_compute; reflexivity).
  destruct (Qeq_bool _ 0) eqn:Hz; [|reflexivity].
  apply Qeq_bool_iff in Hz. exfalso. lra.
Qed.

(** What is at most [2^1023] in size rounds to a finite double. *)
Lemma round_finite q :
  - 2 ^ 1023 <= q -> q <= 2 ^ 1023 ->
  exists r, Float64.round q = Float64.Finite r.
Proof.
  intros Hlo Hhi.
  assert (He : Float64.round_pos (2 ^ 1023) == 2 ^ 1023)
    by (vm_compute; reflexivity).
  assert (Ho : Float64.overflow == 2 * 2 ^ 1023)
    by (vm_compute; reflexivity).
  pose proof (pow2_pos 1023) as P.
  unfold Float64.round.
  destruct (Qcompare_spec q 0) as [Hq|Hq|Hq]; [eauto| |].
  - assert (Hq' : 0 < - q) by lra.
    assert (Hm : Float64.round_pos (- q) <= Float64.round_pos (2 ^ 1023))
      by (apply round_pos_mono; [assumption | lra]).
    destruct (Qle_bool _ _) eqn:O; [|eauto].
    apply Qle_bool_iff in O. exfalso. lra.
  - assert (Hm : Float64.round_pos q <= Float64.round_pos (2 ^ 1023))
      by (apply round_pos_mono; [assumption | lra]).
    destruct (Qle_bool _ _) eqn:O; [|eauto].
    apply Qle_bool_iff in O. exfalso. lra.
Qed.

(** *** Division and product *)

Lemma le_inf_l z : z <> Float64.NaN -> Float64.le (Float64.Inf true) z.
Proof. destruct z as [| |]; cbn; [trivial | trivial | congruence]. Qed.

Lemma le_inf_r z : z <> Float64.NaN -> Float64.le z (Float64.Inf false).
Proof. destruct z as [|[|]|]; cbn; trivial; congruence. Qed.

Lemma quot_finite n d :
  ~ d == 0 ->
  Float64.quot (Float64.Finite n) (Float64.Finite d) = Float64.round (n / d).
Proof.
  intros Hd. cbn [Float64.quot].
  destruct (Qeq_bool d 0) eqn:Hz; [|reflexivity].
  apply Qeq_bool_iff in Hz. contradiction.
Qed.

Lemma quot_inf s d :
  0 < d ->
  Float64.quot (Float64.Inf s) (Float64.Finite d) = Float64.Inf s.
Proof.
  intros Hd. cbn [Float64.quot].
  assert (H : Qle_bool 0 d = true) by (apply Qle_bool_iff; lra).
  rewrite H. now destruct s.
Qed.

Lemma quot_not_nan x d :
  x <> Float64.NaN -> 0 < d ->
  Float64.quot x (Float64.Finite d) <> Float64.NaN.
Proof.
  intros Hx Hd. destruct x as [n|s|]; [| |congruence].
  - rewrite quot_finite by lra. apply round_not_nan.
  - now rewrite quot_inf.
Qed.

(** Dividing by a positive double keeps the order. *)
Lemma quot_mono x y d :
  Float64.le x y -> 0 < d ->
  Float64.le (Float64.quot x (Float64.Finite d))
    (Float64.quot y (Float64.Finite d)).
Proof.
  intros Hxy Hd.
  assert (Hx : x <> Float64.NaN) by (intros ->; exact Hxy).
  assert (Hy : y <> Float64.NaN) by (intros ->; now destruct x as [|[|]|]).
  destruct x as [p|[|]|]; [| | |contradiction].
  - destruct y as [q|[|]|]; try contradiction.
    + rewrite !quot_finite by lra. apply round_mono.
      cbn [Float64.le] in Hxy.
      apply Qmult_le_compat_r; [exact Hxy|].
      apply Qlt_le_weak, Qinv_lt_0_compat, Hd.
    + rewrite (quot_inf false) by exact Hd. apply le_inf_r.
      now apply quot_not_nan.
  - rewrite (quot_inf true) by exact Hd. apply le_inf_l.
    now apply quot_not_nan.
  - destruct y as [q|[|]|]; try contradiction.
    rewrite (quot_inf false) by exact Hd. exact I.
Qed.

(** A finite double divided by a double that is at least 2 is finite. *)
Lemma quot_shrinks q r d :
  Float64.round q = Float64.Finite r -> 2 <= d ->
  exists e, Float64.quot (Float64.Finite r) (Float64.Finite d)
            = Float64.Finite e.
Proof.
  intros Hr Hd. rewrite quot_finite by lra.
  destruct (round_finite_bound q r Hr) as [Hlo Hhi].
  assert (Ho : Float64.overflow == 2 * 2 ^ 1023)
    by (vm_compute; reflexivity).
  pose proof (pow2_pos 1023) as P.
  assert (Hi : 0 < / d) by (apply Qinv_lt_0_compat; lra).
  assert (Hi2 : / d <= 1 # 2).
  { apply Qle_shift_inv_r; lra. }
  apply round_finite; unfold Qdiv; nra.
Qed.

(** The product of two doubles, the first positive and the second at
    least 1, is not zero. *)
Lemma mul_not_zero q r v :
  Float64.round q = Float64.Finite r -> 0 < r -> 1 <= v ->
  Float64.is_zero (Float64.mul (Float64.Finite r) (Float64.Finite v)) = false.
Proof.
  intros Hr Hpos Hv. cbn [Float64.mul].
  destruct (round_positive q r Hr Hpos) as [_ Hmin].
  apply round_not_zero. pose proof (pow2_pos Float64.emin). nra.
Qed.

Lemma round_positive_inv q :
  Float64.ltb (Float64.Finite 0) (Float64.round q) = true -> 0 < q.
Proof.
  unfold Float64.round.
  destruct (Qcompare_spec q 0) as [Hq|Hq|Hq]; [| |intros _; exact Hq].
  - discriminate.
  - assert (Hq' : 0 <= - q) by lra.
    pose proof (round_pos_nonneg (- q) Hq').
    destruct (Qle_bool _ _); [discriminate|].
    cbn [Float64.ltb]. rewrite negb_true_iff. intros Hc. exfalso.
    assert (Hle : Qle_bool (- Float64.round_pos (- q)) 0 = true)
      by (apply Qle_bool_iff; lra).
    congruence.
Qed.

End Rounding.

(** ** Comparisons and truncation on rationals *)

(** Closes an equation between closed terms by evaluation, keeping the
    proof term as small as its statement. *)
Ltac by_vm :=
  match goal with
  | |- _ = ?rhs => vm_cast_no_check (@eq_refl _ rhs)
  end.

Ltac step_res :=
  match goal with
  | |- context [Py.res_bind ?x _] =>
      let H := fresh "Hstep" in destruct x eqn:H; cbn [Py.res_bind]
  end.

Lemma Qltb_lt a b : Py.Qltb a b = true <-> (a < b)%Q.
Proof.
  unfold Py.Qltb. rewrite negb_true_iff, <- not_true_iff_false, Qle_bool_iff.
  split; [apply Qnot_le_lt | apply Qlt_not_le].
Qed.

Lemma Qltb_ge a b : Py.Qltb a b = false <-> (b <= a)%Q.
Proof. unfold Py.Qltb. rewrite negb_false_iff. apply Qle_bool_iff. Qed.

Lemma truncate_comp a b :
  (0 <= a)%Q -> (a == b)%Q -> Spec.truncate a = Spec.truncate b.
Proof.
  intros Ha Hab. unfold Spec.truncate.
  assert (Hb : (0 <= b)%Q) by (rewrite <- Hab; exact Ha).
  destruct a as [na da], b as [nb db]. cbn [Qnum Qden].
  unfold Qle in Ha, Hb; cbn in Ha, Hb.
  rewrite !Z.quot_div_nonneg by lia.
  change (Qfloor (na # da) = Qfloor (nb # db)). now rewrite Hab.
Qed.

(** Python's [int(max(1, min(5, x)))], with its mixed integer and float
    results, is the truncated inclusive clamp of the specification. *)
Lemma clamp_refines score :
  Py.py_int (Extract.clamp_1_5 score) = Spec.truncate (Spec.clamp score 1 5).
Proof.
  unfold Extract.clamp_1_5, Py.py_min, Py.py_max, Spec.clamp. cbn [Py.num_val].
  change (inject_Z 5) with 5%Q. change (inject_Z 1) with 1%Q.
  destruct (Py.Qltb score 5) eqn:H5; cbn [Py.num_val].
  - apply Qltb_lt in H5.
    destruct (Py.Qltb 1 score) eqn:H1; cbn [Py.py_int].
    + apply Qltb_lt in H1.
      destruct (Py.Qltb score 1) eqn:H1'.
      { apply Qltb_lt in H1'. exfalso. eapply Qlt_irrefl, Qlt_trans; eauto. }
      destruct (Py.Qltb 5 score) eqn:H5'.
      { apply Qltb_lt in H5'. exfalso. eapply Qlt_irrefl, Qlt_trans; eauto. }
      reflexivity.
    + apply Qltb_ge in H1.
      destruct (Py.Qltb score 1) eqn:H1'; [reflexivity|].
      apply Qltb_ge in H1'.
      assert (Heq : (1 == score)%Q) by (apply Qle_antisym; assumption).
      destruct (Py.Qltb 5 score) eqn:H5'.
      { apply Qltb_lt in H5'. exfalso. rewrite <- Heq in H5'. discriminate. }
      rewrite <- (truncate_comp 1 score); [reflexivity | discriminate | exact Heq].
  - apply Qltb_ge in H5.
    change (Py.Qltb 1 (inject_Z 5)) with true. cbn [Py.py_int].
    destruct (Py.Qltb score 1) eqn:H1'.
    { apply Qltb_lt in H1'. exfalso.
      assert (5 < 1)%Q by (eapply Qle_lt_trans; eauto). discriminate. }
    destruct (Py.Qltb 5 score) eqn:H5'; [reflexivity|].
    apply Qltb_ge in H5'.
    assert (Heq : (5 == score)%Q) by (apply Qle_antisym; assumption).
    rewrite <- (truncate_comp 5 score); [reflexivity | discriminate | exact Heq].
Qed.

(** The buzz written by either extractor lies in 1..5. *)
Lemma clamp_range score : 1 <= Py.py_int (Extract.clamp_1_5 score) <= 5.
Proof.
  unfold Extract.clamp_1_5, Py.py_min, Py.py_max. cbn [Py.num_val].
  change (inject_Z 5) with 5%Q. change (inject_Z 1) with 1%Q.
  destruct (Py.Qltb score 5) eqn:H5; cbn [Py.num_val].
  - destruct (Py.Qltb 1 score) eqn:H1; cbn [Py.py_int]; [|lia].
    apply Qltb_lt in H1, H5. destruct score as [n d].
    unfold Py.Qtrunc, Qlt in *. cbn in *.
    rewrite Z.quot_div_nonneg by lia.
    split.
    + apply Z.div_le_lower_bound; lia.
    + apply Z.lt_succ_r, Z.div_lt_upper_bound; lia.
  - change (Py.Qltb 1 (inject_Z 5)) with true. cbn [Py.py_int]. lia.
Qed.

Lemma subscript_some (d : gmap string Py.pyval) k :
  is_Some (d !! k) -> exists v, Py.subscript d k = Py.Ret v.
Proof. intros [v Hv]. exists v. unfold Py.subscript. now rewrite Hv. Qed.

Import Py World Stream.
Local Open Scope list_scope.

(** ** Buzz scores *)

(** Python's clamp of a float, truncated, is the clamp of the
    specification whenever the raw score is a number. *)
Lemma clamp_score_refines raw :
  raw <> Float64.NaN ->
  Spec.clamped raw = Some (py_int (Extract.clamp_score raw)).
Proof.
  destruct raw as [q|[|]|]; intros H;
    cbn [Spec.clamped Extract.clamp_score];
    [now rewrite clamp_refines | reflexivity | reflexivity | congruence].
Qed.

Lemma clamp_score_range raw : 1 <= py_int (Extract.clamp_score raw) <= 5.
Proof.
  destruct raw as [q|[|]|]; cbn [Extract.clamp_score py_int];
    [apply clamp_range | lia | lia | lia].
Qed.

Lemma float_div_ok x y :
  Float64.is_zero y = false -> float_div x y = Ret (Float64.quot x y).
Proof. intros H. unfold float_div. now rewrite H. Qed.

Lemma float_of_ratio_ret q x :
  float_of_ratio q = Ret x ->
  x = Float64.round q /\ exists r, x = Float64.Finite r.
Proof.
  unfold float_of_ratio. pose proof (round_not_nan q) as Hn.
  destruct (Float64.round q) as [r| |]; [|discriminate|contradiction].
  intros [= <-]. eauto.
Qed.

(** The float operand of a number is the double nearest to it. *)
Lemma to_float_is_round v x :
  to_float v = Ret x ->
  exists q, as_number v = Ret q /\ x = Float64.round q.
Proof.
  destruct v as [|b|z|q| | | |]; try discriminate; cbn [as_number to_float].
  - intros H. apply float_of_ratio_ret in H as [-> _].
    exists (if b then 1%Q else 0%Q). now destruct b.
  - intros H. apply float_of_ratio_ret in H as [-> _]. eauto.
  - intros [= <-]. eauto.
Qed.

Lemma to_float_round v q x :
  as_number v = Ret q -> to_float v = Ret x -> x = Float64.round q.
Proof.
  intros Hq Hx. apply to_float_is_round in Hx as (q' & Hq' & ->). congruence.
Qed.

Lemma hundredth_value :
  exists c, Extract.hundredth = Float64.Finite c /\ (0 < c)%Q.
Proof. eexists. split; [vm_compute; reflexivity | reflexivity]. Qed.

Lemma positive_not_zero q : (0 < q)%Q -> Float64.is_zero (Float64.Finite q) = false.
Proof.
  intros H. cbn [Float64.is_zero]. destruct (Qeq_bool q 0) eqn:Hz; [|reflexivity].
  apply Qeq_bool_iff in Hz. rewrite Hz in H. discriminate.
Qed.

(** The seconds between two instants are a finite double, and so are
    the days and the hours they make. *)
Lemma total_seconds_finite a b secs :
  total_seconds a b = Ret secs ->
  exists q r, secs = Float64.Finite r /\ Float64.round q = Float64.Finite r.
Proof.
  unfold total_seconds. destruct (Bool.eqb _ _); [|discriminate].
  intros H. apply float_of_ratio_ret in H as [Hr [r ->]]. eauto.
Qed.

Lemma floored_days a b secs :
  total_seconds a b = Ret secs ->
  exists days,
    Spec.floor_at Extract.hundredth (Spec.elapsed_days secs)
    = Float64.Finite days
    /\ (0 < days)%Q.
Proof.
  intros H. apply total_seconds_finite in H as (q & r & -> & Hr).
  destruct (quot_shrinks q r 86400 Hr) as [e0 He0]; [discriminate|].
  destruct hundredth_value as (c & Hc & Hpos).
  unfold Spec.floor_at, Spec.elapsed_days. rewrite He0, Hc.
  cbn [Float64.ltb]. destruct (Qle_bool c e0) eqn:Hle; cbn [negb].
  - exists e0. split; [reflexivity|]. apply Qle_bool_iff in Hle.
    eapply Qlt_le_trans; eauto.
  - exists c. split; [reflexivity | exact Hpos].
Qed.

Lemma floored_hours a b secs :
  total_seconds a b = Ret secs ->
  exists hours,
    Spec.floor_at (Float64.Finite 1) (Spec.elapsed_hours secs)
    = Float64.Finite hours
    /\ (1 <= hours)%Q.
Proof.
  intros H. apply total_seconds_finite in H as (q & r & -> & Hr).
  destruct (quot_shrinks q r 3600 Hr) as [e0 He0]; [discriminate|].
  unfold Spec.floor_at, Spec.elapsed_hours. rewrite He0.
  cbn [Float64.ltb]. destruct (Qle_bool 1 e0) eqn:Hle; cbn [negb].
  - exists e0. split; [reflexivity|]. now apply Qle_bool_iff in Hle.
  - exists 1%Q. split; [reflexivity | discriminate].
Qed.

(** The raw score of a post that carries both timestamps and a like
    count: two float divisions, neither by zero, and never nan. *)
Lemma instagram_raw_score
    (E : Extract.env) (original_data : gmap string pyval)
    posted crawled secs likes :
  truthy (get original_data "timestamp") = true ->
  truthy (get original_data "crawled_at") = true ->
  Extract.parse_time E (get original_data "timestamp") = Ret posted ->
  Extract.parse_time E (get original_data "crawled_at") = Ret crawled ->
  total_seconds crawled posted = Ret secs ->
  to_float (get_default original_data "like_count" (PInt 0)) = Ret likes ->
  exists raw,
    raw = Float64.quot
            (Float64.quot likes
               (Spec.floor_at Extract.hundredth (Spec.elapsed_days secs)))
            (Float64.Finite 100)
    /\ raw <> Float64.NaN
    /\ InstagramExtract.buzz_score E original_data
       = Ret (Extract.clamp_score raw).
Proof.
  intros Hts Hcr Hp Hc Hsecs Hl.
  destruct (floored_days _ _ _ Hsecs) as (days & Hdays & Hpos).
  eexists. split; [reflexivity|]. split.
  - rewrite Hdays.
    apply to_float_is_round in Hl as (q & _ & ->).
    apply quot_not_nan; [|reflexivity].
    apply quot_not_nan; [apply round_not_nan | exact Hpos].
  - unfold InstagramExtract.buzz_score. cbv zeta.
    rewrite Hts, Hcr, Hc, Hp. cbn [andb res_bind].
    rewrite Hsecs. cbn [res_bind].
    rewrite float_div_ok by reflexivity. cbn [res_bind].
    change (Float64.quot secs (Float64.Finite (inject_Z (24 * 3600))))
      with (Spec.elapsed_days secs).
    change (if Float64.ltb (Spec.elapsed_days secs) Extract.hundredth
            then Extract.hundredth else Spec.elapsed_days secs)
      with (Spec.floor_at Extract.hundredth (Spec.elapsed_days secs)).
    rewrite Hdays, Hl. cbn [res_bind].
    rewrite float_div_ok by now apply positive_not_zero.
    cbn [res_bind]. rewrite float_div_ok by reflexivity. reflexivity.
Qed.

(** The raw score of a video that carries both timestamps, a view count
    and a positive subscriber count: no division by zero. *)
Lemma youtube_raw_score
    (E : Extract.env) (original_data : gmap string pyval)
    published crawled secs views subscribers :
  truthy (get original_data "published_at") = true ->
  truthy (get original_data "crawled_at") = true ->
  Extract.parse_time E (get original_data "published_at") = Ret published ->
  Extract.parse_time E (get original_data "crawled_at") = Ret crawled ->
  total_seconds crawled published = Ret secs ->
  to_float (get_default original_data "views" (PInt 0)) = Ret views ->
  to_float (get_default original_data "subscriber_count" (PInt 1))
  = Ret subscribers ->
  Float64.ltb (Float64.Finite 0) subscribers = true ->
  YoutubeExtract.buzz_score E original_data
  = Ret (Extract.clamp_score
           (Float64.quot
              (Float64.mul (Float64.Finite 100) views)
              (Float64.mul subscribers
                 (Spec.floor_at (Float64.Finite 1)
                    (Spec.elapsed_hours secs))))).
Proof.
  intros Hp Hc Hpp Hpc Hsecs Hv Hs Hpos.
  destruct (floored_hours _ _ _ Hsecs) as (hours & Hhours & Hone).
  pose proof Hs as Hs'.
  apply to_float_is_round in Hs' as (q & Hq & Hround).
  assert (Hqpos : (0 < q)%Q)
    by (apply round_positive_inv; now rewrite <- Hround).
  assert (Hden :
    Float64.is_zero (Float64.mul subscribers (Float64.Finite hours)) = false).
  { destruct subscribers as [r|[|]|]; try discriminate.
    - apply (mul_not_zero q r hours); [now rewrite <- Hround| |exact Hone].
      cbn [Float64.ltb] in Hpos. apply negb_true_iff in Hpos.
      apply Qnot_le_lt. intros Hle. apply Qle_bool_iff in Hle. congruence.
    - cbn [Float64.mul]. now destruct (Qeq_bool hours 0). }
  unfold YoutubeExtract.buzz_score, YoutubeExtract.positive. cbv zeta.
  rewrite Hp, Hc, Hq. cbn [andb res_bind].
  apply Qltb_lt in Hqpos. rewrite Hqpos, Hpc, Hpp. cbn [res_bind].
  rewrite Hsecs. cbn [res_bind].
  rewrite float_div_ok by reflexivity. cbn [res_bind].
  change (Float64.quot secs (Float64.Finite 3600))
    with (Spec.elapsed_hours secs).
  change (if Float64.ltb (Spec.elapsed_hours secs) (Float64.Finite 1)
          then Float64.Finite 1 else Spec.elapsed_hours secs)
    with (Spec.floor_at (Float64.Finite 1) (Spec.elapsed_hours secs)).
  rewrite Hhours, Hv. cbn [res_bind]. rewrite Hs. cbn [res_bind].
  rewrite float_div_ok by exact Hden. reflexivity.
Qed.

(** C1 (Instagram buzz score).  For a raw post that carries its id,
    permalink and caption, an extraction result that is an object, an
    initialised table and a store that accepts the write:
    - when [timestamp] and [crawled_at] are both present and readable
      and the like count is a number in the range of a float,
      [save_to_target_db] writes one item whose [buzz] is the truncated
      clamp to 1..5 of like_count / elapsedDays / 100, elapsedDays being
      the seconds between the two instants divided by 86400 and floored
      to 0.01, every division a binary64 division;
    - when either timestamp is missing it writes [buzz = 1];
    - 500 likes over one day give 5, and 10 likes over ten days give 1. *)
Theorem instagram_buzz_score
    (E : Extract.env) (original_data extracted : gmap string pyval)
    (tr : trace) :
  Extract.ddb_table E = true ->
  is_Some (original_data !! "media_id") ->
  is_Some (original_data !! "permalink") ->
  is_Some (original_data !! "caption") ->
  (forall item, Extract.put_item E item = None) ->
  (forall posted crawled secs likes,
      truthy (get original_data "timestamp") = true ->
      truthy (get original_data "crawled_at") = true ->
      Extract.parse_time E (get original_data "timestamp") = Ret posted ->
      Extract.parse_time E (get original_data "crawled_at") = Ret crawled ->
      total_seconds crawled posted = Ret secs ->
      to_float (get_default original_data "like_count" (PInt 0)) = Ret likes ->
      exists item buzz,
        InstagramExtract.save_to_target_db E original_data (PDict extracted) tr
        = (Ret (PBool true), (tr ++ [EvPut item]))
        /\ Spec.instagram_buzz likes (Spec.elapsed_days secs) = Some buzz
        /\ item !! "buzz" = Some (PInt buzz))
  /\ (original_data !! "timestamp" = None
      \/ original_data !! "crawled_at" = None ->
      exists item,
        InstagramExtract.save_to_target_db E original_data (PDict extracted) tr
        = (Ret (PBool true), (tr ++ [EvPut item]))
        /\ item !! "buzz" = Some (PInt 1))
  /\ Spec.instagram_buzz (Float64.Finite 500) (Float64.Finite 1) = Some 5
  /\ Spec.instagram_buzz (Float64.Finite 10) (Float64.Finite 10) = Some 1.
Proof.
  intros Htab Hid Hurl Hcap Hput.
  apply subscript_some in Hid as (vid & Hid).
  apply subscript_some in Hurl as (vurl & Hurl).
  apply subscript_some in Hcap as (vcap & Hcap).
  split; [|split; [|split]].
  - intros posted crawled secs likes Hts Hcr Hp Hc Hsecs Hl.
    destruct (instagram_raw_score E original_data _ _ _ _
                Hts Hcr Hp Hc Hsecs Hl) as (raw & Hraw & Hnan & Hscore).
    unfold InstagramExtract.save_to_target_db. rewrite Htab. cbn [negb].
    unfold InstagramExtract.build_item. rewrite Hscore. cbn [res_bind].
    rewrite Hid, Hurl, Hcap. cbn [res_bind attr_get].
    unfold Extract.write_item. rewrite Hput.
    eexists. exists (py_int (Extract.clamp_score raw)).
    split; [reflexivity|]. split.
    + unfold Spec.instagram_buzz. rewrite <- Hraw.
      now apply clamp_score_refines.
    + rewrite !lookup_insert_ne by done. now rewrite lookup_insert_eq.
  - intros Hmiss.
    unfold InstagramExtract.save_to_target_db. rewrite Htab. cbn [negb].
    unfold InstagramExtract.build_item, InstagramExtract.buzz_score.
    cbv zeta.
    assert (Hf : truthy (get original_data "timestamp")
                 && truthy (get original_data "crawled_at") = false).
    { unfold get. destruct Hmiss as [-> | ->]; cbn;
        [reflexivity | apply andb_false_r]. }
    rewrite Hf. cbn [res_bind]. rewrite Hid, Hurl, Hcap. cbn [res_bind attr_get].
    unfold Extract.write_item. rewrite Hput.
    eexists. split; [reflexivity|].
    rewrite !lookup_insert_ne by done. rewrite lookup_insert_eq. reflexivity.
  - vm_compute. reflexivity.
  - vm_compute. reflexivity.
Qed.

(** A post with 500 likes crawled one day after it was published is
    written with [buzz = 5]; a post with 7 likes crawled 1512 seconds
    after it was published is written with [buzz = 3], the quotient
    7 / 0.0175 / 100 being 3.9999999999999996 in binary64. *)
Lemma instagram_buzz_score_witness :
  (exists item,
     InstagramExtract.save_to_target_db (Samples.extract_env [])
       (Samples.instagram_post 500
          "2024-01-01T00:00:00+0000" "2024-01-02T00:00:00+00:00")
       (PDict Samples.answer) []
     = (Ret (PBool true), [EvPut item])
     /\ item !! "buzz" = Some (PInt 5))
  /\ (exists item,
        InstagramExtract.save_to_target_db (Samples.extract_env [])
          (Samples.instagram_post 7
             "2024-01-01T00:00:00+0000" "2024-01-01T00:25:12+00:00")
          (PDict Samples.answer) []
        = (Ret (PBool true), [EvPut item])
        /\ item !! "buzz" = Some (PInt 3)).
Proof.
  split.
  - destruct (instagram_buzz_score (Samples.extract_env [])
                (Samples.instagram_post 500
                   "2024-01-01T00:00:00+0000" "2024-01-02T00:00:00+00:00")
                Samples.answer []) as [H _].
    + reflexivity.
    + exists (PStr "17900000000000001"). by_vm.
    + exists (PStr "https://www.instagram.com/p/abc/"). by_vm.
    + exists (PStr "ramen"). by_vm.
    + reflexivity.
    + destruct (H (mkDatetime 1704067200000000 true)
                  (mkDatetime 1704153600000000 true)
                  (Float64.round (86400000000 # 1000000))
                  (Float64.round 500))
        as (item & buzz & Hsave & Hspec & Hbuzz); try by_vm.
      assert (Hv : Spec.instagram_buzz (Float64.round 500)
                     (Spec.elapsed_days
                        (Float64.round (86400000000 # 1000000)))
                   = Some 5) by by_vm.
      rewrite Hv in Hspec. injection Hspec as <-.
      exists item. split; assumption.
  - destruct (instagram_buzz_score (Samples.extract_env [])
                (Samples.instagram_post 7
                   "2024-01-01T00:00:00+0000" "2024-01-01T00:25:12+00:00")
                Samples.answer []) as [H _].
    + reflexivity.
    + exists (PStr "17900000000000001"). by_vm.
    + exists (PStr "https://www.instagram.com/p/abc/"). by_vm.
    + exists (PStr "ramen"). by_vm.
    + reflexivity.
    + destruct (H (mkDatetime 1704067200000000 true)
                  (mkDatetime 1704068712000000 true)
                  (Float64.round (1512000000 # 1000000))
                  (Float64.round 7))
        as (item & buzz & Hsave & Hspec & Hbuzz); try by_vm.
      assert (Hv : Spec.instagram_buzz (Float64.round 7)
                     (Spec.elapsed_days
                        (Float64.round (1512000000 # 1000000)))
                   = Some 3) by by_vm.
      rewrite Hv in Hspec. injection Hspec as <-.
      exists item. split; assumption.
Defined.

(** A like count too large for a float: the division raises
    [OverflowError], the function returns [False] and nothing is
    written. *)
Lemma instagram_huge_like_count_not_written :
  InstagramExtract.save_to_target_db (Samples.extract_env [])
    (Samples.instagram_post (10 ^ 400)
       "2024-01-01T00:00:00+0000" "2024-01-02T00:00:00+00:00")
    (PDict Samples.answer) []
  = (Ret (PBool false), []).
Proof. vm_compute. reflexivity. Qed.

(** X1.  The YouTube formula, for a video that carries every field the item
    needs: with both timestamps readable, a view count in the range of a
    float and a positive subscriber count, the written [buzz] is the
    truncated clamp to 1..5 of
    100 * views / (subscribers * elapsedHours), elapsedHours being the
    seconds between the two instants divided by 3600 and floored to 1,
    the products and the divisions those of binary64, whenever that raw
    score is a number (the quotient of two infinities is not). *)
Lemma youtube_buzz_score_formula
    (E : Extract.env) (original_data extracted : gmap string pyval)
    (tr : trace) published crawled secs views subscribers buzz :
  Extract.ddb_table E = true ->
  is_Some (original_data !! "videoId") ->
  is_Some (original_data !! "url") ->
  is_Some (original_data !! "title") ->
  is_Some (original_data !! "crawled_at") ->
  (forall item, Extract.put_item E item = None) ->
  truthy (get original_data "published_at") = true ->
  truthy (get original_data "crawled_at") = true ->
  Extract.parse_time E (get original_data "published_at") = Ret published ->
  Extract.parse_time E (get original_data "crawled_at") = Ret crawled ->
  total_seconds crawled published = Ret secs ->
  to_float (get_default original_data "views" (PInt 0)) = Ret views ->
  to_float (get_default original_data "subscriber_count" (PInt 1))
  = Ret subscribers ->
  Float64.ltb (Float64.Finite 0) subscribers = true ->
  Spec.youtube_buzz views subscribers (Spec.elapsed_hours secs) = Some buzz ->
  exists item,
    YoutubeExtract.save_to_semifinal_db E original_data (PDict extracted) tr
    = (Ret (PBool true), (tr ++ [EvPut item]))
    /\ item !! "buzz" = Some (PInt buzz).
Proof.
  intros Htab Hid Hurl Htitle Hfetched Hput Hp Hc Hpp Hpc Hsecs Hv Hs Hpos
    Hspec.
  apply subscript_some in Hid as (vid & Hid).
  apply subscript_some in Hurl as (vurl & Hurl).
  apply subscript_some in Htitle as (vtitle & Htitle).
  apply subscript_some in Hfetched as (vfetched & Hfetched).
  pose proof (youtube_raw_score E original_data _ _ _ _ _
                Hp Hc Hpp Hpc Hsecs Hv Hs Hpos) as Hscore.
  unfold Spec.youtube_buzz in Hspec.
  set (raw := Float64.quot _ _) in Hscore, Hspec.
  assert (Hnan : raw <> Float64.NaN) by (intros Hr; now rewrite Hr in Hspec).
  rewrite (clamp_score_refines raw Hnan) in Hspec. injection Hspec as <-.
  unfold YoutubeExtract.save_to_semifinal_db. rewrite Htab. cbn [negb].
  unfold YoutubeExtract.build_item. rewrite Hscore. cbn [res_bind].
  rewrite Hid, Hurl, Htitle, Hfetched. cbn [res_bind attr_get].
  unfold Extract.write_item. rewrite Hput.
  eexists. split; [reflexivity|].
  rewrite !lookup_insert_ne by done. now rewrite lookup_insert_eq.
Qed.

(** X2.  The default of the YouTube extractor: a missing [published_at], or a
    subscriber count that is not positive, gives [buzz = 1], provided
    [crawled_at] is there to fill [fetchedAt]. *)
Lemma youtube_buzz_score_default
    (E : Extract.env) (original_data extracted : gmap string pyval)
    (tr : trace) :
  Extract.ddb_table E = true ->
  is_Some (original_data !! "videoId") ->
  is_Some (original_data !! "url") ->
  is_Some (original_data !! "title") ->
  is_Some (original_data !! "crawled_at") ->
  (forall item, Extract.put_item E item = None) ->
  original_data !! "published_at" = None
  \/ (exists subscribers,
        as_number (get_default original_data "subscriber_count" (PInt 1))
        = Ret subscribers /\ (subscribers <= 0)%Q) ->
  exists item,
    YoutubeExtract.save_to_semifinal_db E original_data (PDict extracted) tr
    = (Ret (PBool true), (tr ++ [EvPut item]))
    /\ item !! "buzz" = Some (PInt 1).
Proof.
  intros Htab Hid Hurl Htitle Hfetched Hput Hcase.
  apply subscript_some in Hid as (vid & Hid).
  apply subscript_some in Hurl as (vurl & Hurl).
  apply subscript_some in Htitle as (vtitle & Htitle).
  apply subscript_some in Hfetched as (vfetched & Hfetched).
  unfold YoutubeExtract.save_to_semifinal_db. rewrite Htab. cbn [negb].
  unfold YoutubeExtract.build_item, YoutubeExtract.buzz_score,
    YoutubeExtract.positive.
  assert (Hscore :
    (let? timed :=
       if truthy (get original_data "published_at")
          && truthy (get original_data "crawled_at")
       then let? q := as_number
                        (get_default original_data "subscriber_count" (PInt 1))
            in Ret (Qltb 0 q)
       else Ret false in
     if timed then Raise TypeError else Ret false) = Ret false).
  { destruct Hcase as [Hmiss | (subs & Hs & Hle)].
    - unfold get. rewrite Hmiss. reflexivity.
    - rewrite Hs. cbn [res_bind]. apply Qltb_ge in Hle. rewrite Hle.
      now destruct (_ && _). }
  destruct (if truthy (get original_data "published_at")
               && truthy (get original_data "crawled_at")
            then _ else _) as [[|]|e]; cbn [res_bind] in Hscore |- *;
    try discriminate.
  rewrite Hid, Hurl, Htitle, Hfetched. cbn [res_bind attr_get].
  unfold Extract.write_item. rewrite Hput.
  eexists. split; [reflexivity|].
  rewrite !lookup_insert_ne by done. rewrite lookup_insert_eq. reflexivity.
Qed.

(** Without [crawled_at] the YouTube extractor writes nothing, whatever
    the rest of the record holds: the item needs [original_data['crawled_at']]
    for [fetchedAt], and the [KeyError] ends the function with [False]. *)
Lemma youtube_no_crawled_at_no_write
    (E : Extract.env) (original_data : gmap string pyval)
    (extracted : pyval) (tr : trace) :
  original_data !! "crawled_at" = None ->
  YoutubeExtract.save_to_semifinal_db E original_data extracted tr
  = (Ret (PBool false), tr).
Proof.
  intros Hmiss.
  unfold YoutubeExtract.save_to_semifinal_db.
  destruct (Extract.ddb_table E); [|reflexivity]. cbn [negb].
  unfold YoutubeExtract.build_item, YoutubeExtract.buzz_score.
  unfold get at 2. rewrite Hmiss. cbn [default truthy].
  rewrite andb_false_r. cbn [res_bind].
  unfold subscript. rewrite Hmiss.
  destruct (original_data !! "videoId"); [|reflexivity].
  destruct (original_data !! "url"); [|reflexivity].
  destruct (original_data !! "title"); [|reflexivity].
  cbn [res_bind].
  destruct extracted; reflexivity.
Qed.

(** The two worked examples of the YouTube formula, run on records:
    1000 views, 100 subscribers, two hours old gives 5; one view, 1000
    subscribers, one hour old gives 1. *)
Lemma youtube_buzz_examples :
  Spec.youtube_buzz (Float64.Finite 1000) (Float64.Finite 100)
    (Float64.Finite 2) = Some 5
  /\ Spec.youtube_buzz (Float64.Finite 1) (Float64.Finite 1000)
       (Float64.Finite 1) = Some 1
  /\ (exists item,
        YoutubeExtract.save_to_semifinal_db (Samples.extract_env [])
          (Samples.youtube_video 1000 100
             (Some "2024-01-01T00:00:00Z") (Some "2024-01-01T02:00:00+00:00"))
          (PDict Samples.answer) []
        = (Ret (PBool true), [EvPut item])
        /\ item !! "buzz" = Some (PInt 5))
  /\ (exists item,
        YoutubeExtract.save_to_semifinal_db (Samples.extract_env [])
          (Samples.youtube_video 1 1000
             (Some "2024-01-01T00:00:00Z") (Some "2024-01-01T01:00:00+00:00"))
          (PDict Samples.answer) []
        = (Ret (PBool true), [EvPut item])
        /\ item !! "buzz" = Some (PInt 1)).
Proof.
  split; [vm_compute; reflexivity|]. split; [vm_compute; reflexivity|]. split.
  - eexists. split; vm_compute; reflexivity.
  - eexists. split; vm_compute; reflexivity.
Qed.

(** C2 (YouTube buzz score), at a video whose [crawled_at] is missing:
    [save_to_semifinal_db] returns [False] and writes nothing, where the
    claim has it write [buzz = 1]; the same video with [published_at]
    missing instead is written with [buzz = 1], and the Instagram
    extractor writes [buzz = 1] for a post without [crawled_at]. *)
Theorem youtube_missing_crawled_at_writes_nothing :
  YoutubeExtract.save_to_semifinal_db (Samples.extract_env [])
    (Samples.youtube_video 1000 100 (Some "2024-01-01T00:00:00Z") None)
    (PDict Samples.answer) []
  = (Ret (PBool false), [])
  /\ (exists item,
        YoutubeExtract.save_to_semifinal_db (Samples.extract_env [])
          (Samples.youtube_video 1000 100 None (Some "2024-01-01T02:00:00+00:00"))
          (PDict Samples.answer) []
        = (Ret (PBool true), [EvPut item])
        /\ item !! "buzz" = Some (PInt 1))
  /\ (exists item,
        InstagramExtract.save_to_target_db (Samples.extract_env [])
          (delete "crawled_at"
             (Samples.instagram_post 500 "2024-01-01T00:00:00+0000" ""))
          (PDict Samples.answer) []
        = (Ret (PBool true), [EvPut item])
        /\ item !! "buzz" = Some (PInt 1)).
Proof.
  split; [|split].
  - vm_compute. reflexivity.
  - eexists. split; vm_compute; reflexivity.
  - eexists. split; vm_compute; reflexivity.
Qed.

(** ** The inference retry loop *)

Lemma count_app p (t1 t2 : trace) :
  count p (t1 ++ t2) = (count p t1 + count p t2)%nat.
Proof. unfold count. now rewrite List.filter_app, length_app. Qed.

Lemma count_generate_rounds E c a d k :
  count is_generate (Spec.rate_limited_rounds E c a d k) = k.
Proof.
  revert a d. induction k as [|k IH]; intros a d; [reflexivity|].
  unfold count in *. cbn. now rewrite IH.
Qed.

Lemma count_sleep_rounds E c a d k :
  count is_sleep (Spec.rate_limited_rounds E c a d k) = k.
Proof.
  revert a d. induction k as [|k IH]; intros a d; [reflexivity|].
  unfold count in *. cbn. now rewrite IH.
Qed.

(** One rate-limited attempt: a request, a wait, and the loop goes on. *)
Lemma attempt_once_rate_limited E c a tr :
  Spec.rate_limit_failure
    (Extract.generate_content E (count is_generate tr) c) = true ->
  Extract.attempt_once E c a tr
  = (Ret None,
     (tr ++ [EvGenerate c;
             EvSleep (Extract.wait_time a
                        (Extract.uniform E (count is_sleep tr)))])%list).
Proof.
  intros H. unfold Extract.attempt_once, bind, get_trace, emit, ret.
  destruct (Extract.generate_content E _ c) as [v|e]; [discriminate|].
  cbn in H. rewrite H. cbn.
  rewrite count_app. change (count is_sleep [EvGenerate c]) with 0%nat.
  rewrite Nat.add_0_r, <- app_assoc. reflexivity.
Qed.

(** [k] rate-limited attempts in a row use up [k] entries of the loop. *)
Lemma retry_loop_rate_limited E c k :
  forall a n tr,
    (forall i, (i < k)%nat ->
       Spec.rate_limit_failure
         (Extract.generate_content E (count is_generate tr + i) c) = true) ->
    Extract.retry_loop E c (seq a (k + n)) tr
    = Extract.retry_loop E c (seq (a + k) n)
        (tr ++ Spec.rate_limited_rounds E c a (count is_sleep tr) k)%list.
Proof.
  induction k as [|k IH]; intros a n tr Hlim.
  - cbn. now rewrite Nat.add_0_r, app_nil_r.
  - cbn [Nat.add seq Extract.retry_loop]. unfold bind at 1.
    rewrite attempt_once_rate_limited
      by (specialize (Hlim 0%nat); rewrite Nat.add_0_r in Hlim; apply Hlim; lia).
    rewrite IH.
    + rewrite count_app. cbn [Spec.rate_limited_rounds].
      rewrite <- app_assoc.
      change (count is_sleep [EvGenerate c; EvSleep _]) with 1%nat.
      replace (count is_sleep tr + 1)%nat with (S (count is_sleep tr)) by lia.
      now replace (a + S k)%nat with (S a + k)%nat by lia.
    + intros i Hi. rewrite count_app.
      change (count is_generate [EvGenerate c; EvSleep _]) with 1%nat.
      replace (count is_generate tr + 1 + i)%nat
        with (count is_generate tr + S i)%nat by lia.
      apply Hlim. lia.
Qed.

(** The loop never sends more requests than it has attempts left. *)
Lemma retry_loop_bound E c attempts :
  forall tr,
    (count is_generate (snd (Extract.retry_loop E c attempts tr))
     <= count is_generate tr + length attempts)%nat.
Proof.
  induction attempts as [|a rest IH]; intros tr; cbn [Extract.retry_loop].
  - cbn. lia.
  - unfold bind at 1, Extract.attempt_once, bind, get_trace, emit, ret.
    destruct (Extract.generate_content E _ c) as [v|e]; cbn [snd length].
    + rewrite count_app. change (count is_generate [EvGenerate c]) with 1%nat.
      lia.
    + destruct (Extract.is_rate_limit e); cbn [snd].
      * etransitivity; [apply IH|]. rewrite !count_app.
        change (count is_generate [EvGenerate c]) with 1%nat.
        change (count is_generate [EvSleep _]) with 0%nat. lia.
      * rewrite count_app. change (count is_generate [EvGenerate c]) with 1%nat.
        lia.
Qed.

(** The attempt that ends the loop: an answer is returned as it is, a
    failure without rate-limit signal gives null; one request either way. *)
Lemma retry_loop_answer E c a rest tr parsed :
  Extract.generate_content E (count is_generate tr) c = Ret parsed ->
  Extract.retry_loop E c (a :: rest) tr = (Ret parsed, tr ++ [EvGenerate c]).
Proof.
  intros H. cbn [Extract.retry_loop].
  unfold bind at 1, Extract.attempt_once, bind, get_trace, emit, ret.
  now rewrite H.
Qed.

Lemma retry_loop_failure E c a rest tr e :
  Extract.generate_content E (count is_generate tr) c = Raise e ->
  Extract.is_rate_limit e = false ->
  Extract.retry_loop E c (a :: rest) tr = (Ret PNone, tr ++ [EvGenerate c]).
Proof.
  intros H He. cbn [Extract.retry_loop].
  unfold bind at 1, Extract.attempt_once, bind, get_trace, emit, ret.
  now rewrite H, He.
Qed.

Lemma wait_time_formula attempt jitter :
  (Extract.wait_time attempt jitter
   == 10 * 2 ^ Z.of_nat attempt + jitter)%Q.
Proof.
  unfold Extract.wait_time, Extract.INITIAL_BACKOFF_TIME.
  rewrite inject_Z_mult, Zpower_Qpower by lia. reflexivity.
Qed.

(** C3 (inference retry policy).  With an initialised client,
    [call_gemini_for_extraction]
    - sends at most 5 requests;
    - after [k < 5] attempts that failed with a rate-limit signal, each
      followed by a wait of 10 * 2^attempt + jitter seconds (attempts numbered
      from 0), returns the parsed object of a successful attempt, and
      returns null at once on any other failure, having sent exactly
      [k + 1] requests;
    - after 5 rate-limited attempts returns null. *)
Theorem inference_retry_policy
    (E : Extract.env) (contents : string) (tr : trace) :
  Extract.gemini_client E = true ->
  let g := count is_generate tr in
  let s := count is_sleep tr in
  let outcome i := Extract.generate_content E (g + i) contents in
  let rounds := Spec.rate_limited_rounds E contents 0 s in
  (count is_generate (snd (Extract.call_gemini_for_extraction E contents tr))
   <= g + 5)%nat
  /\ (forall k, (k < 5)%nat ->
        (forall i, (i < k)%nat -> Spec.rate_limit_failure (outcome i) = true) ->
        (forall parsed, outcome k = Ret parsed ->
           Extract.call_gemini_for_extraction E contents tr
           = (Ret parsed, tr ++ rounds k ++ [EvGenerate contents]))
        /\ (forall e, outcome k = Raise e ->
              Extract.is_rate_limit e = false ->
              Extract.call_gemini_for_extraction E contents tr
              = (Ret PNone, tr ++ rounds k ++ [EvGenerate contents])))
  /\ ((forall i, (i < 5)%nat -> Spec.rate_limit_failure (outcome i) = true) ->
      Extract.call_gemini_for_extraction E contents tr
      = (Ret PNone, tr ++ rounds 5%nat))
  /\ (forall k,
        count is_generate (rounds k ++ [EvGenerate contents]) = (k + 1)%nat)
  /\ (forall attempt jitter,
        Extract.wait_time attempt jitter
        == 10 * 2 ^ Z.of_nat attempt + jitter)%Q.
Proof.
  intros Hclient g s outcome rounds.
  unfold Extract.call_gemini_for_extraction. rewrite Hclient. cbn [negb].
  split; [|split; [|split; [|split]]].
  - apply (retry_loop_bound E contents (seq 0 Extract.MAX_RETRIES) tr).
  - intros k Hk Hlim.
    assert (Hloop :
      Extract.retry_loop E contents (seq 0 Extract.MAX_RETRIES) tr
      = Extract.retry_loop E contents (seq k (5 - k)) (tr ++ rounds k)).
    { replace Extract.MAX_RETRIES with (k + (5 - k))%nat
        by (unfold Extract.MAX_RETRIES; lia).
      now rewrite retry_loop_rate_limited by exact Hlim. }
    rewrite Hloop. destruct (5 - k)%nat as [|rest] eqn:Hrest; [lia|].
    cbn [seq]. rewrite app_assoc.
    assert (Hg : count is_generate (tr ++ rounds k) = (g + k)%nat).
    { rewrite count_app. unfold rounds. now rewrite count_generate_rounds. }
    split.
    + intros parsed Hout. apply retry_loop_answer. now rewrite Hg.
    + intros e Hout He. apply retry_loop_failure with (e := e);
        [now rewrite Hg | exact He].
  - intros Hlim.
    change (seq 0 Extract.MAX_RETRIES) with (seq 0 (5 + 0)).
    now rewrite retry_loop_rate_limited by exact Hlim.
  - intros k. rewrite count_app. unfold rounds.
    now rewrite count_generate_rounds.
  - apply wait_time_formula.
Qed.

(** Two rate-limited attempts and then an answer: the parsed object comes
    back after exactly 3 requests and waits of 10.5 and 20.5 seconds.  A
    failure of another kind on the first attempt: null after exactly 1
    request and no wait. *)
Lemma inference_retry_policy_witness :
  Extract.call_gemini_for_extraction
    (Samples.extract_env Samples.limited_script) "TEXT: ramen" []
  = (Ret (PDict Samples.answer),
     [EvGenerate "TEXT: ramen"; EvSleep (inject_Z 10 + (1 # 2));
      EvGenerate "TEXT: ramen"; EvSleep (inject_Z 20 + (1 # 2));
      EvGenerate "TEXT: ramen"])
  /\ Extract.call_gemini_for_extraction
       (Samples.extract_env Samples.broken_script) "TEXT: ramen" []
     = (Ret PNone, [EvGenerate "TEXT: ramen"]).
Proof.
  split.
  - destruct (inference_retry_policy
                (Samples.extract_env Samples.limited_script)
                "TEXT: ramen" [] eq_refl) as (_ & H & _).
    destruct (H 2%nat) as [Hok _].
    + lia.
    + intros [|[|i]] Hi; [reflexivity | reflexivity | lia].
    + apply (Hok (PDict Samples.answer)). reflexivity.
  - destruct (inference_retry_policy
                (Samples.extract_env Samples.broken_script)
                "TEXT: ramen" [] eq_refl) as (_ & H & _).
    destruct (H 0%nat) as [_ Herr].
    + lia.
    + intros i Hi. lia.
    + apply (Herr (GenericError "500 internal error" (Some 500)));
        reflexivity.
Defined.

(** ** Unmarshalling *)

(** [collect] succeeds exactly when no conversion raised, and then keeps
    the keys whose conversion produced a value. *)
Lemma collect_spec (conv : gmap string (res (option pyval))) :
  match collect conv with
  | Ret data =>
      (forall k r, conv !! k = Some r -> exists o, r = Ret o)
      /\ (forall k, data !! k
                    = conv !! k ≫= fun r => match r with
                                            | Ret o => o
                                            | Raise _ => None
                                            end)
  | Raise e => exists k, conv !! k = Some (Raise e)
  end.
Proof.
  unfold collect.
  set (f := fun (_ : string) r acc => first_raise acc r).
  assert (Hfold :
    match map_fold f None conv with
    | None => forall k r, conv !! k = Some r -> exists o, r = Ret o
    | Some e => exists k, conv !! k = Some (Raise e)
    end).
  { apply (map_fold_weak_ind
             (fun acc m =>
                match acc with
                | None => forall k r, m !! k = Some r -> exists o, r = Ret o
                | Some e => exists k, m !! k = Some (Raise e)
                end)).
    - intros k r Hk. now rewrite lookup_empty in Hk.
    - intros i x m acc Hi IH. unfold f, first_raise.
      destruct acc as [e|].
      + destruct IH as [k Hk]. exists k.
        rewrite lookup_insert_ne; [exact Hk|]. intros ->. congruence.
      + destruct x as [o|e].
        * intros k r. rewrite lookup_insert. case_decide.
          -- intros [= <-]. eauto.
          -- apply IH.
        * exists i. now rewrite lookup_insert_eq. }
  destruct (map_fold f None conv) as [e|]; [exact Hfold|].
  split; [exact Hfold|].
  intros k. rewrite lookup_omap. reflexivity.
Qed.

Section Contract.
(** The contract, for any unmarshaller whose conversion of one attribute
    follows the shape shared by the YouTube extractor and the geocoder. *)
Variable unmarshal_value : attr -> res (option pyval).
Hypothesis unmarshal_value_eq : forall value,
  unmarshal_value value
  = match value with
    | Attr (Some s) _ _ => Ret (Some (PStr s))
    | Attr None (Some n) _ =>
        if negb (contains "." n)
        then let? z := int_of_string n in Ret (Some (PInt z))
        else let? q := float_of_string n in Ret (Some (PFloat q))
    | Attr None None (Some m) =>
        if bool_decide (dom m = ∅) then Ret None
        else
          let? data := collect (unmarshal_value <$> m) in
          Ret (Some (PDict data))
    | Attr None None None => Ret None
    end.

Lemma contract_holds (dynamodb_json : image) (data : gmap string pyval) :
  collect (unmarshal_value <$> dynamodb_json) = Ret data ->
  forall k,
    match dynamodb_json !! k with
    | Some (Attr (Some s) _ _) => data !! k = Some (PStr s)
    | Some (Attr None (Some n) _) =>
        exists v, Spec.number_value n = Ret v /\ data !! k = Some v
    | Some (Attr None None (Some m)) =>
        if bool_decide (m = ∅) then data !! k = None
        else exists nested,
               collect (unmarshal_value <$> m) = Ret nested
               /\ data !! k = Some (PDict nested)
    | Some (Attr None None None) => data !! k = None
    | None => data !! k = None
    end.
Proof.
  intros Hdata k.
  pose proof (collect_spec (unmarshal_value <$> dynamodb_json)) as Hc.
  rewrite Hdata in Hc. destruct Hc as [Hok Hlook].
  specialize (Hlook k). specialize (Hok k).
  rewrite lookup_fmap in Hlook, Hok.
  destruct (dynamodb_json !! k) as [value|]; cbn in Hlook, Hok; [|exact Hlook].
  destruct (Hok _ eq_refl) as [o Ho]. rewrite Ho in Hlook.
  rewrite unmarshal_value_eq in Ho.
  destruct value as [[s|] [n|] [m|]]; try (injection Ho as <-; exact Hlook).
  - unfold Spec.number_value.
    destruct (contains "." n); cbn [negb] in Ho |- *.
    + destruct (float_of_string n); [|discriminate].
      injection Ho as <-. eauto.
    + destruct (int_of_string n); [|discriminate].
      injection Ho as <-. eauto.
  - unfold Spec.number_value.
    destruct (contains "." n); cbn [negb] in Ho |- *.
    + destruct (float_of_string n); [|discriminate].
      injection Ho as <-. eauto.
    + destruct (int_of_string n); [|discriminate].
      injection Ho as <-. eauto.
  - rewrite (bool_decide_ext (m = ∅) (dom m = ∅))
      by (symmetry; apply dom_empty_iff_L).
    destruct (bool_decide (dom m = ∅)).
    + injection Ho as <-. exact Hlook.
    + destruct (collect (unmarshal_value <$> m)) as [nested|e];
        [|discriminate].
      injection Ho as <-. eauto.
Qed.
End Contract.

(** X4.  The unmarshaller of the YouTube extractor keeps the contract: in
    the result a string attribute is its string, a number attribute is an
    integer when its text has no decimal point and a float otherwise, a
    non-empty map attribute is the unmarshalled map, and an attribute
    with an empty map or with no S, N or M tag is left out. *)
Lemma youtube_unmarshal_contract (dynamodb_json : image) data :
  YoutubeExtract.unmarshal_dynamodb_json dynamodb_json = Ret data ->
  forall k,
    match dynamodb_json !! k with
    | Some (Attr (Some s) _ _) => data !! k = Some (PStr s)
    | Some (Attr None (Some n) _) =>
        exists v, Spec.number_value n = Ret v /\ data !! k = Some v
    | Some (Attr None None (Some m)) =>
        if bool_decide (m = ∅) then data !! k = None
        else exists nested,
               YoutubeExtract.unmarshal_dynamodb_json m = Ret nested
               /\ data !! k = Some (PDict nested)
    | Some (Attr None None None) => data !! k = None
    | None => data !! k = None
    end.
Proof.
  apply (contract_holds YoutubeExtract.unmarshal_value).
  intros [[s|] [n|] [m|]]; reflexivity.
Qed.

(** X5.  The unmarshaller of the geocoder keeps the same contract. *)
Lemma geocoder_unmarshal_contract (dynamodb_json : image) data :
  GeoCoding.unmarshal_dynamodb_json dynamodb_json = Ret data ->
  forall k,
    match dynamodb_json !! k with
    | Some (Attr (Some s) _ _) => data !! k = Some (PStr s)
    | Some (Attr None (Some n) _) =>
        exists v, Spec.number_value n = Ret v /\ data !! k = Some v
    | Some (Attr None None (Some m)) =>
        if bool_decide (m = ∅) then data !! k = None
        else exists nested,
               GeoCoding.unmarshal_dynamodb_json m = Ret nested
               /\ data !! k = Some (PDict nested)
    | Some (Attr None None None) => data !! k = None
    | None => data !! k = None
    end.
Proof.
  apply (contract_holds GeoCoding.unmarshal_value).
  intros [[s|] [n|] [m|]]; reflexivity.
Qed.

(** The Instagram unmarshaller reads a number attribute with [int] alone:
    where the text is not an integer literal the conversion raises. *)
Lemma instagram_unmarshal_number n s m :
  InstagramExtract.unmarshal_value (Attr None (Some n) m)
  = (let? z := int_of_string n in Ret (Some (PInt z)))
  /\ InstagramExtract.unmarshal_value (Attr (Some s) (Some n) m)
     = Ret (Some (PStr s)).
Proof. split; reflexivity. Qed.

(** C4 (unmarshalling contract), at a new image with the number
    attribute 4.5: the YouTube extractor and the geocoder unmarshal it to
    the float 4.5, the Instagram extractor raises [ValueError] from
    [int('4.5')], and its handler, which does not catch the exception,
    ends the whole invocation there. *)
Theorem instagram_unmarshaller_rejects_decimal :
  InstagramExtract.unmarshal_dynamodb_json Samples.decimal_image
  = Raise ValueError
  /\ (exists data,
        YoutubeExtract.unmarshal_dynamodb_json Samples.decimal_image = Ret data
        /\ data !! "rating" = Some (PFloat (45 # 10)))
  /\ (exists data,
        GeoCoding.unmarshal_dynamodb_json Samples.decimal_image = Ret data
        /\ data !! "rating" = Some (PFloat (45 # 10)))
  /\ InstagramExtract.lambda_handler
       (Samples.extract_env [Ret (PDict Samples.answer)])
       [Samples.decimal_record] []
     = (Raise ValueError, []).
Proof.
  split; [|split; [|split]].
  - vm_compute. reflexivity.
  - eexists. split; vm_compute; reflexivity.
  - eexists. split; vm_compute; reflexivity.
  - vm_compute. reflexivity.
Qed.

(** ** The sentinel for missing extracted fields *)

(** X9.  Whatever [save_to_target_db] writes has both keys, filled from the
    extraction result, with "N/A" where the result lacks the key. *)
Lemma instagram_item_has_place_fields
    (E : Extract.env) (original_data : gmap string pyval)
    (extracted : pyval) (tr : trace) :
  snd (InstagramExtract.save_to_target_db E original_data extracted tr) = tr
  \/ exists item d,
       extracted = PDict d
       /\ snd (InstagramExtract.save_to_target_db E original_data extracted tr)
          = tr ++ [EvPut item]
       /\ item !! "placeName" = Some (get_default d "placeName" (PStr "N/A"))
       /\ item !! "address" = Some (get_default d "address" (PStr "N/A")).
Proof.
  unfold InstagramExtract.save_to_target_db.
  destruct (Extract.ddb_table E); [|now left]. cbn [negb].
  unfold InstagramExtract.build_item.
  destruct (InstagramExtract.buzz_score E original_data) as [score|e];
    [|left; now destruct e].
  cbn [res_bind].
  destruct (subscript original_data "media_id") as [v1|e];
    [|left; now destruct e].
  destruct (subscript original_data "permalink") as [v2|e];
    [|left; now destruct e].
  destruct (subscript original_data "caption") as [v3|e];
    [|left; now destruct e].
  cbn [res_bind].
  destruct extracted as [| | | | | | |d]; try (now left).
  cbn [attr_get res_bind]. unfold Extract.write_item.
  destruct (Extract.put_item E _) as [e|]; [left; now destruct e|].
  right. eexists _, d. split; [reflexivity|]. split; [reflexivity|].
  split.
  - rewrite !lookup_insert_ne by done. now rewrite lookup_insert_eq.
  - rewrite !lookup_insert_ne by done. now rewrite lookup_insert_eq.
Qed.

(** X10.  Whatever [save_to_semifinal_db] writes has both keys, filled from
    the extraction result, with "N/A" where the result lacks the key. *)
Lemma youtube_item_has_place_fields
    (E : Extract.env) (original_data : gmap string pyval)
    (extracted : pyval) (tr : trace) :
  snd (YoutubeExtract.save_to_semifinal_db E original_data extracted tr) = tr
  \/ exists item d,
       extracted = PDict d
       /\ snd (YoutubeExtract.save_to_semifinal_db E original_data extracted tr)
          = tr ++ [EvPut item]
       /\ item !! "placeName" = Some (get_default d "placeName" (PStr "N/A"))
       /\ item !! "address" = Some (get_default d "address" (PStr "N/A")).
Proof.
  unfold YoutubeExtract.save_to_semifinal_db.
  destruct (Extract.ddb_table E); [|now left]. cbn [negb].
  unfold YoutubeExtract.build_item.
  destruct (YoutubeExtract.buzz_score E original_data) as [score|e];
    [|left; now destruct e].
  cbn [res_bind].
  destruct (subscript original_data "videoId") as [v1|e];
    [|left; now destruct e].
  destruct (subscript original_data "url") as [v2|e];
    [|left; now destruct e].
  destruct (subscript original_data "title") as [v3|e];
    [|left; now destruct e].
  cbn [res_bind].
  destruct extracted as [| | | | | | |d]; try (now left).
  cbn [attr_get res_bind].
  destruct (subscript original_data "crawled_at") as [v4|e];
    [|left; now destruct e].
  cbn [res_bind]. unfold Extract.write_item.
  destruct (Extract.put_item E _) as [e|]; [left; now destruct e|].
  right. eexists _, d. split; [reflexivity|]. split; [reflexivity|].
  split.
  - rewrite !lookup_insert_ne by done. now rewrite lookup_insert_eq.
  - rewrite !lookup_insert_ne by done. now rewrite lookup_insert_eq.
Qed.

(** C5 (sentinel invariant), at a record whose inference answer is
    the object with both values null, the answer the system instruction
    asks for when the text names no place: both extractors write the item
    with [placeName] and [address] null, where the claim has "N/A". *)
Theorem null_answer_is_written_as_null :
  (exists item,
     InstagramExtract.lambda_handler
       (Samples.extract_env [Ret (PDict Samples.null_answer)])
       [Samples.instagram_record] []
     = (Ret 200, [EvGenerate "TEXT: ramen"; EvPut item])
     /\ item !! "placeName" = Some PNone
     /\ item !! "address" = Some PNone)
  /\ (exists item contents,
        YoutubeExtract.lambda_handler
          (Samples.extract_env [Ret (PDict Samples.null_answer)])
          [Samples.youtube_record] []
        = (Ret (200, 1), [EvGenerate contents; EvPut item])
        /\ item !! "placeName" = Some PNone
        /\ item !! "address" = Some PNone).
Proof.
  split.
  - eexists. split; [|split]; vm_compute; reflexivity.
  - eexists _, _. split; [|split]; vm_compute; reflexivity.
Qed.

(** ** The geocoder *)

(** What the body of the [try] can come to: null, a pair of the first two
    entries of the point in the order lng, lat, or an exception. *)
Lemma read_response_cases response :
  GeoCoding.read_response response = Ret PNone
  \/ (exists p0 p1,
        GeoCoding.read_response response
        = Ret (PDict (<["lng" := p0]> (<["lat" := p1]> ∅))))
  \/ exists e, GeoCoding.read_response response = Raise e.
Proof.
  unfold GeoCoding.read_response.
  destruct (truthy response); [|now left].
  step_res; [|right; right; eauto].
  destruct (truthy a); [|now left].
  repeat (step_res; [|right; right; eauto]).
  right; left; eauto.
Qed.

Lemma geocode_address_cases (E : GeoCoding.env) address tr :
  GeoCoding.geocode_address E address tr = (Ret PNone, tr)
  \/ GeoCoding.geocode_address E address tr
     = (Ret PNone, tr ++ [EvGeocode (GeoCoding.place_index_name E) address])
  \/ exists p0 p1,
       GeoCoding.geocode_address E address tr
       = (Ret (PDict (<["lng" := p0]> (<["lat" := p1]> ∅))),
          tr ++ [EvGeocode (GeoCoding.place_index_name E) address])
       /\ truthy address = true
       /\ GeoCoding.is_sentinel address = false.
Proof.
  unfold GeoCoding.geocode_address.
  destruct (GeoCoding.location_client E); [|now left].
  destruct (truthy address); [|now left].
  destruct (GeoCoding.is_sentinel address); [now left|].
  cbn [negb orb].
  destruct (negb (truthy (PStr (GeoCoding.place_index_name E)))); [now left|].
  unfold try_except, bind, emit, lift, ret.
  destruct (GeoCoding.search_place_index_for_text E _ address) as [response|e];
    [|right; now left].
  destruct (read_response_cases response) as [H | [(p0 & p1 & H) | [e H]]];
    rewrite H; [right; now left | right; right; eauto | right; now left].
Qed.

(** C7 (geocode null short-circuit).  [geocode_address]
    - returns null without any request when the address is empty, is the
      sentinel "N/A" or "null", or when the client or the place index is
      not configured;
    - returns null after its one request when the provider raises or when
      the result set is empty;
    - never raises. *)
Theorem geocode_null_short_circuit
    (E : GeoCoding.env) (address : pyval) (tr : trace) :
  (truthy address = false \/ address = PStr "N/A" \/ address = PStr "null"
   \/ GeoCoding.location_client E = false
   \/ GeoCoding.place_index_name E = "" ->
   GeoCoding.geocode_address E address tr = (Ret PNone, tr))
  /\ (forall e,
        GeoCoding.search_place_index_for_text E
          (GeoCoding.place_index_name E) address = Raise e ->
        fst (GeoCoding.geocode_address E address tr) = Ret PNone)
  /\ (forall response,
        GeoCoding.search_place_index_for_text E
          (GeoCoding.place_index_name E) address = Ret response ->
        item_key response "Results" = Ret (PList []) ->
        fst (GeoCoding.geocode_address E address tr) = Ret PNone)
  /\ (exists v, fst (GeoCoding.geocode_address E address tr) = Ret v)
  /\ (count is_geocode (snd (GeoCoding.geocode_address E address tr))
      <= count is_geocode tr + 1)%nat.
Proof.
  split; [|split; [|split; [|split]]].
  - unfold GeoCoding.geocode_address, GeoCoding.is_sentinel.
    intros [H | [-> | [-> | [H | H]]]].
    + rewrite H. cbn [negb]. now rewrite orb_true_r.
    + cbn. now rewrite !orb_true_r.
    + cbn. now rewrite !orb_true_r.
    + now rewrite H.
    + rewrite H. cbn. now rewrite !orb_true_r.
  - intros e He. unfold GeoCoding.geocode_address.
    destruct (_ || _); [reflexivity|].
    unfold try_except, bind, emit, lift, ret. now rewrite He.
  - intros response Hresp Hres. unfold GeoCoding.geocode_address.
    destruct (_ || _); [reflexivity|].
    unfold try_except, bind, emit, lift, ret. rewrite Hresp.
    unfold GeoCoding.read_response. rewrite Hres.
    now destruct (truthy response).
  - destruct (geocode_address_cases E address tr)
      as [H | [H | (p0 & p1 & H & _)]]; rewrite H; eauto.
  - destruct (geocode_address_cases E address tr)
      as [H | [H | (p0 & p1 & H & _)]]; rewrite H; cbn [snd];
      rewrite ?count_app; unfold count; cbn; lia.
Qed.

(** The sentinel address is answered with null and no request, even by a
    provider that would resolve it; a provider error and an empty result
    set give null after one request. *)
Lemma geocode_null_short_circuit_witness :
  GeoCoding.geocode_address
    (Samples.geocoder_env
       (Ret (Samples.provider_response [PFloat (1397 # 10); PFloat (3565 # 100)])))
    (PStr "N/A") []
  = (Ret PNone, [])
  /\ fst (GeoCoding.geocode_address
            (Samples.geocoder_env (Raise ClientError)) (PStr "Shibuya, Tokyo") [])
     = Ret PNone
  /\ fst (GeoCoding.geocode_address
            (Samples.geocoder_env (Ret Samples.empty_response))
            (PStr "Shibuya, Tokyo") [])
     = Ret PNone.
Proof.
  split; [|split].
  - apply geocode_null_short_circuit. right; left; reflexivity.
  - apply (proj1 (proj2 (geocode_null_short_circuit
                           (Samples.geocoder_env (Raise ClientError))
                           (PStr "Shibuya, Tokyo") [])) ClientError).
    reflexivity.
  - apply (proj1 (proj2 (proj2 (geocode_null_short_circuit
                                  (Samples.geocoder_env (Ret Samples.empty_response))
                                  (PStr "Shibuya, Tokyo") [])))
             Samples.empty_response); reflexivity.
Defined.

(** C8 (coordinate ordering).  For a configured geocoder and an address
    that is neither empty nor a sentinel, a response whose first result
    has the point [lng, lat, ...] makes [geocode_address] return the
    object with [lng] taken from index 0 and [lat] from index 1. *)
Theorem geocode_point_order
    (E : GeoCoding.env) (address : pyval) (tr : trace)
    (response first place geometry lng lat : pyval)
    (more_results more_entries : list pyval) :
  GeoCoding.location_client E = true ->
  truthy address = true ->
  GeoCoding.is_sentinel address = false ->
  GeoCoding.place_index_name E <> "" ->
  GeoCoding.search_place_index_for_text E
    (GeoCoding.place_index_name E) address = Ret response ->
  item_key response "Results" = Ret (PList (first :: more_results)) ->
  item_key first "Place" = Ret place ->
  item_key place "Geometry" = Ret geometry ->
  item_key geometry "Point" = Ret (PList (lng :: lat :: more_entries)) ->
  exists coordinates,
    GeoCoding.geocode_address E address tr
    = (Ret (PDict coordinates),
       tr ++ [EvGeocode (GeoCoding.place_index_name E) address])
    /\ coordinates !! "lng" = Some lng
    /\ coordinates !! "lat" = Some lat.
Proof.
  intros Hclient Haddr Hsent Hindex Hresp Hres Hplace Hgeom Hpoint.
  unfold GeoCoding.geocode_address.
  rewrite Hclient, Haddr, Hsent. cbn [negb orb truthy].
  destruct (String.eqb_spec (GeoCoding.place_index_name E) "") as [Heq|_];
    [contradiction|].
  cbn [negb]. unfold try_except, bind, emit, lift, ret. rewrite Hresp.
  unfold GeoCoding.read_response.
  assert (Htruthy : truthy response = true).
  { destruct response as [| | | | | | |d]; try discriminate.
    cbn in Hres |- *. unfold subscript in Hres.
    destruct (d !! "Results") eqn:Hd; [|discriminate].
    apply negb_true_iff, bool_decide_eq_false. intros Hdom.
    apply dom_empty_inv_L in Hdom. subst d. now rewrite lookup_empty in Hd. }
  rewrite Htruthy, Hres. cbn [res_bind truthy item_index nth_error].
  rewrite Hplace. cbn [res_bind]. rewrite Hgeom. cbn [res_bind].
  rewrite Hpoint. cbn [res_bind item_index nth_error].
  eexists. split; [reflexivity|]. split.
  - apply lookup_insert_eq.
  - rewrite lookup_insert_ne by done. apply lookup_insert_eq.
Qed.

(** The provider point [139.70, 35.65] comes back as lng 139.70 and
    lat 35.65. *)
Lemma geocode_point_order_witness :
  exists coordinates,
    GeoCoding.geocode_address
      (Samples.geocoder_env
         (Ret (Samples.provider_response
                 [PFloat (1397 # 10); PFloat (3565 # 100)])))
      (PStr "Shibuya, Tokyo") []
    = (Ret (PDict coordinates),
       [EvGeocode "buzz-map-index" (PStr "Shibuya, Tokyo")])
    /\ coordinates !! "lng" = Some (PFloat (1397 # 10))
    /\ coordinates !! "lat" = Some (PFloat (3565 # 100)).
Proof.
  eapply (geocode_point_order
            (Samples.geocoder_env
               (Ret (Samples.provider_response
                       [PFloat (1397 # 10); PFloat (3565 # 100)])))
            (PStr "Shibuya, Tokyo") []);
    try reflexivity.
  discriminate.
Defined.

(** ** The final store *)

Lemma truthy_insert k v (d : gmap string pyval) :
  truthy (PDict (<[k := v]> d)) = true.
Proof.
  cbn. apply negb_true_iff, bool_decide_eq_false. intros Hdom.
  apply dom_empty_inv_L in Hdom.
  apply (f_equal (fun m : gmap string pyval => m !! k)) in Hdom.
  rewrite lookup_insert_eq, lookup_empty in Hdom. discriminate.
Qed.

Lemma puts_app (t1 t2 : trace) : puts (t1 ++ t2) = puts t1 ++ puts t2.
Proof. unfold puts. apply omap_app. Qed.

Lemma app_one_neq {A} (l : list A) x : l <> l ++ [x].
Proof.
  intros H. apply (f_equal (@length A)) in H.
  rewrite length_app in H. cbn in H. lia.
Qed.

(** Whatever [save_to_final_db] writes has decimal [lat] and [lng]. *)
Lemma final_item_has_coordinates
    (E : GeoCoding.env) (data : gmap string pyval) (coords : pyval)
    (tr : trace) :
  GeoCoding.save_to_final_db E data coords tr = (Ret false, tr)
  \/ exists item lat lng,
       GeoCoding.save_to_final_db E data coords tr
       = (Ret true, tr ++ [EvPut item])
       /\ item !! "lat" = Some (PDecimal lat)
       /\ item !! "lng" = Some (PDecimal lng).
Proof.
  unfold GeoCoding.save_to_final_db.
  destruct (GeoCoding.ddb_target_table E); [|now left]. cbn [negb].
  unfold GeoCoding.build_item.
  repeat (step_res; [|now left]).
  destruct (GeoCoding.put_item E _); [now left|].
  right. eexists _, _, _. split; [reflexivity|]. split.
  - rewrite !lookup_insert_ne by done. now rewrite lookup_insert_eq.
  - rewrite !lookup_insert_ne by done. now rewrite lookup_insert_eq.
Qed.

Lemma coordinates_lat p0 p1 dflt :
  attr_get (PDict (<["lng" := p0]> (<["lat" := p1]> ∅))) "lat" dflt = Ret p1.
Proof.
  cbn [attr_get]. unfold get_default.
  rewrite lookup_insert_ne by done. now rewrite lookup_insert_eq.
Qed.

Lemma coordinates_lng p0 p1 dflt :
  attr_get (PDict (<["lng" := p0]> (<["lat" := p1]> ∅))) "lng" dflt = Ret p0.
Proof. cbn [attr_get]. unfold get_default. now rewrite lookup_insert_eq. Qed.

(** C6 (final-store write policy).  For an INSERT or MODIFY record whose
    image is an intermediate record (a non-empty [postId], and [platform],
    [url], [title] and [fetchedAt] present), an initialised table and a
    store that accepts the write:
    - when geocoding the address returns coordinates, exactly one item is
      written, with these coordinates as decimals;
    - when it does not, the store is left as it was;
    - when the address is absent or a sentinel, nothing happens at all;
    - an item written by [save_to_final_db] always has decimal [lat] and
      [lng]. *)
Theorem final_store_write_policy
    (E : GeoCoding.env) (record : Stream.record) (new_image : image)
    (data : gmap string pyval) (tr : trace) :
  is_upsert record = true ->
  NewImage record = Some new_image ->
  GeoCoding.unmarshal_dynamodb_json new_image = Ret data ->
  truthy (get data "postId") = true ->
  is_Some (data !! "platform") ->
  is_Some (data !! "url") ->
  is_Some (data !! "title") ->
  is_Some (data !! "fetchedAt") ->
  GeoCoding.ddb_target_table E = true ->
  (forall item, GeoCoding.put_item E item = None) ->
  let address := get data "address" in
  let geocoded := GeoCoding.geocode_address E address tr in
  let coordinates :=
    match fst geocoded with Ret v => v | Raise _ => PNone end in
  (forall lat lng,
      Spec.numeric_coordinates coordinates = Some (lat, lng) ->
      exists item,
        GeoCoding.process_record E record tr
        = (Ret 1, snd geocoded ++ [EvPut item])
        /\ item !! "lat" = Some (PDecimal lat)
        /\ item !! "lng" = Some (PDecimal lng)
        /\ item !! "postId" = data !! "postId")
  /\ (Spec.numeric_coordinates coordinates = None ->
      fst (GeoCoding.process_record E record tr) = Ret 0
      /\ puts (snd (GeoCoding.process_record E record tr)) = puts tr)
  /\ (data !! "address" = None \/ address = PStr "N/A"
      \/ address = PStr "null" ->
      GeoCoding.process_record E record tr = (Ret 0, tr))
  /\ (forall data' coords tr' item,
        snd (GeoCoding.save_to_final_db E data' coords tr')
        = tr' ++ [EvPut item] ->
        exists lat lng,
          item !! "lat" = Some (PDecimal lat)
          /\ item !! "lng" = Some (PDecimal lng)).
Proof.
  intros Hup Himg Hdata Hid Hplat Hurl Htitle Hfetched Htab Hput
    address geocoded coordinates.
  assert (Hpid : is_Some (data !! "postId")).
  { unfold get in Hid. destruct (data !! "postId"); [eauto|discriminate]. }
  destruct Hpid as [vid Hvid].
  assert (Hsub : subscript data "postId" = Ret vid)
    by (unfold subscript; now rewrite Hvid).
  apply subscript_some in Hplat as (vplat & Hplat).
  apply subscript_some in Hurl as (vurl & Hurl).
  apply subscript_some in Htitle as (vtitle & Htitle).
  apply subscript_some in Hfetched as (vfetched & Hfetched).
  assert (Hrun :
    GeoCoding.process_record E record tr
    = (if GeoCoding.geocodable (get data "postId") address then
         let! coordinates := GeoCoding.geocode_address E address in
         if truthy coordinates then
           let! saved := GeoCoding.save_to_final_db E data coordinates in
           ret (if saved then 1 else 0)
         else ret 0
       else ret 0) tr).
  { unfold GeoCoding.process_record, Stream.new_image.
    rewrite Hup, Himg. unfold bind at 1, lift at 1.
    unfold bind at 1, lift at 1. now rewrite Hdata. }
  split; [|split; [|split]].
  - intros lat lng Hnum.
    subst coordinates geocoded.
    destruct (geocode_address_cases E address tr)
      as [H | [H | (p0 & p1 & H & Haddr & Hsent)]];
      rewrite H in Hnum |- *; cbn [fst snd] in Hnum |- *; try discriminate.
    unfold Spec.numeric_coordinates in Hnum.
    rewrite lookup_insert_ne in Hnum by done.
    rewrite !lookup_insert_eq in Hnum.
    destruct (decimal_of_value p1) as [la|] eqn:Hla; [|discriminate].
    destruct (decimal_of_value p0) as [ln|] eqn:Hln; [|discriminate].
    injection Hnum as <- <-.
    rewrite Hrun. unfold GeoCoding.geocodable.
    rewrite Hid, Haddr, Hsent.
    assert (Hnone : is_none address = false)
      by (destruct address; [discriminate | reflexivity ..]).
    rewrite Hnone. cbn [andb orb negb].
    unfold bind at 1. rewrite H. rewrite truthy_insert.
    unfold bind, GeoCoding.save_to_final_db. rewrite Htab. cbn [negb].
    unfold GeoCoding.build_item.
    rewrite Hsub, Hplat, Hurl, Htitle, Hfetched.
    cbn [res_bind]. rewrite coordinates_lat, coordinates_lng.
    cbn [res_bind]. rewrite Hla, Hln. cbn [res_bind].
    rewrite Hput. unfold emit, ret.
    eexists. split; [reflexivity|]. split; [|split].
    + rewrite !lookup_insert_ne by done. now rewrite lookup_insert_eq.
    + rewrite !lookup_insert_ne by done. now rewrite lookup_insert_eq.
    + now rewrite lookup_insert_eq.
  - intros Hnum. rewrite Hrun.
    destruct (GeoCoding.geocodable (get data "postId") address);
      [|now split].
    subst coordinates geocoded. unfold bind at 1. unfold bind at 2.
    destruct (geocode_address_cases E address tr)
      as [H | [H | (p0 & p1 & H & _)]];
      rewrite H in Hnum |- *; cbn [fst snd] in Hnum |- *.
    + cbn [truthy]. now split.
    + cbn [truthy]. unfold ret. cbn [fst snd].
      split; [reflexivity|]. rewrite puts_app. cbn. apply app_nil_r.
    + rewrite truthy_insert. unfold bind.
      unfold GeoCoding.save_to_final_db. rewrite Htab. cbn [negb].
      unfold GeoCoding.build_item.
      rewrite Hsub, Hplat, Hurl, Htitle, Hfetched.
      cbn [res_bind]. rewrite coordinates_lat, coordinates_lng.
      cbn [res_bind].
      unfold Spec.numeric_coordinates in Hnum.
      rewrite lookup_insert_ne in Hnum by done.
      rewrite !lookup_insert_eq in Hnum.
      destruct (decimal_of_value p1) as [la|] eqn:Hla; cbn [res_bind].
      * destruct (decimal_of_value p0) as [ln|] eqn:Hln; [discriminate|].
        cbn [res_bind]. unfold ret. cbn [fst snd].
        split; [reflexivity|]. rewrite puts_app. cbn. apply app_nil_r.
      * unfold ret. cbn [fst snd].
        split; [reflexivity|]. rewrite puts_app. cbn. apply app_nil_r.
  - intros Hmiss. rewrite Hrun.
    assert (Hng : GeoCoding.geocodable (get data "postId") address = false).
    { unfold GeoCoding.geocodable, GeoCoding.is_sentinel.
      destruct Hmiss as [Hm | [Hm | Hm]].
      - subst address. unfold get. rewrite Hm. cbn. apply andb_false_r.
      - rewrite Hm. cbn. apply andb_false_r.
      - rewrite Hm. cbn. apply andb_false_r. }
    now rewrite Hng.
  - intros data' coords tr' item Hwritten.
    destruct (final_item_has_coordinates E data' coords tr')
      as [H | (item' & lat & lng & H & Hlat & Hlng)];
      rewrite H in Hwritten; cbn [snd] in Hwritten.
    + now apply app_one_neq in Hwritten.
    + apply app_inv_head in Hwritten. injection Hwritten as <-. eauto.
Qed.

(** An intermediate record whose address the provider resolves to the
    point [139.70, 35.65] is written once, with lat 35.65 and lng 139.70. *)
Lemma final_store_write_policy_witness :
  exists item,
    GeoCoding.process_record
      (Samples.geocoder_env
         (Ret (Samples.provider_response
                 [PFloat (1397 # 10); PFloat (3565 # 100)])))
      (Samples.intermediate_record (Some "Shibuya, Tokyo")) []
    = (Ret 1,
       [EvGeocode "buzz-map-index" (PStr "Shibuya, Tokyo"); EvPut item])
    /\ item !! "lat" = Some (PDecimal (3565 # 100))
    /\ item !! "lng" = Some (PDecimal (1397 # 10)).
Proof.
  destruct (final_store_write_policy
              (Samples.geocoder_env
                 (Ret (Samples.provider_response
                         [PFloat (1397 # 10); PFloat (3565 # 100)])))
              (Samples.intermediate_record (Some "Shibuya, Tokyo"))
              (Samples.intermediate_image (Some "Shibuya, Tokyo"))
              Samples.intermediate_data [])
    as [H _].
  - reflexivity.
  - reflexivity.
  - by_vm.
  - reflexivity.
  - exists (PStr "Instagram"). reflexivity.
  - exists (PStr "https://www.instagram.com/p/abc/"). reflexivity.
  - exists (PStr "ramen"). reflexivity.
  - exists (PStr "2024-03-01T00:00:00+00:00"). reflexivity.
  - reflexivity.
  - reflexivity.
  - destruct (H (3565 # 100) (1397 # 10)) as (item & Hrun & Hlat & Hlng & _).
    + reflexivity.
    + exists item. split; [exact Hrun|]. split; assumption.
Defined.

(** ** Records without their required fields *)

(** X6.  The Instagram extractor skips a record whose image lacks [media_id]
    or [caption]: no request, no write, and the loop goes on with the
    rest of the batch. *)
Lemma instagram_skips_incomplete_record
    (E : Extract.env) (record : Stream.record) (new_image : image)
    (data : gmap string pyval) (rest : list Stream.record) (tr : trace) :
  is_upsert record = true ->
  NewImage record = Some new_image ->
  InstagramExtract.unmarshal_dynamodb_json new_image = Ret data ->
  truthy (get data "media_id") = false
  \/ truthy (get data "caption") = false ->
  InstagramExtract.process_record E record tr = (Ret tt, tr)
  /\ InstagramExtract.process_records E (record :: rest) tr
     = InstagramExtract.process_records E rest tr.
Proof.
  intros Hup Himg Hdata Hmiss.
  assert (Hone : InstagramExtract.process_record E record tr = (Ret tt, tr)).
  { unfold InstagramExtract.process_record, Stream.new_image.
    rewrite Hup, Himg. unfold bind at 1, lift at 1.
    unfold bind at 1, lift at 1. rewrite Hdata.
    destruct Hmiss as [-> | ->]; [reflexivity|].
    now rewrite andb_false_r. }
  split; [exact Hone|].
  cbn [InstagramExtract.process_records]. unfold bind at 1. now rewrite Hone.
Qed.

(** X8.  The YouTube extractor never writes a record without [videoId] or
    without [title]: building the item raises [KeyError], and the function
    ends with a false result. *)
Lemma youtube_no_key_no_write
    (E : Extract.env) (original_data : gmap string pyval)
    (extracted : pyval) (tr : trace) :
  original_data !! "videoId" = None \/ original_data !! "title" = None ->
  exists v,
    YoutubeExtract.save_to_semifinal_db E original_data extracted tr
    = (Ret v, tr)
    /\ truthy v = false.
Proof.
  intros Hmiss.
  unfold YoutubeExtract.save_to_semifinal_db.
  destruct (Extract.ddb_table E); [|now exists (PBool false)]. cbn [negb].
  unfold YoutubeExtract.build_item.
  destruct (YoutubeExtract.buzz_score E original_data) as [score|e];
    cbn [res_bind].
  - unfold subscript at 1.
    destruct Hmiss as [Hm | Hm]; [rewrite Hm; now exists (PBool false)|].
    destruct (original_data !! "videoId"); [|now exists (PBool false)].
    cbn [res_bind]. unfold subscript at 1.
    destruct (original_data !! "url"); [|now exists (PBool false)].
    cbn [res_bind]. unfold subscript at 1. rewrite Hm.
    now exists (PBool false).
  - destruct e; eauto.
Qed.

(** The retry loop returns normally and only adds to the trace. *)
Lemma retry_loop_extends E c attempts :
  forall tr, exists v ext,
    Extract.retry_loop E c attempts tr = (Ret v, tr ++ ext).
Proof.
  induction attempts as [|a rest IH]; intros tr; cbn [Extract.retry_loop].
  - exists PNone, []. now rewrite app_nil_r.
  - unfold bind at 1, Extract.attempt_once, bind, get_trace, emit, ret.
    destruct (Extract.generate_content E _ c) as [v|e]; [eauto|].
    destruct (Extract.is_rate_limit e); [|eauto].
    destruct (IH ((tr ++ [EvGenerate c]) ++ [EvSleep
                (Extract.wait_time a
                   (Extract.uniform E (count is_sleep (tr ++ [EvGenerate c]))))]))
      as (v & ext & ->).
    exists v. eexists. now rewrite <- !app_assoc.
Qed.

(** With an initialised client the helper always sends a first request. *)
Lemma call_gemini_first_request E c tr :
  Extract.gemini_client E = true ->
  exists v ext,
    Extract.call_gemini_for_extraction E c tr
    = (Ret v, tr ++ EvGenerate c :: ext).
Proof.
  intros Hclient. unfold Extract.call_gemini_for_extraction.
  rewrite Hclient. cbn [negb].
  change (seq 0 Extract.MAX_RETRIES) with (0%nat :: seq 1 4).
  cbn [Extract.retry_loop].
  unfold bind at 1, Extract.attempt_once, bind, get_trace, emit, ret.
  destruct (Extract.generate_content E _ c) as [v|e]; [eauto|].
  destruct (Extract.is_rate_limit e); [|eauto].
  match goal with
  | |- context [Extract.retry_loop E c ?l ?t] =>
      destruct (retry_loop_extends E c l t) as (v & ext & ->)
  end.
  exists v. eexists. now rewrite <- !app_assoc.
Qed.

(** X7.  The YouTube extractor has no required-field check: every INSERT or
    MODIFY record that unmarshals is sent to the inference service,
    whatever fields it carries. *)
Lemma youtube_always_requests
    (E : Extract.env) (record : Stream.record) (new_image : image)
    (data : gmap string pyval) (tr : trace) :
  is_upsert record = true ->
  NewImage record = Some new_image ->
  YoutubeExtract.unmarshal_dynamodb_json new_image = Ret data ->
  Extract.gemini_client E = true ->
  exists ext,
    snd (YoutubeExtract.process_record E record tr)
    = tr ++ EvGenerate ("TEXT: " ++ YoutubeExtract.extraction_text E data)%string
         :: ext.
Proof.
  intros Hup Himg Hdata Hclient.
  unfold YoutubeExtract.process_record, Stream.new_image.
  rewrite Hup, Himg. unfold bind at 1, lift at 1.
  unfold bind at 1, lift at 1. rewrite Hdata.
  unfold bind at 1.
  destruct (call_gemini_first_request E
              ("TEXT: " ++ YoutubeExtract.extraction_text E data)%string
              tr Hclient) as (v & ext & ->).
  destruct (truthy v); [|unfold ret; cbn [snd]; eauto].
  unfold bind, YoutubeExtract.save_to_semifinal_db.
  destruct (Extract.ddb_table E); [|unfold ret; cbn [snd negb]; eauto].
  cbn [negb]. unfold Extract.write_item.
  destruct (YoutubeExtract.build_item E data v) as [item|e].
  - destruct (Extract.put_item E item) as [e|].
    + destruct e; unfold ret; cbn [snd]; eauto.
    + unfold bind, emit, ret. cbn [snd]. rewrite <- app_assoc. cbn. eauto.
  - destruct e; unfold ret; cbn [snd]; eauto.
Qed.

(** C9 (required-field skip), at a batch of three YouTube records, the
    first without [videoId], the second without [title] and
    [description], the third complete: the extractor sends an inference
    request for each of the three (the claim has it send none for the
    first two), writes the third alone and returns normally.  The
    Instagram extractor, on a record without [caption] followed by a
    complete one, sends a request for the complete record alone. *)
Theorem youtube_extractor_requests_without_required_fields :
  (exists contents1 contents2 contents3 item,
     YoutubeExtract.lambda_handler
       (Samples.extract_env
          [Ret (PDict Samples.answer); Ret (PDict Samples.answer);
           Ret (PDict Samples.answer)])
       [Samples.youtube_record_without_id;
        Samples.youtube_record_without_text;
        Samples.youtube_record] []
     = (Ret (200, 1),
        [EvGenerate contents1; EvGenerate contents2; EvGenerate contents3;
         EvPut item])
     /\ item !! "postId" = Some (PStr "dQw4w9WgXcQ"))
  /\ (exists item,
        InstagramExtract.lambda_handler
          (Samples.extract_env [Ret (PDict Samples.answer)])
          [Samples.instagram_record_without_caption;
           Samples.instagram_record] []
        = (Ret 200, [EvGenerate "TEXT: ramen"; EvPut item])).
Proof.
  split.
  - eexists _, _, _, _. split; vm_compute; reflexivity.
  - eexists. vm_compute. reflexivity.
Qed.

(** ** Captions in the raw Instagram store *)

(** [s.replace('\n', ' ')] keeps every character but the newlines, which
    become spaces. *)
Lemma replace_newline_get (s : string) (i : nat) :
  String.get i (replace_char newline " " s)
  = option_map (fun c => if Ascii.eqb c newline then " "%char else c)
      (String.get i s).
Proof.
  revert i. induction s as [|a s IH]; intros i; [reflexivity|].
  cbn [replace_char]. destruct (Ascii.eqb a newline) eqn:Ha.
  - cbn [String.append]. destruct i as [|i]; cbn [String.get option_map].
    + now rewrite Ha.
    + apply IH.
  - destruct i as [|i]; cbn [String.get option_map].
    + now rewrite Ha.
    + apply IH.
Qed.

(** A string attribute of the image is unmarshalled to that string. *)
Lemma instagram_unmarshal_string (new_image : image) data k s n m :
  InstagramExtract.unmarshal_dynamodb_json new_image = Ret data ->
  new_image !! k = Some (Attr (Some s) n m) ->
  data !! k = Some (PStr s).
Proof.
  intros Hdata Hk.
  pose proof (collect_spec (InstagramExtract.unmarshal_value <$> new_image))
    as Hc.
  unfold InstagramExtract.unmarshal_dynamodb_json in Hdata.
  rewrite Hdata in Hc. destruct Hc as [_ Hlook].
  rewrite Hlook, lookup_fmap, Hk. reflexivity.
Qed.

(** What [save_to_dynamodb] stores as caption. *)
Lemma stored_caption (E : InstagramCrawl.env) (media_item item : gmap string pyval)
    (tr : trace) :
  InstagramCrawl.save_to_dynamodb E media_item tr
  = (Ret true, tr ++ [EvPut item]) ->
  exists caption,
    str_replace (get_default media_item "caption" (PStr " ")) newline " "
    = Ret caption
    /\ item !! "caption" = Some (PStr caption)
    /\ item !! "media_id" = Some (get media_item "id").
Proof.
  unfold InstagramCrawl.save_to_dynamodb, InstagramCrawl.build_item.
  destruct (InstagramCrawl.table E); cbn [negb];
    [|intros [=]; discriminate].
  destruct (str_replace _ newline " ") as [caption|e]; cbn [res_bind];
    [|intros [= H]; now apply app_one_neq in H].
  repeat (step_res; [|intros [= H]; now apply app_one_neq in H]).
  destruct (InstagramCrawl.put_item E _);
    [intros [= H]; now apply app_one_neq in H|].
  unfold bind, emit, ret. intros [= H]. apply app_inv_head in H.
  injection H as <-. exists caption. split; [reflexivity|]. split.
  - rewrite !lookup_insert_ne by done. now rewrite lookup_insert_eq.
  - now rewrite lookup_insert_eq.
Qed.

(** C10 (caption normalization).
    - A media item whose caption is absent or a string, and whose counts
      [int] accepts, is persisted whenever the table is there and the
      store accepts the write.
    - For a media item the crawler persists as [item]: a source caption
      [s] is stored with every newline replaced by a space, character
      for character; an absent source caption is stored as the one-space
      string, which is not empty; and downstream, a record whose image
      carries the stored strings of such an item (a non-empty id, no
      source caption) passes the extractor's check on [media_id] and
      [caption]: the inference request for the one-space caption is
      sent. *)
Theorem caption_normalization
    (E : InstagramCrawl.env) (media_item : gmap string pyval)
    (tr : trace) :
  (InstagramCrawl.table E = true ->
   (forall item, InstagramCrawl.put_item E item = None) ->
   (forall v, media_item !! "caption" = Some v -> exists s, v = PStr s) ->
   (exists likes,
      int_of_value (get_default media_item "like_count" (PInt 0))
      = Ret likes) ->
   (exists comments,
      int_of_value (get_default media_item "comments_count" (PInt 0))
      = Ret comments) ->
   exists item,
     InstagramCrawl.save_to_dynamodb E media_item tr
     = (Ret true, tr ++ [EvPut item]))
  /\ forall item,
       InstagramCrawl.save_to_dynamodb E media_item tr
       = (Ret true, tr ++ [EvPut item]) ->
       (forall s,
           media_item !! "caption" = Some (PStr s) ->
           item !! "caption" = Some (PStr (replace_char newline " " s))
           /\ forall i,
                String.get i (replace_char newline " " s)
                = option_map
                    (fun c => if Ascii.eqb c newline then " "%char else c)
                    (String.get i s))
       /\ (media_item !! "caption" = None ->
           item !! "caption" = Some (PStr " ")
           /\ truthy (PStr " ") = true)
       /\ (media_item !! "caption" = None ->
           forall (X : Extract.env) (record : Stream.record)
                  (new_image : image) (data : gmap string pyval)
                  (id : string) (tr' : trace),
             media_item !! "id" = Some (PStr id) ->
             id <> "" ->
             is_upsert record = true ->
             NewImage record = Some new_image ->
             (forall k s, item !! k = Some (PStr s) ->
                          new_image !! k = Some (Attr (Some s) None None)) ->
             InstagramExtract.unmarshal_dynamodb_json new_image = Ret data ->
             Extract.gemini_client X = true ->
             truthy (get data "media_id") && truthy (get data "caption")
             = true
             /\ exists ext,
                  snd (InstagramExtract.process_record X record tr')
                  = tr' ++ EvGenerate "TEXT:  " :: ext).
Proof.
  split.
  { intros Htab Hput Hstr (likes & Hl) (comments & Hc).
    unfold InstagramCrawl.save_to_dynamodb, InstagramCrawl.build_item.
    rewrite Htab. cbn [negb].
    assert (Hrep : exists caption,
      str_replace (get_default media_item "caption" (PStr " ")) newline " "
      = Ret caption).
    { unfold get_default.
      destruct (media_item !! "caption") as [v|] eqn:Hv.
      - destruct (Hstr v eq_refl) as [s ->]. eexists. reflexivity.
      - eexists. reflexivity. }
    destruct Hrep as [caption ->]. rewrite Hl, Hc. cbn [res_bind].
    rewrite Hput. eexists. reflexivity. }
  intros item Hsaved.
  destruct (stored_caption E media_item item tr Hsaved)
    as (caption & Hrep & Hcap & Hid).
  split; [|split].
  - intros s Hs. unfold get_default in Hrep. rewrite Hs in Hrep.
    cbn in Hrep. injection Hrep as <-. split; [exact Hcap|].
    apply replace_newline_get.
  - intros Hnone. unfold get_default in Hrep. rewrite Hnone in Hrep.
    cbn in Hrep. injection Hrep as <-. split; [exact Hcap | reflexivity].
  - intros Hnone X record new_image data id tr' Hmid Hne Hup Himg Hcarry
      Hdata Hclient.
    unfold get_default in Hrep. rewrite Hnone in Hrep.
    cbn in Hrep. injection Hrep as <-.
    unfold get in Hid. rewrite Hmid in Hid.
    change (item !! "media_id" = Some (PStr id)) in Hid.
    pose proof (instagram_unmarshal_string _ _ _ _ _ _ Hdata
                  (Hcarry _ _ Hcap)) as Hdcap.
    pose proof (instagram_unmarshal_string _ _ _ _ _ _ Hdata
                  (Hcarry _ _ Hid)) as Hdid.
    assert (Hcheck :
      truthy (get data "media_id") && truthy (get data "caption") = true).
    { unfold get. rewrite Hdcap, Hdid.
      change (truthy (PStr id) && truthy (PStr " ") = true).
      cbn [truthy].
      destruct (String.eqb_spec id ""); [contradiction | reflexivity]. }
    split; [exact Hcheck|].
    unfold InstagramExtract.process_record, Stream.new_image.
    rewrite Hup, Himg. unfold bind at 1, lift at 1.
    unfold bind at 1, lift at 1. rewrite Hdata, Hcheck.
    unfold bind at 1.
    assert (Hc : get data "caption" = PStr " ")
      by (unfold get; now rewrite Hdcap).
    rewrite Hc. cbn [Extract.format].
    destruct (call_gemini_first_request X ("TEXT: " ++ " ")%string tr' Hclient)
      as (v & ext & ->).
    destruct (truthy v); [|unfold ret; cbn [snd]; eauto].
    unfold bind, InstagramExtract.save_to_target_db.
    destruct (Extract.ddb_table X); [|unfold ret; cbn [snd negb]; eauto].
    cbn [negb]. unfold Extract.write_item.
    destruct (InstagramExtract.build_item X data v) as [it|e].
    + destruct (Extract.put_item X it) as [e|].
      * destruct e; unfold ret; cbn [snd]; eauto.
      * unfold bind, emit, ret. cbn [snd]. rewrite <- app_assoc. cbn. eauto.
    + destruct e; unfold ret; cbn [snd]; eauto.
Qed.

(** A media item with a caption of two lines is persisted with the
    newline replaced by a space; a media item without caption is stored
    with the caption " ", and the extractor sends the record of that
    item to the inference service. *)
Lemma caption_normalization_witness :
  (exists item,
     InstagramCrawl.save_to_dynamodb Samples.crawl_env
       (Samples.media (Some Samples.two_line_caption)) []
     = (Ret true, [EvPut item])
     /\ item !! "caption" = Some (PStr "ramen shop"))
  /\ InstagramCrawl.save_to_dynamodb Samples.crawl_env (Samples.media None) []
     = (Ret true, [EvPut Samples.stored_item_without_caption])
  /\ Samples.stored_item_without_caption !! "caption" = Some (PStr " ")
  /\ exists ext,
       snd (InstagramExtract.process_record
              (Samples.extract_env [Ret (PDict Samples.answer)])
              (mkRecord "INSERT" (Some Samples.stored_image_without_caption))
              [])
       = EvGenerate "TEXT:  " :: ext.
Proof.
  split.
  { destruct (caption_normalization Samples.crawl_env
                (Samples.media (Some Samples.two_line_caption)) [])
      as [Hpersist Hstored].
    assert (Hcap :
      Samples.media (Some Samples.two_line_caption) !! "caption"
      = Some (PStr Samples.two_line_caption)) by by_vm.
    destruct Hpersist as [item Hitem].
    - reflexivity.
    - reflexivity.
    - intros v Hv. rewrite Hcap in Hv. injection Hv as <-. eauto.
    - exists 500. by_vm.
    - exists 3. by_vm.
    - exists item. split; [exact Hitem|].
      exact (proj1 (proj1 (Hstored item Hitem) Samples.two_line_caption Hcap)). }
  assert (Hsaved :
    InstagramCrawl.save_to_dynamodb Samples.crawl_env (Samples.media None) []
    = (Ret true, [] ++ [EvPut Samples.stored_item_without_caption]))
    by by_vm.
  split; [exact Hsaved|].
  destruct (proj2 (caption_normalization Samples.crawl_env
                     (Samples.media None) [])
              Samples.stored_item_without_caption Hsaved)
    as (_ & Hnone & Hdown).
  split; [apply Hnone; reflexivity|].
  eapply (Hdown eq_refl (Samples.extract_env [Ret (PDict Samples.answer)])
            (mkRecord "INSERT" (Some Samples.stored_image_without_caption))
            Samples.stored_image_without_caption
            Samples.stored_item_without_caption "17900000000000001" []).
  - reflexivity.
  - discriminate.
  - reflexivity.
  - reflexivity.
  - intros k s Hk. unfold Samples.stored_item_without_caption in Hk.
    unfold Samples.stored_image_without_caption.
    repeat (rewrite lookup_insert in Hk; rewrite lookup_insert;
            match goal with
            | |- context [decide (?a = k)] => destruct (decide (a = k))
            end;
            [try discriminate; injection Hk as <-; reflexivity|]).
    rewrite lookup_empty in Hk. discriminate.
  - by_vm.
  - reflexivity.
Defined.

(** * Further properties of the handlers *)

(** 1000 views, 100 subscribers, crawled two hours after publication:
    5.  Five views, 100 subscribers, crawled 6000 seconds after
    publication: 2, the quotient 500 / 166.66666666666669 being
    2.9999999999999996 in binary64. *)
Lemma youtube_buzz_score_formula_witness :
  (exists item,
     YoutubeExtract.save_to_semifinal_db (Samples.extract_env [])
       (Samples.youtube_video 1000 100
          (Some "2024-01-01T00:00:00Z") (Some "2024-01-01T02:00:00+00:00"))
       (PDict Samples.answer) []
     = (Ret (PBool true), [EvPut item])
     /\ item !! "buzz" = Some (PInt 5))
  /\ (exists item,
        YoutubeExtract.save_to_semifinal_db (Samples.extract_env [])
          (Samples.youtube_video 5 100
             (Some "2024-01-01T00:00:00Z") (Some "2024-01-01T01:40:00+00:00"))
          (PDict Samples.answer) []
        = (Ret (PBool true), [EvPut item])
        /\ item !! "buzz" = Some (PInt 2)).
Proof.
  split.
  - apply (youtube_buzz_score_formula (Samples.extract_env [])
             (Samples.youtube_video 1000 100
                (Some "2024-01-01T00:00:00Z")
                (Some "2024-01-01T02:00:00+00:00"))
             Samples.answer []
             (mkDatetime 1704067200000000 true)
             (mkDatetime 1704074400000000 true)
             (Float64.round (7200000000 # 1000000))
             (Float64.round 1000) (Float64.round 100) 5).
    + reflexivity.
    + exists (PStr "dQw4w9WgXcQ"). by_vm.
    + exists (PStr "https://www.youtube.com/watch?v=dQw4w9WgXcQ"). by_vm.
    + exists (PStr "ramen tour"). by_vm.
    + exists (PStr "2024-01-01T02:00:00+00:00"). by_vm.
    + reflexivity.
    + by_vm.
    + by_vm.
    + by_vm.
    + by_vm.
    + by_vm.
    + by_vm.
    + by_vm.
    + by_vm.
    + by_vm.
  - apply (youtube_buzz_score_formula (Samples.extract_env [])
             (Samples.youtube_video 5 100
                (Some "2024-01-01T00:00:00Z")
                (Some "2024-01-01T01:40:00+00:00"))
             Samples.answer []
             (mkDatetime 1704067200000000 true)
             (mkDatetime 1704073200000000 true)
             (Float64.round (6000000000 # 1000000))
             (Float64.round 5) (Float64.round 100) 2).
    + reflexivity.
    + exists (PStr "dQw4w9WgXcQ"). by_vm.
    + exists (PStr "https://www.youtube.com/watch?v=dQw4w9WgXcQ"). by_vm.
    + exists (PStr "ramen tour"). by_vm.
    + exists (PStr "2024-01-01T01:40:00+00:00"). by_vm.
    + reflexivity.
    + by_vm.
    + by_vm.
    + by_vm.
    + by_vm.
    + by_vm.
    + by_vm.
    + by_vm.
    + by_vm.
    + by_vm.
Defined.

(** A video without [published_at], and a channel with no subscriber. *)
Lemma youtube_buzz_score_default_witness :
  (exists item,
     YoutubeExtract.save_to_semifinal_db (Samples.extract_env [])
       (Samples.youtube_video 1000 100 None (Some "2024-01-01T02:00:00+00:00"))
       (PDict Samples.answer) []
     = (Ret (PBool true), [EvPut item])
     /\ item !! "buzz" = Some (PInt 1))
  /\ (exists item,
        YoutubeExtract.save_to_semifinal_db (Samples.extract_env [])
          (Samples.youtube_video 1000 0
             (Some "2024-01-01T00:00:00Z") (Some "2024-01-01T02:00:00+00:00"))
          (PDict Samples.answer) []
        = (Ret (PBool true), [EvPut item])
        /\ item !! "buzz" = Some (PInt 1)).
Proof.
  split.
  - apply (youtube_buzz_score_default (Samples.extract_env [])
             (Samples.youtube_video 1000 100 None
                (Some "2024-01-01T02:00:00+00:00"))
             Samples.answer []).
    + reflexivity.
    + exists (PStr "dQw4w9WgXcQ"). reflexivity.
    + exists (PStr "https://www.youtube.com/watch?v=dQw4w9WgXcQ"). reflexivity.
    + exists (PStr "ramen tour"). reflexivity.
    + exists (PStr "2024-01-01T02:00:00+00:00"). reflexivity.
    + reflexivity.
    + left. reflexivity.
  - apply (youtube_buzz_score_default (Samples.extract_env [])
             (Samples.youtube_video 1000 0
                (Some "2024-01-01T00:00:00Z")
                (Some "2024-01-01T02:00:00+00:00"))
             Samples.answer []).
    + reflexivity.
    + exists (PStr "dQw4w9WgXcQ"). reflexivity.
    + exists (PStr "https://www.youtube.com/watch?v=dQw4w9WgXcQ"). reflexivity.
    + exists (PStr "ramen tour"). reflexivity.
    + exists (PStr "2024-01-01T02:00:00+00:00"). reflexivity.
    + reflexivity.
    + right. exists 0%Q. split; [reflexivity | discriminate].
Defined.

(** The video of [youtube_buzz_examples] without its [crawled_at]. *)
Lemma youtube_no_crawled_at_no_write_witness :
  YoutubeExtract.save_to_semifinal_db (Samples.extract_env [])
    (Samples.youtube_video 1000 100 (Some "2024-01-01T00:00:00Z") None)
    (PDict Samples.answer) []
  = (Ret (PBool false), []).
Proof.
  apply (youtube_no_crawled_at_no_write (Samples.extract_env [])
           (Samples.youtube_video 1000 100 (Some "2024-01-01T00:00:00Z") None)
           (PDict Samples.answer) []).
  reflexivity.
Defined.

(** The raw YouTube record: its title is unmarshalled to the same string
    and its view count to the integer 1000. *)
Lemma youtube_unmarshal_contract_witness :
  Samples.youtube_video 1000 100
    (Some "2024-01-01T00:00:00Z") (Some "2024-01-01T02:00:00+00:00")
    !! "title" = Some (PStr "ramen tour")
  /\ exists v,
       Spec.number_value "1000" = Ret v
       /\ Samples.youtube_video 1000 100
            (Some "2024-01-01T00:00:00Z") (Some "2024-01-01T02:00:00+00:00")
            !! "views" = Some v.
Proof.
  assert (H : YoutubeExtract.unmarshal_dynamodb_json Samples.youtube_image
              = Ret (Samples.youtube_video 1000 100
                       (Some "2024-01-01T00:00:00Z")
                       (Some "2024-01-01T02:00:00+00:00"))) by by_vm.
  split.
  - exact (youtube_unmarshal_contract _ _ H "title").
  - exact (youtube_unmarshal_contract _ _ H "views").
Defined.

(** The intermediate record: its address is unmarshalled to the same
    string and its buzz to the integer 5. *)
Lemma geocoder_unmarshal_contract_witness :
  Samples.intermediate_data !! "address" = Some (PStr "Shibuya, Tokyo")
  /\ exists v,
       Spec.number_value "5" = Ret v
       /\ Samples.intermediate_data !! "buzz" = Some v.
Proof.
  assert (H : GeoCoding.unmarshal_dynamodb_json
                (Samples.intermediate_image (Some "Shibuya, Tokyo"))
              = Ret Samples.intermediate_data) by by_vm.
  split.
  - exact (geocoder_unmarshal_contract _ _ H "address").
  - exact (geocoder_unmarshal_contract _ _ H "buzz").
Defined.

(** An Instagram record without caption, in front of a complete one. *)
Lemma instagram_skips_incomplete_record_witness :
  InstagramExtract.process_record
    (Samples.extract_env [Ret (PDict Samples.answer)])
    Samples.instagram_record_without_caption []
  = (Ret tt, [])
  /\ InstagramExtract.process_records
       (Samples.extract_env [Ret (PDict Samples.answer)])
       [Samples.instagram_record_without_caption; Samples.instagram_record] []
     = InstagramExtract.process_records
         (Samples.extract_env [Ret (PDict Samples.answer)])
         [Samples.instagram_record] [].
Proof.
  apply (instagram_skips_incomplete_record
           (Samples.extract_env [Ret (PDict Samples.answer)])
           Samples.instagram_record_without_caption
           (delete "caption" Samples.instagram_image)
           (delete "caption"
              (Samples.instagram_post 500
                 "2024-01-01T00:00:00+0000" "2024-01-02T00:00:00+00:00"))).
  - reflexivity.
  - reflexivity.
  - by_vm.
  - right. reflexivity.
Defined.

(** A YouTube record without [videoId] is still sent to the inference
    service. *)
Lemma youtube_always_requests_witness :
  exists ext,
    snd (YoutubeExtract.process_record
           (Samples.extract_env [Ret (PDict Samples.answer)])
           Samples.youtube_record_without_id [])
    = [] ++ EvGenerate
              ("TEXT: "
               ++ YoutubeExtract.extraction_text
                    (Samples.extract_env [Ret (PDict Samples.answer)])
                    (delete "videoId"
                       (Samples.youtube_video 1000 100
                          (Some "2024-01-01T00:00:00Z")
                          (Some "2024-01-01T02:00:00+00:00"))))%string
         :: ext.
Proof.
  apply (youtube_always_requests
           (Samples.extract_env [Ret (PDict Samples.answer)])
           Samples.youtube_record_without_id
           (delete "videoId" Samples.youtube_image)).
  - reflexivity.
  - reflexivity.
  - by_vm.
  - reflexivity.
Defined.

(** The same record is not written. *)
Lemma youtube_no_key_no_write_witness :
  exists v,
    YoutubeExtract.save_to_semifinal_db (Samples.extract_env [])
      (delete "videoId"
         (Samples.youtube_video 1000 100
            (Some "2024-01-01T00:00:00Z") (Some "2024-01-01T02:00:00+00:00")))
      (PDict Samples.answer) []
    = (Ret v, [])
    /\ truthy v = false.
Proof.
  apply (youtube_no_key_no_write (Samples.extract_env [])
           (delete "videoId"
              (Samples.youtube_video 1000 100
                 (Some "2024-01-01T00:00:00Z")
                 (Some "2024-01-01T02:00:00+00:00")))
           (PDict Samples.answer) []).
  left. reflexivity.
Defined.

(** ** The range of the buzz score *)

Lemma instagram_buzz_score_range E original_data score :
  InstagramExtract.buzz_score E original_data = Ret score ->
  1 <= py_int score <= 5.
Proof.
  unfold InstagramExtract.buzz_score.
  destruct (_ && _); [|intros [= <-]; cbn; lia].
  repeat (step_res; [|discriminate]).
  intros [= <-]. apply clamp_score_range.
Qed.

Lemma youtube_buzz_score_range E original_data score :
  YoutubeExtract.buzz_score E original_data = Ret score ->
  1 <= py_int score <= 5.
Proof.
  unfold YoutubeExtract.buzz_score.
  step_res; [|discriminate].
  destruct a; [|intros [= <-]; cbn; lia].
  repeat (step_res; [|discriminate]).
  intros [= <-]. apply clamp_score_range.
Qed.

(** X11.  Whatever the record, the answer and the environment, an item
    that [save_to_target_db] writes carries an integer [buzz] between 1
    and 5. *)
Theorem instagram_written_buzz_in_range
    (E : Extract.env) (original_data : gmap string pyval)
    (extracted : pyval) (tr : trace) (item : gmap string pyval) :
  snd (InstagramExtract.save_to_target_db E original_data extracted tr)
  = tr ++ [EvPut item] ->
  exists buzz, item !! "buzz" = Some (PInt buzz) /\ 1 <= buzz <= 5.
Proof.
  unfold InstagramExtract.save_to_target_db.
  destruct (Extract.ddb_table E); cbn [negb];
    [|intros H; now apply app_one_neq in H].
  unfold InstagramExtract.build_item.
  destruct (InstagramExtract.buzz_score E original_data) as [score|e] eqn:Hs;
    cbn [res_bind];
    [|destruct e; intros H; now apply app_one_neq in H].
  repeat (step_res;
          [|match goal with
            | e : exn |- _ => destruct e
            end; intros H; now apply app_one_neq in H]).
  unfold Extract.write_item.
  destruct (Extract.put_item E _) as [e|];
    [destruct e; intros H; now apply app_one_neq in H|].
  unfold bind, emit, ret. cbn [snd]. intros H.
  apply app_inv_head in H. injection H as <-.
  exists (py_int score). split.
  - rewrite !lookup_insert_ne by done. now rewrite lookup_insert_eq.
  - now apply instagram_buzz_score_range in Hs.
Qed.

(** X12.  The same for [save_to_semifinal_db]. *)
Theorem youtube_written_buzz_in_range
    (E : Extract.env) (original_data : gmap string pyval)
    (extracted : pyval) (tr : trace) (item : gmap string pyval) :
  snd (YoutubeExtract.save_to_semifinal_db E original_data extracted tr)
  = tr ++ [EvPut item] ->
  exists buzz, item !! "buzz" = Some (PInt buzz) /\ 1 <= buzz <= 5.
Proof.
  unfold YoutubeExtract.save_to_semifinal_db.
  destruct (Extract.ddb_table E); cbn [negb];
    [|intros H; now apply app_one_neq in H].
  unfold YoutubeExtract.build_item.
  destruct (YoutubeExtract.buzz_score E original_data) as [score|e] eqn:Hs;
    cbn [res_bind];
    [|destruct e; intros H; now apply app_one_neq in H].
  repeat (step_res;
          [|match goal with
            | e : exn |- _ => destruct e
            end; intros H; now apply app_one_neq in H]).
  unfold Extract.write_item.
  destruct (Extract.put_item E _) as [e|];
    [destruct e; intros H; now apply app_one_neq in H|].
  unfold bind, emit, ret. cbn [snd]. intros H.
  apply app_inv_head in H. injection H as <-.
  exists (py_int score). split.
  - rewrite !lookup_insert_ne by done. now rewrite lookup_insert_eq.
  - now apply youtube_buzz_score_range in Hs.
Qed.

(** The item written for the sample post has buzz 5. *)
Lemma instagram_written_buzz_in_range_witness :
  exists buzz,
    Samples.instagram_item !! "buzz" = Some (PInt buzz) /\ 1 <= buzz <= 5.
Proof.
  apply (instagram_written_buzz_in_range (Samples.extract_env [])
           Samples.instagram_data (PDict Samples.answer) []).
  by_vm.
Defined.

(** The item written for the sample video has buzz 5. *)
Lemma youtube_written_buzz_in_range_witness :
  exists buzz,
    Samples.youtube_item !! "buzz" = Some (PInt buzz) /\ 1 <= buzz <= 5.
Proof.
  apply (youtube_written_buzz_in_range (Samples.extract_env [])
           Samples.youtube_data (PDict Samples.answer) []).
  by_vm.
Defined.

(** ** What one record can do *)

(** The retry helper returns normally; it only sends requests and sleeps,
    at most as many requests as it has attempts; and what it returns is
    null or an answer of the service. *)
Lemma retry_loop_effects E c attempts :
  forall tr, exists v ext,
    Extract.retry_loop E c attempts tr = (Ret v, tr ++ ext)
    /\ count is_put ext = 0%nat
    /\ (count is_generate ext <= length attempts)%nat
    /\ (v = PNone \/ exists n, Extract.generate_content E n c = Ret v).
Proof.
  induction attempts as [|a rest IH]; intros tr; cbn [Extract.retry_loop].
  - exists PNone, []. rewrite app_nil_r.
    split; [reflexivity|]. split; [reflexivity|].
    split; [unfold count; cbn; lia | now left].
  - unfold bind at 1, Extract.attempt_once, bind, get_trace, emit, ret.
    destruct (Extract.generate_content E _ c) as [v|e] eqn:Hg.
    + exists v, [EvGenerate c].
      split; [reflexivity|]. split; [reflexivity|].
      split; [unfold count; cbn; lia | eauto].
    + destruct (Extract.is_rate_limit e).
      * match goal with
        | |- context [Extract.retry_loop E c rest ?t] =>
            destruct (IH t) as (v & ext & -> & Hput & Hgen & Hv)
        end.
        exists v. eexists. split; [now rewrite <- !app_assoc|].
        rewrite !count_app, Hput.
        change (count is_put [EvGenerate c]) with 0%nat.
        change (count is_put [EvSleep _]) with 0%nat.
        change (count is_generate [EvGenerate c]) with 1%nat.
        change (count is_generate [EvSleep _]) with 0%nat.
        cbn [length]. split; [reflexivity|]. split; [lia | exact Hv].
      * exists PNone, [EvGenerate c].
        split; [reflexivity|]. split; [reflexivity|].
        split; [unfold count; cbn; lia | now left].
Qed.

Lemma call_gemini_effects E c tr :
  exists v ext,
    Extract.call_gemini_for_extraction E c tr = (Ret v, tr ++ ext)
    /\ count is_put ext = 0%nat
    /\ (count is_generate ext <= 5)%nat
    /\ (v = PNone \/ exists n, Extract.generate_content E n c = Ret v).
Proof.
  unfold Extract.call_gemini_for_extraction.
  destruct (Extract.gemini_client E); cbn [negb].
  - apply (retry_loop_effects E c (seq 0 Extract.MAX_RETRIES) tr).
  - exists PNone, []. rewrite app_nil_r. unfold ret.
    split; [reflexivity|]. split; [reflexivity|].
    split; [unfold count; cbn; lia | now left].
Qed.

(** Writing an item: a true result with the item put, or a false result
    (False, or None after a [ClientError]) and nothing put. *)
Lemma write_item_effects E on_client_error built tr :
  truthy on_client_error = false ->
  (exists v, Extract.write_item E on_client_error built tr = (Ret v, tr)
             /\ truthy v = false)
  \/ exists item,
       built = Ret item
       /\ Extract.write_item E on_client_error built tr
          = (Ret (PBool true), tr ++ [EvPut item]).
Proof.
  intros Hfalse. unfold Extract.write_item.
  destruct built as [item|e].
  - destruct (Extract.put_item E item) as [e|].
    + left. destruct e; eauto.
    + right. eauto.
  - left. destruct e; eauto.
Qed.

Lemma instagram_save_effects E original_data extracted tr :
  (exists v,
     InstagramExtract.save_to_target_db E original_data extracted tr
     = (Ret v, tr) /\ truthy v = false)
  \/ exists item,
       InstagramExtract.build_item E original_data extracted = Ret item
       /\ InstagramExtract.save_to_target_db E original_data extracted tr
          = (Ret (PBool true), tr ++ [EvPut item]).
Proof.
  unfold InstagramExtract.save_to_target_db.
  destruct (Extract.ddb_table E); cbn [negb]; [|left; eauto].
  now apply write_item_effects.
Qed.

Lemma youtube_save_effects E original_data extracted tr :
  (exists v,
     YoutubeExtract.save_to_semifinal_db E original_data extracted tr
     = (Ret v, tr) /\ truthy v = false)
  \/ exists item,
       YoutubeExtract.build_item E original_data extracted = Ret item
       /\ YoutubeExtract.save_to_semifinal_db E original_data extracted tr
          = (Ret (PBool true), tr ++ [EvPut item]).
Proof.
  unfold YoutubeExtract.save_to_semifinal_db.
  destruct (Extract.ddb_table E); cbn [negb]; [|left; eauto].
  now apply write_item_effects.
Qed.

(** One record of the Instagram extractor: the trace only grows, by at
    most 5 requests and one write; a record that is no INSERT or MODIFY
    leaves it alone; the record fails only if its image is missing or
    does not unmarshal, and then before any effect. *)
Lemma instagram_record_effects E (r : Stream.record) tr :
  exists res ext,
    InstagramExtract.process_record E r tr = (res, tr ++ ext)
    /\ (count is_put ext <= 1)%nat
    /\ (count is_generate ext <= 5)%nat
    /\ (is_upsert r = false -> res = Ret tt /\ ext = [])
    /\ ((exists img data,
           NewImage r = Some img
           /\ InstagramExtract.unmarshal_dynamodb_json img = Ret data) ->
        res = Ret tt)
    /\ (forall e, res = Raise e -> ext = []).
Proof.
  unfold InstagramExtract.process_record, Stream.new_image.
  destruct (is_upsert r).
  2:{ exists (Ret tt), []. rewrite app_nil_r. unfold ret.
      repeat split; try (unfold count; cbn; lia); auto; discriminate. }
  unfold bind at 1, lift at 1.
  destruct (NewImage r) as [img|].
  2:{ exists (Raise KeyError), []. rewrite app_nil_r.
      repeat split; try (unfold count; cbn; lia); auto; try discriminate.
      intros (img & data & [=] & _). }
  unfold bind at 1, lift at 1.
  destruct (InstagramExtract.unmarshal_dynamodb_json img) as [data|e] eqn:Hd.
  2:{ exists (Raise e), []. rewrite app_nil_r.
      repeat split; try (unfold count; cbn; lia); auto; try discriminate.
      intros (img' & data & [= <-] & Hd'). congruence. }
  destruct (_ && _).
  2:{ exists (Ret tt), []. rewrite app_nil_r. unfold ret.
      repeat split; try (unfold count; cbn; lia); auto; discriminate. }
  unfold bind at 1.
  destruct (call_gemini_effects E
              ("TEXT: " ++ Extract.format E (get data "caption"))%string tr)
    as (v & ext & -> & Hput & Hgen & _).
  destruct (truthy v).
  2:{ exists (Ret tt), ext. unfold ret.
      repeat split; try lia; auto; discriminate. }
  unfold bind.
  destruct (instagram_save_effects E data v (tr ++ ext))
    as [(w & -> & _) | (item & _ & ->)].
  - exists (Ret tt), ext. unfold ret.
    repeat split; try lia; auto; discriminate.
  - exists (Ret tt), (ext ++ [EvPut item]). unfold ret.
    rewrite <- app_assoc, !count_app, Hput.
    change (count is_put [EvPut item]) with 1%nat.
    change (count is_generate [EvPut item]) with 0%nat.
    repeat split; try lia; auto; discriminate.
Qed.

(** The Instagram extractor handles a batch as its two parts in
    sequence. *)
Lemma instagram_batch_splits
    (E : Extract.env) (first second : list Stream.record) (tr : trace) :
  InstagramExtract.process_records E (first ++ second) tr
  = (let! _ := InstagramExtract.process_records E first in
     InstagramExtract.process_records E second) tr.
Proof.
  revert tr. induction first as [|r first IH]; intros tr.
  - reflexivity.
  - cbn [app InstagramExtract.process_records]. unfold bind.
    destruct (InstagramExtract.process_record E r tr) as [[[]|e] tr1];
      [|reflexivity].
    rewrite IH. reflexivity.
Qed.

(** X13.  A record whose image does not unmarshal ends the invocation
    with the exception of the unmarshaller: the records before it are
    handled, the records after it are not, whatever they hold. *)
Theorem instagram_bad_record_aborts_batch
    (E : Extract.env) (first rest : list Stream.record)
    (bad : Stream.record) (new_image : image) (e : exn)
    (tr tr1 : trace) :
  Extract.gemini_client E = true ->
  Extract.ddb_table E = true ->
  InstagramExtract.process_records E first tr = (Ret tt, tr1) ->
  is_upsert bad = true ->
  NewImage bad = Some new_image ->
  InstagramExtract.unmarshal_dynamodb_json new_image = Raise e ->
  InstagramExtract.lambda_handler E (first ++ bad :: rest) tr
  = (Raise e, tr1).
Proof.
  intros Hclient Htable Hfirst Hup Himg Hbad.
  unfold InstagramExtract.lambda_handler. rewrite Hclient, Htable.
  cbn [negb orb]. unfold bind at 1.
  rewrite instagram_batch_splits. unfold bind at 1. rewrite Hfirst.
  cbn [InstagramExtract.process_records]. unfold bind at 1.
  unfold InstagramExtract.process_record, Stream.new_image.
  rewrite Hup, Himg. unfold bind at 1, lift at 1.
  unfold bind at 1, lift at 1. rewrite Hbad. reflexivity.
Qed.

(** A complete record, a record with the number 4.5, a complete record:
    the first is written, the invocation ends with [ValueError], the
    third is never looked at. *)
Lemma instagram_bad_record_aborts_batch_witness :
  InstagramExtract.lambda_handler
    (Samples.extract_env [Ret (PDict Samples.answer)])
    [Samples.instagram_record; Samples.decimal_record;
     Samples.instagram_record] []
  = (Raise ValueError,
     [EvGenerate "TEXT: ramen"; EvPut Samples.instagram_item]).
Proof.
  apply (instagram_bad_record_aborts_batch
           (Samples.extract_env [Ret (PDict Samples.answer)])
           [Samples.instagram_record] [Samples.instagram_record]
           Samples.decimal_record Samples.decimal_image ValueError
           [] [EvGenerate "TEXT: ramen"; EvPut Samples.instagram_item]).
  - reflexivity.
  - reflexivity.
  - by_vm.
  - reflexivity.
  - reflexivity.
  - by_vm.
Defined.

(** X14.  Records that are neither INSERT nor MODIFY are ignored: the
    Instagram extractor handles a batch as it handles the batch without
    them. *)
Theorem instagram_ignores_other_events
    (E : Extract.env) (records : list Stream.record) (tr : trace) :
  InstagramExtract.lambda_handler E records tr
  = InstagramExtract.lambda_handler E (List.filter is_upsert records) tr.
Proof.
  unfold InstagramExtract.lambda_handler.
  destruct (_ || _); [reflexivity|].
  unfold bind. f_equal.
  enough (H : forall tr0,
             InstagramExtract.process_records E records tr0
             = InstagramExtract.process_records E
                 (List.filter is_upsert records) tr0) by now rewrite H.
  induction records as [|r records IH]; intros tr0; [reflexivity|].
  cbn [List.filter]. destruct (is_upsert r) eqn:Hup.
  - cbn [InstagramExtract.process_records]. unfold bind.
    destruct (InstagramExtract.process_record E r tr0) as [[[]|e] tr1];
      [apply IH | reflexivity].
  - cbn [InstagramExtract.process_records]. unfold bind at 1.
    unfold InstagramExtract.process_record. rewrite Hup. unfold ret.
    apply IH.
Qed.

(** X15.  In one invocation the Instagram extractor sends at most 5
    inference requests and writes at most one item for each INSERT or
    MODIFY record of the batch, whatever the services answer and whether
    or not the invocation ends with an exception. *)
Theorem instagram_batch_bounds
    (E : Extract.env) (records : list Stream.record) (tr : trace) :
  let tr' := snd (InstagramExtract.lambda_handler E records tr) in
  let upserts := length (List.filter is_upsert records) in
  (count is_generate tr' <= count is_generate tr + 5 * upserts)%nat
  /\ (count is_put tr' <= count is_put tr + upserts)%nat.
Proof.
  cbn zeta. unfold InstagramExtract.lambda_handler.
  destruct (_ || _); [unfold ret; cbn [snd]; lia|].
  enough (H : forall tr0,
    let tr' := snd (InstagramExtract.process_records E records tr0) in
    let upserts := length (List.filter is_upsert records) in
    (count is_generate tr' <= count is_generate tr0 + 5 * upserts)%nat
    /\ (count is_put tr' <= count is_put tr0 + upserts)%nat).
  { specialize (H tr). cbn zeta in H. unfold bind.
    destruct (InstagramExtract.process_records E records tr) as [[[]|e] tr1];
      exact H. }
  induction records as [|r records IH]; intros tr0; cbn zeta.
  - cbn. lia.
  - cbn [InstagramExtract.process_records List.filter]. unfold bind.
    destruct (instagram_record_effects E r tr0)
      as (res & ext & -> & Hput & Hgen & Hskip & _ & _).
    destruct (is_upsert r).
    + destruct res as [[]|e]; cbn [snd length].
      * specialize (IH (tr0 ++ ext)). cbn zeta in IH.
        rewrite !count_app in IH. lia.
      * rewrite !count_app. lia.
    + destruct (Hskip eq_refl) as [-> ->]. rewrite app_nil_r.
      apply (IH tr0).
Qed.

(** X16.  If every INSERT or MODIFY record of the batch has a new image
    that unmarshals, the Instagram extractor returns normally, with
    status 200 when both clients are initialised and 500 otherwise:
    no failure of the inference service or of the store, and no content
    of a record, makes it raise. *)
Theorem instagram_handler_returns
    (E : Extract.env) (records : list Stream.record) (tr : trace) :
  (forall r, In r records -> is_upsert r = true ->
     exists img data,
       NewImage r = Some img
       /\ InstagramExtract.unmarshal_dynamodb_json img = Ret data) ->
  exists tr',
    InstagramExtract.lambda_handler E records tr
    = (Ret (if Extract.gemini_client E && Extract.ddb_table E
            then 200 else 500), tr').
Proof.
  intros Hwf. unfold InstagramExtract.lambda_handler.
  destruct (Extract.gemini_client E), (Extract.ddb_table E);
    cbn [negb orb andb]; try (unfold ret; eauto).
  enough (H : forall tr0, exists tr',
             InstagramExtract.process_records E records tr0 = (Ret tt, tr')).
  { destruct (H tr) as [tr' Htr']. unfold bind. rewrite Htr'. eauto. }
  induction records as [|r records IH]; intros tr0.
  - unfold InstagramExtract.process_records, ret. eauto.
  - cbn [InstagramExtract.process_records]. unfold bind.
    destruct (instagram_record_effects E r tr0)
      as (res & ext & -> & _ & _ & Hskip & Hok & _).
    assert (Hres : res = Ret tt).
    { destruct (is_upsert r) eqn:Hup.
      - apply Hok, Hwf; [now left | exact Hup].
      - now apply Hskip. }
    rewrite Hres. apply IH. intros r' Hin. apply Hwf. now right.
Qed.

(** A batch of a record without caption and a complete one. *)
Lemma instagram_handler_returns_witness :
  exists tr',
    InstagramExtract.lambda_handler
      (Samples.extract_env [Ret (PDict Samples.answer)])
      [Samples.instagram_record_without_caption; Samples.instagram_record] []
    = (Ret 200, tr').
Proof.
  apply (instagram_handler_returns
           (Samples.extract_env [Ret (PDict Samples.answer)])
           [Samples.instagram_record_without_caption;
            Samples.instagram_record] []).
  intros r [<- | [<- | []]] _.
  - exists (delete "caption" Samples.instagram_image),
      (delete "caption" Samples.instagram_data).
    split; [reflexivity | by_vm].
  - exists Samples.instagram_image, Samples.instagram_data.
    split; [reflexivity | by_vm].
Defined.

(** One record of the YouTube extractor: the trace only grows, the
    result counts the items written, and the record fails only if its
    image is missing or does not unmarshal. *)
Lemma youtube_record_effects E (r : Stream.record) tr :
  exists res ext,
    YoutubeExtract.process_record E r tr = (res, tr ++ ext)
    /\ (forall n, res = Ret n -> Z.of_nat (count is_put ext) = n)
    /\ ((is_upsert r = true ->
         exists img data,
           NewImage r = Some img
           /\ YoutubeExtract.unmarshal_dynamodb_json img = Ret data) ->
        exists n, res = Ret n).
Proof.
  unfold YoutubeExtract.process_record, Stream.new_image.
  destruct (is_upsert r).
  2:{ exists (Ret 0), []. rewrite app_nil_r. unfold ret.
      split; [reflexivity|]. split; [now intros n [= <-] | eauto]. }
  unfold bind at 1, lift at 1.
  destruct (NewImage r) as [img|].
  2:{ exists (Raise KeyError), []. rewrite app_nil_r.
      split; [reflexivity|]. split; [discriminate|].
      intros H. destruct (H eq_refl) as (img & data & [=] & _). }
  unfold bind at 1, lift at 1.
  destruct (YoutubeExtract.unmarshal_dynamodb_json img) as [data|e] eqn:Hd.
  2:{ exists (Raise e), []. rewrite app_nil_r.
      split; [reflexivity|]. split; [discriminate|].
      intros H. destruct (H eq_refl) as (img' & data & [= <-] & Hd').
      congruence. }
  unfold bind at 1.
  destruct (call_gemini_effects E
              ("TEXT: " ++ YoutubeExtract.extraction_text E data)%string tr)
    as (v & ext & -> & Hput & _ & _).
  destruct (truthy v).
  2:{ exists (Ret 0), ext. unfold ret.
      split; [reflexivity|]. split; [|eauto].
      intros n [= <-]. now rewrite Hput. }
  unfold bind.
  destruct (youtube_save_effects E data v (tr ++ ext))
    as [(w & -> & Hw) | (item & _ & ->)].
  - exists (Ret 0), ext. unfold ret. rewrite Hw.
    split; [reflexivity|]. split; [|eauto].
    intros n [= <-]. now rewrite Hput.
  - exists (Ret 1), (ext ++ [EvPut item]). unfold ret. cbn [truthy].
    rewrite <- app_assoc. split; [reflexivity|]. split; [|eauto].
    intros n [= <-]. rewrite count_app, Hput. reflexivity.
Qed.

Lemma youtube_records_count E records :
  forall saved tr res tr',
    YoutubeExtract.process_records E records saved tr = (res, tr') ->
    exists ext,
      tr' = tr ++ ext
      /\ forall n, res = Ret n -> n = saved + Z.of_nat (count is_put ext).
Proof.
  induction records as [|r records IH]; intros saved tr res tr'.
  - cbn. unfold ret. intros [= <- <-]. exists []. rewrite app_nil_r.
    split; [reflexivity|]. intros n [= <-]. unfold count. cbn. lia.
  - cbn [YoutubeExtract.process_records]. unfold bind.
    destruct (youtube_record_effects E r tr) as (res1 & ext1 & -> & Hn & _).
    destruct res1 as [n1|e].
    + intros H. apply IH in H as (ext & -> & Hres).
      exists (ext1 ++ ext). rewrite app_assoc. split; [reflexivity|].
      intros n Hr. rewrite (Hres n Hr), count_app.
      specialize (Hn n1 eq_refl). lia.
    + intros [= <- <-]. exists ext1. split; [reflexivity | discriminate].
Qed.

(** X17.  The count the YouTube extractor reports is the number of items
    it wrote in the invocation (a write rejected by the store, with a
    [ClientError] or otherwise, is not counted). *)
Theorem youtube_saved_count_is_writes
    (E : Extract.env) (records : list Stream.record) (tr tr' : trace)
    (status saved_count : Z) :
  YoutubeExtract.lambda_handler E records tr
  = (Ret (status, saved_count), tr') ->
  Z.of_nat (count is_put tr') = Z.of_nat (count is_put tr) + saved_count.
Proof.
  unfold YoutubeExtract.lambda_handler.
  destruct (_ || _); [unfold ret; intros [= _ <- <-]; lia|].
  unfold bind.
  destruct (YoutubeExtract.process_records E records 0 tr) as [[n|e] tr1] eqn:H;
    [|discriminate].
  unfold ret. intros [= _ <- <-].
  apply youtube_records_count in H as (ext & -> & Hres).
  rewrite count_app, (Hres n eq_refl). lia.
Qed.

(** One complete record: one request, one write, a count of 1. *)
Lemma youtube_saved_count_is_writes_witness :
  Z.of_nat (count is_put
              [EvGenerate
                 ("TEXT: " ++ YoutubeExtract.extraction_text
                                (Samples.extract_env [Ret (PDict Samples.answer)])
                                Samples.youtube_data)%string;
               EvPut Samples.youtube_item])
  = Z.of_nat (count is_put []) + 1.
Proof.
  apply (youtube_saved_count_is_writes
           (Samples.extract_env [Ret (PDict Samples.answer)])
           [Samples.youtube_record] [] _ 200 1).
  by_vm.
Defined.

(** X18.  If every INSERT or MODIFY record of the batch has a new image
    that unmarshals, the YouTube extractor returns normally, whatever
    else the records hold and whatever the services do. *)
Theorem youtube_handler_returns
    (E : Extract.env) (records : list Stream.record) (tr : trace) :
  (forall r, In r records -> is_upsert r = true ->
     exists img data,
       NewImage r = Some img
       /\ YoutubeExtract.unmarshal_dynamodb_json img = Ret data) ->
  exists saved_count tr',
    YoutubeExtract.lambda_handler E records tr
    = (Ret (if Extract.ddb_table E && Extract.gemini_client E
            then 200 else 500, saved_count), tr').
Proof.
  intros Hwf. unfold YoutubeExtract.lambda_handler.
  destruct (Extract.ddb_table E), (Extract.gemini_client E);
    cbn [negb orb andb]; try (unfold ret; eauto).
  enough (H : forall saved tr0, exists n tr',
             YoutubeExtract.process_records E records saved tr0
             = (Ret n, tr')).
  { destruct (H 0 tr) as (n & tr' & Htr'). unfold bind. rewrite Htr'.
    unfold ret. eauto. }
  induction records as [|r records IH]; intros saved tr0.
  - unfold YoutubeExtract.process_records, ret. eauto.
  - cbn [YoutubeExtract.process_records]. unfold bind.
    destruct (youtube_record_effects E r tr0) as (res & ext & -> & _ & Hok).
    destruct Hok as [n ->]; [intros Hup; apply Hwf; [now left | exact Hup]|].
    apply IH. intros r' Hin. apply Hwf. now right.
Qed.

(** A batch of a record without [videoId] and a complete one. *)
Lemma youtube_handler_returns_witness :
  exists saved_count tr',
    YoutubeExtract.lambda_handler
      (Samples.extract_env [Ret (PDict Samples.answer)])
      [Samples.youtube_record_without_id; Samples.youtube_record] []
    = (Ret (200, saved_count), tr').
Proof.
  apply (youtube_handler_returns
           (Samples.extract_env [Ret (PDict Samples.answer)])
           [Samples.youtube_record_without_id; Samples.youtube_record] []).
  intros r [<- | [<- | []]] _.
  - exists (delete "videoId" Samples.youtube_image),
      (delete "videoId" Samples.youtube_data).
    split; [reflexivity | by_vm].
  - exists Samples.youtube_image, Samples.youtube_data.
    split; [reflexivity | by_vm].
Defined.

(** ** The geocoder, record by record *)

Lemma final_save_effects (E : GeoCoding.env) data coords tr :
  GeoCoding.save_to_final_db E data coords tr = (Ret false, tr)
  \/ exists item,
       GeoCoding.build_item data coords = Ret item
       /\ GeoCoding.save_to_final_db E data coords tr
          = (Ret true, tr ++ [EvPut item]).
Proof.
  unfold GeoCoding.save_to_final_db.
  destruct (GeoCoding.ddb_target_table E); cbn [negb]; [|now left].
  destruct (GeoCoding.build_item data coords) as [item|e]; [|now left].
  destruct (GeoCoding.put_item E item); [now left|].
  right. eauto.
Qed.

(** What the item of the final store takes from the record. *)
Lemma final_item_fields data coords item :
  GeoCoding.build_item data coords = Ret item ->
  item !! "postId" = data !! "postId"
  /\ item !! "address" = Some (get_default data "address" (PStr "N/A"))
  /\ item !! "placeName" = Some (get_default data "placeName" (PStr "N/A"))
  /\ item !! "buzz" = Some (get_default data "buzz" (PInt 0)).
Proof.
  unfold GeoCoding.build_item.
  unfold subscript at 1. destruct (data !! "postId") as [pid|] eqn:Hpid;
    [|discriminate].
  cbn [res_bind].
  repeat (step_res; [|discriminate]).
  intros [= <-]. split; [|split; [|split]].
  - now rewrite lookup_insert_eq.
  - rewrite !lookup_insert_ne by done. now rewrite lookup_insert_eq.
  - rewrite !lookup_insert_ne by done. now rewrite lookup_insert_eq.
  - rewrite !lookup_insert_ne by done. now rewrite lookup_insert_eq.
Qed.

(** One record of the geocoder: the trace only grows; a write follows a
    geocoding request of the same record, and there is at most one of
    each; the result counts the writes; a written item has the record's
    id and address, which are not empty, and the address is no sentinel;
    the record fails only if its image is missing or does not
    unmarshal. *)
Lemma geocoder_record_effects (E : GeoCoding.env) (r : Stream.record) tr :
  exists res ext,
    GeoCoding.process_record E r tr = (res, tr ++ ext)
    /\ (count is_put ext <= count is_geocode ext <= 1)%nat
    /\ (is_upsert r = false -> ext = [])
    /\ (forall n, res = Ret n -> Z.of_nat (count is_put ext) = n)
    /\ (forall item, In (EvPut item) ext ->
          exists id address,
            item !! "postId" = Some id /\ truthy id = true
            /\ item !! "address" = Some address /\ truthy address = true
            /\ GeoCoding.is_sentinel address = false)
    /\ ((is_upsert r = true ->
         exists img data,
           NewImage r = Some img
           /\ GeoCoding.unmarshal_dynamodb_json img = Ret data) ->
        exists n, res = Ret n).
Proof.
  unfold GeoCoding.process_record, Stream.new_image.
  destruct (is_upsert r).
  2:{ exists (Ret 0), []. rewrite app_nil_r. unfold ret.
      split; [reflexivity|]. split; [unfold count; cbn; lia|].
      split; [reflexivity|]. split; [now intros n [= <-]|].
      split; [intros item []|eauto]. }
  unfold bind at 1, lift at 1.
  destruct (NewImage r) as [img|].
  2:{ exists (Raise KeyError), []. rewrite app_nil_r.
      split; [reflexivity|]. split; [unfold count; cbn; lia|].
      split; [discriminate|]. split; [discriminate|].
      split; [intros item []|].
      intros H. destruct (H eq_refl) as (img & data & [=] & _). }
  unfold bind at 1, lift at 1.
  destruct (GeoCoding.unmarshal_dynamodb_json img) as [data|e] eqn:Hd.
  2:{ exists (Raise e), []. rewrite app_nil_r.
      split; [reflexivity|]. split; [unfold count; cbn; lia|].
      split; [discriminate|]. split; [discriminate|].
      split; [intros item []|].
      intros H. destruct (H eq_refl) as (img' & data & [= <-] & Hd').
      congruence. }
  destruct (GeoCoding.geocodable _ _) eqn:Hgeo.
  2:{ exists (Ret 0), []. rewrite app_nil_r. unfold ret.
      split; [reflexivity|]. split; [unfold count; cbn; lia|].
      split; [discriminate|]. split; [now intros n [= <-]|].
      split; [intros item []|eauto]. }
  unfold GeoCoding.geocodable in Hgeo.
  apply andb_true_iff in Hgeo as [Hgeo Hsent].
  apply andb_true_iff in Hgeo as [Hid Haddr].
  apply negb_true_iff, orb_false_iff in Hsent as [Hsent _].
  unfold bind at 1.
  destruct (geocode_address_cases E (get data "address") tr)
    as [H | [H | (p0 & p1 & H & _)]]; rewrite H.
  - exists (Ret 0), []. rewrite app_nil_r. cbn [truthy]. unfold ret.
    split; [reflexivity|]. split; [unfold count; cbn; lia|].
    split; [discriminate|]. split; [now intros n [= <-]|].
    split; [intros item []|eauto].
  - eexists (Ret 0), _. cbn [truthy]. unfold ret.
    split; [reflexivity|]. split; [unfold count; cbn; lia|].
    split; [discriminate|]. split; [now intros n [= <-]|].
    split; [|eauto].
    intros item [[=] | []].
  - rewrite truthy_insert. unfold bind.
    destruct (final_save_effects E data
                (PDict (<["lng" := p0]> (<["lat" := p1]> ∅)))
                (tr ++ [EvGeocode (GeoCoding.place_index_name E)
                          (get data "address")]))
      as [-> | (item & Hbuild & ->)].
    + eexists (Ret 0), _. unfold ret.
      split; [reflexivity|]. split; [unfold count; cbn; lia|].
      split; [discriminate|]. split; [now intros n [= <-]|].
      split; [|eauto].
      intros item [[=] | []].
    + eexists (Ret 1), _. unfold ret. rewrite <- app_assoc.
      split; [reflexivity|]. split; [unfold count; cbn; lia|].
      split; [discriminate|]. split; [now intros n [= <-]|].
      split; [|eauto].
      intros item' [[=] | [[= <-] | []]].
      apply final_item_fields in Hbuild as (Hpid & Ha & _).
      unfold get in Hid, Haddr, Hsent.
      unfold get_default in Ha.
      destruct (data !! "postId") as [id|]; [|discriminate].
      destruct (data !! "address") as [address|]; [|discriminate].
      exists id, address. auto.
Qed.

Lemma geocoder_records_effects (E : GeoCoding.env) records :
  forall success tr, exists res ext,
    GeoCoding.process_records E records success tr = (res, tr ++ ext)
    /\ (count is_put ext <= count is_geocode ext
        <= length (List.filter is_upsert records))%nat
    /\ (forall n, res = Ret n -> n = success + Z.of_nat (count is_put ext))
    /\ (forall item, In (EvPut item) ext ->
          exists id address,
            item !! "postId" = Some id /\ truthy id = true
            /\ item !! "address" = Some address /\ truthy address = true
            /\ GeoCoding.is_sentinel address = false)
    /\ ((forall r, In r records -> is_upsert r = true ->
           exists img data,
             NewImage r = Some img
             /\ GeoCoding.unmarshal_dynamodb_json img = Ret data) ->
        exists n, res = Ret n).
Proof.
  induction records as [|r records IH]; intros success tr.
  - exists (Ret success), []. rewrite app_nil_r.
    split; [reflexivity|]. split; [unfold count; cbn; lia|].
    split; [intros n [= <-]; unfold count; cbn; lia|].
    split; [intros item []|eauto].
  - cbn [GeoCoding.process_records List.filter]. unfold bind.
    destruct (geocoder_record_effects E r tr)
      as (res1 & ext1 & -> & Hb1 & Hskip & Hn1 & Hitem1 & Hok1).
    assert (Hlen : (count is_geocode ext1
                    <= length (if is_upsert r then [r] else []))%nat).
    { destruct (is_upsert r); cbn [length]; [lia|].
      rewrite (Hskip eq_refl). unfold count. cbn. lia. }
    destruct res1 as [n1|e].
    + destruct (IH (success + n1) (tr ++ ext1))
        as (res & ext & -> & Hb & Hn & Hitem & Hok).
      exists res, (ext1 ++ ext). rewrite app_assoc.
      split; [reflexivity|]. rewrite !count_app.
      split; [destruct (is_upsert r); cbn [length] in *; lia|].
      split; [intros n Hr; rewrite (Hn n Hr); specialize (Hn1 n1 eq_refl); lia|].
      split.
      * intros item Hin. apply in_app_or in Hin as [Hin | Hin]; eauto.
      * intros Hwf. apply Hok. intros r' Hin. apply Hwf. now right.
    + exists (Raise e), ext1.
      split; [reflexivity|].
      split; [destruct (is_upsert r); cbn [length] in *; lia|].
      split; [discriminate|]. split; [exact Hitem1|].
      intros Hwf. destruct Hok1 as [n [=]].
      intros Hup. apply Hwf; [now left | exact Hup].
Qed.

(** X19.  The count the geocoder reports is the number of items it wrote
    to the final store in the invocation. *)
Theorem geocoder_success_count_is_writes
    (E : GeoCoding.env) (records : list Stream.record) (tr tr' : trace)
    (status success_count : Z) :
  GeoCoding.lambda_handler E records tr
  = (Ret (status, success_count), tr') ->
  Z.of_nat (count is_put tr') = Z.of_nat (count is_put tr) + success_count.
Proof.
  unfold GeoCoding.lambda_handler.
  destruct (_ || _); [unfold ret; intros [= _ <- <-]; lia|].
  unfold bind.
  destruct (geocoder_records_effects E records 0 tr)
    as (res & ext & -> & _ & Hn & _).
  destruct res as [n|e]; [|discriminate].
  unfold ret. intros [= _ <- <-].
  rewrite count_app, (Hn n eq_refl). lia.
Qed.

(** X20.  In one invocation the geocoder sends at most one geocoding
    request for each INSERT or MODIFY record, and writes no more items
    than it sent requests. *)
Theorem geocoder_batch_bounds
    (E : GeoCoding.env) (records : list Stream.record) (tr : trace) :
  let tr' := snd (GeoCoding.lambda_handler E records tr) in
  (count is_geocode tr'
   <= count is_geocode tr + length (List.filter is_upsert records))%nat
  /\ (count is_put tr' + count is_geocode tr
      <= count is_put tr + count is_geocode tr')%nat.
Proof.
  cbn zeta. unfold GeoCoding.lambda_handler.
  destruct (_ || _); [unfold ret; cbn [snd]; lia|].
  unfold bind.
  destruct (geocoder_records_effects E records 0 tr)
    as (res & ext & -> & Hb & _).
  destruct res as [n|e]; unfold ret; cbn [snd]; rewrite !count_app; lia.
Qed.

(** X21.  Every item the geocoder writes in an invocation has a
    non-empty [postId] and a non-empty [address] that is neither "N/A"
    nor "null". *)
Theorem final_store_addresses_are_real
    (E : GeoCoding.env) (records : list Stream.record) (tr : trace)
    (item : gmap string pyval) :
  In (EvPut item) (snd (GeoCoding.lambda_handler E records tr)) ->
  In (EvPut item) tr
  \/ exists id address,
       item !! "postId" = Some id /\ truthy id = true
       /\ item !! "address" = Some address /\ truthy address = true
       /\ address <> PStr "N/A" /\ address <> PStr "null".
Proof.
  unfold GeoCoding.lambda_handler.
  destruct (_ || _); [unfold ret; cbn [snd]; auto|].
  unfold bind.
  destruct (geocoder_records_effects E records 0 tr)
    as (res & ext & -> & _ & _ & Hitem & _).
  intros Hin.
  assert (Hin' : In (EvPut item) (tr ++ ext))
    by (destruct res; exact Hin).
  apply in_app_or in Hin' as [Hin' | Hin']; [now left|].
  right. destruct (Hitem item Hin') as (id & address & H1 & H2 & H3 & H4 & H5).
  exists id, address. repeat split; auto; intros ->; discriminate.
Qed.

(** X22.  If every INSERT or MODIFY record of the batch has a new image
    that unmarshals, the geocoder returns normally, whatever the
    provider and the store do. *)
Theorem geocoder_handler_returns
    (E : GeoCoding.env) (records : list Stream.record) (tr : trace) :
  (forall r, In r records -> is_upsert r = true ->
     exists img data,
       NewImage r = Some img
       /\ GeoCoding.unmarshal_dynamodb_json img = Ret data) ->
  exists success_count tr',
    GeoCoding.lambda_handler E records tr
    = (Ret (if GeoCoding.ddb_target_table E && GeoCoding.location_client E
            then 200 else 500, success_count), tr').
Proof.
  intros Hwf. unfold GeoCoding.lambda_handler.
  destruct (GeoCoding.ddb_target_table E), (GeoCoding.location_client E);
    cbn [negb orb andb]; try (unfold ret; eauto).
  unfold bind.
  destruct (geocoder_records_effects E records 0 tr)
    as (res & ext & -> & _ & _ & _ & Hok).
  destruct (Hok Hwf) as [n ->]. unfold ret. eauto.
Qed.

(** A record without address and one that the provider resolves. *)
Lemma geocoder_run_sample :
  GeoCoding.lambda_handler Samples.resolving_env
    [Samples.intermediate_record None;
     Samples.intermediate_record (Some "Shibuya, Tokyo")] []
  = (Ret (200, 1),
     [EvGeocode "buzz-map-index" (PStr "Shibuya, Tokyo");
      EvPut Samples.final_item]).
Proof. by_vm. Qed.

(** The same batch: one write, a count of 1. *)
Lemma geocoder_success_count_is_writes_witness :
  Z.of_nat (count is_put
              [EvGeocode "buzz-map-index" (PStr "Shibuya, Tokyo");
               EvPut Samples.final_item])
  = Z.of_nat (count is_put []) + 1.
Proof.
  apply (geocoder_success_count_is_writes Samples.resolving_env
           [Samples.intermediate_record None;
            Samples.intermediate_record (Some "Shibuya, Tokyo")] [] _ 200 1).
  by_vm.
Defined.

(** The item written for that batch. *)
Lemma final_store_addresses_are_real_witness :
  In (EvPut Samples.final_item) []
  \/ exists id address,
       Samples.final_item !! "postId" = Some id /\ truthy id = true
       /\ Samples.final_item !! "address" = Some address
       /\ truthy address = true
       /\ address <> PStr "N/A" /\ address <> PStr "null".
Proof.
  apply (final_store_addresses_are_real Samples.resolving_env
           [Samples.intermediate_record None;
            Samples.intermediate_record (Some "Shibuya, Tokyo")] []).
  rewrite geocoder_run_sample. cbn [snd]. right; left. reflexivity.
Defined.

(** The same batch returns normally. *)
Lemma geocoder_handler_returns_witness :
  exists success_count tr',
    GeoCoding.lambda_handler Samples.resolving_env
      [Samples.intermediate_record None;
       Samples.intermediate_record (Some "Shibuya, Tokyo")] []
    = (Ret (200, success_count), tr').
Proof.
  apply (geocoder_handler_returns Samples.resolving_env
           [Samples.intermediate_record None;
            Samples.intermediate_record (Some "Shibuya, Tokyo")] []).
  intros r [<- | [<- | []]] _.
  - exists (Samples.intermediate_image None),
      (delete "address" Samples.intermediate_data).
    split; [reflexivity | by_vm].
  - exists (Samples.intermediate_image (Some "Shibuya, Tokyo")),
      Samples.intermediate_data.
    split; [reflexivity | by_vm].
Defined.

(** ** What gets written, and how long the helper waits *)

Lemma instagram_build_item_needs_object E original_data extracted item :
  InstagramExtract.build_item E original_data extracted = Ret item ->
  exists d, extracted = PDict d.
Proof.
  unfold InstagramExtract.build_item.
  repeat (step_res; [|discriminate]).
  destruct extracted; try discriminate. eauto.
Qed.

(** X23.  The Instagram extractor writes a record only on an answer that
    is a non-empty object: if the inference service never gives one
    (it fails, or answers null, an empty object, a list, a string or a
    number), the record is not written. *)
Theorem instagram_writes_need_object_answer
    (E : Extract.env) (r : Stream.record) (tr : trace) :
  (forall n contents d,
     Extract.generate_content E n contents = Ret (PDict d) -> d = ∅) ->
  puts (snd (InstagramExtract.process_record E r tr)) = puts tr.
Proof.
  intros Hans.
  unfold InstagramExtract.process_record, Stream.new_image.
  destruct (is_upsert r); [|reflexivity].
  unfold bind at 1, lift at 1.
  destruct (NewImage r) as [img|]; [|reflexivity].
  unfold bind at 1, lift at 1.
  destruct (InstagramExtract.unmarshal_dynamodb_json img) as [data|e];
    [|reflexivity].
  destruct (_ && _); [|reflexivity].
  unfold bind at 1.
  destruct (call_gemini_effects E
              ("TEXT: " ++ Extract.format E (get data "caption"))%string tr)
    as (v & ext & -> & Hput & _ & Hv).
  assert (Hext : puts (tr ++ ext) = puts tr).
  { rewrite puts_app.
    assert (Hnil : puts ext = []).
    { clear -Hput. induction ext as [|ev ext IH]; [reflexivity|].
      unfold count in *. destruct ev; cbn in *; try discriminate; auto. }
    rewrite Hnil. apply app_nil_r. }
  destruct (truthy v) eqn:Htruthy; [|exact Hext].
  unfold bind.
  destruct (instagram_save_effects E data v (tr ++ ext))
    as [(w & -> & _) | (item & Hbuild & _)]; [exact Hext|].
  exfalso.
  apply instagram_build_item_needs_object in Hbuild as [d ->].
  destruct Hv as [[=] | [n Hn]].
  apply Hans in Hn. subst d. discriminate.
Qed.

(** An answer that is a list of names is not written. *)
Lemma instagram_writes_need_object_answer_witness :
  puts (snd (InstagramExtract.process_record
               (Samples.extract_env [Ret (PList [PStr "Ramen Ichi"])])
               Samples.instagram_record []))
  = puts [].
Proof.
  apply (instagram_writes_need_object_answer
           (Samples.extract_env [Ret (PList [PStr "Ramen Ichi"])])
           Samples.instagram_record []).
  intros [|[|n]] contents d; discriminate.
Defined.

Lemma sleeps_app (t1 t2 : trace) : sleeps (t1 ++ t2) = sleeps t1 ++ sleeps t2.
Proof. unfold sleeps. apply omap_app. Qed.

Lemma total_wait_app l1 l2 :
  (Spec.total_wait (l1 ++ l2) == Spec.total_wait l1 + Spec.total_wait l2)%Q.
Proof.
  induction l1 as [|q l1 IH]; cbn.
  - now rewrite Qplus_0_l.
  - unfold Spec.total_wait in IH. rewrite IH. apply Qplus_assoc.
Qed.

Lemma wait_budget_nonneg a n : (0 <= Spec.wait_budget a n)%Q.
Proof.
  revert a. induction n as [|n IH]; intros a; cbn; [discriminate|].
  specialize (IH (S a)).
  assert (H : (0 <= inject_Z (10 * 2 ^ Z.of_nat a))%Q).
  { rewrite <- (Zle_Qle 0). lia. }
  apply (Qplus_le_compat 0 _ 0 _); [|exact IH].
  apply (Qplus_le_compat 0 _ 0 _); [exact H | discriminate].
Qed.

Lemma retry_loop_waits E c :
  (forall n, (0 <= Extract.uniform E n <= 1)%Q) ->
  forall n a tr, exists v ext,
    Extract.retry_loop E c (seq a n) tr = (Ret v, tr ++ ext)
    /\ Forall (fun q => (inject_Z (10 * 2 ^ Z.of_nat a) <= q
                         <= inject_Z (10 * 2 ^ Z.of_nat (a + n - 1)) + 1)%Q)
         (sleeps ext)
    /\ (Spec.total_wait (sleeps ext) <= Spec.wait_budget a n)%Q.
Proof.
  intros Hjit. induction n as [|n IH]; intros a tr.
  - exists PNone, []. rewrite app_nil_r.
    split; [reflexivity|]. split; [constructor | discriminate].
  - cbn [seq Extract.retry_loop].
    unfold bind at 1, Extract.attempt_once, bind, get_trace, emit, ret.
    destruct (Extract.generate_content E _ c) as [v|e].
    + exists v, [EvGenerate c]. split; [reflexivity|].
      split; [constructor | apply wait_budget_nonneg].
    + destruct (Extract.is_rate_limit e).
      2:{ exists PNone, [EvGenerate c]. split; [reflexivity|].
          split; [constructor | apply wait_budget_nonneg]. }
      match goal with
      | |- context [Extract.retry_loop E c (seq (S a) n) ?t] =>
          destruct (IH (S a) t) as (v & ext & -> & Hall & Htot)
      end.
      exists v. eexists. split; [now rewrite <- !app_assoc|].
      set (j := Extract.uniform E (count is_sleep (tr ++ [EvGenerate c]))).
      destruct (Hjit (count is_sleep (tr ++ [EvGenerate c]))) as [Hj0 Hj1].
      fold j in Hj0, Hj1.
      assert (Hpow : 10 * 2 ^ Z.of_nat a <= 10 * 2 ^ Z.of_nat (a + S n - 1)).
      { apply Z.mul_le_mono_nonneg_l; [lia|].
        apply Z.pow_le_mono_r; lia. }
      rewrite !sleeps_app. cbn [sleeps omap app].
      change (sleeps [EvGenerate c]) with (@nil Q).
      change (sleeps [EvSleep (Extract.wait_time a j)])
        with [Extract.wait_time a j].
      cbn [app]. split.
      * constructor.
        -- unfold Extract.wait_time, Extract.INITIAL_BACKOFF_TIME. split.
           ++ rewrite <- (Qplus_0_r (inject_Z _)) at 1.
              apply Qplus_le_compat; [apply Qle_refl | exact Hj0].
           ++ apply Qplus_le_compat; [|exact Hj1].
              now rewrite <- Zle_Qle.
        -- eapply Forall_impl; [exact Hall|]. cbn beta. intros q [Hlo Hhi].
           split.
           ++ eapply Qle_trans; [|exact Hlo]. rewrite <- Zle_Qle.
              apply Z.mul_le_mono_nonneg_l; [lia|].
              apply Z.pow_le_mono_r; lia.
           ++ now replace (a + S n - 1)%nat with (S a + n - 1)%nat by lia.
      * cbn [Spec.total_wait fold_right Spec.wait_budget].
        apply Qplus_le_compat; [|exact Htot].
        unfold Extract.wait_time, Extract.INITIAL_BACKOFF_TIME.
        apply Qplus_le_compat; [apply Qle_refl | exact Hj1].
Qed.

(** X24.  When every [random.uniform(0, 1)] lies between 0 and 1, each
    wait of [call_gemini_for_extraction] lasts between 10 and 161
    seconds, and the waits of one call add up to at most 315 seconds. *)
Theorem backoff_waits_are_bounded
    (E : Extract.env) (contents : string) (tr : trace) :
  (forall n, (0 <= Extract.uniform E n <= 1)%Q) ->
  exists ext,
    snd (Extract.call_gemini_for_extraction E contents tr) = tr ++ ext
    /\ Forall (fun q => (10 <= q <= 161)%Q) (sleeps ext)
    /\ (Spec.total_wait (sleeps ext) <= 315)%Q.
Proof.
  intros Hjit. unfold Extract.call_gemini_for_extraction.
  destruct (Extract.gemini_client E); cbn [negb].
  - destruct (retry_loop_waits E contents Hjit Extract.MAX_RETRIES 0%nat tr)
      as (v & ext & -> & Hall & Htot).
    exists ext. split; [reflexivity|]. split; [exact Hall | exact Htot].
  - exists []. rewrite app_nil_r. unfold ret.
    split; [reflexivity|]. split; [constructor | discriminate].
Qed.

(** Two rate-limited attempts with a jitter of half a second: waits of
    10.5 and 20.5 seconds. *)
Lemma backoff_waits_are_bounded_witness :
  exists ext,
    snd (Extract.call_gemini_for_extraction
           (Samples.extract_env Samples.limited_script) "TEXT: ramen" [])
    = [] ++ ext
    /\ Forall (fun q => (10 <= q <= 161)%Q) (sleeps ext)
    /\ (Spec.total_wait (sleeps ext) <= 315)%Q.
Proof.
  apply (backoff_waits_are_bounded
           (Samples.extract_env Samples.limited_script) "TEXT: ramen" []).
  intros n. split; discriminate.
Defined.

(** ** Fetching the media of a hashtag *)

Lemma scan_page_keeps A limit max_count new_media :
  forall all_media s,
    InstagramFetch.scan_page A limit max_count new_media all_media = Ret s ->
    Z.of_nat (length all_media) <= Z.max 0 max_count ->
    Forall (Spec.in_window A limit) all_media ->
    let collected :=
      match s with
      | InstagramFetch.Continue l => l
      | InstagramFetch.Return l => l
      end in
    Z.of_nat (length collected) <= Z.max 0 max_count
    /\ Forall (Spec.in_window A limit) collected
    /\ (length all_media <= length collected)%nat
    /\ (forall l, s = InstagramFetch.Continue l ->
          length l = (length all_media + length new_media)%nat).
Proof.
  induction new_media as [|media rest IH]; intros all_media s; cbn zeta.
  - cbn. intros [= <-] Hlen Hall.
    repeat split; auto. intros l [= <-]. lia.
  - cbn [InstagramFetch.scan_page].
    destruct media as [| | | | | | |m]; try discriminate.
    destruct (InstagramFetch.strptime A (get m "timestamp")) as [t|] eqn:Ht;
      [|discriminate].
    cbn [res_bind].
    destruct (InstagramFetch.earlier t limit) as [old|] eqn:Hold;
      [|discriminate].
    cbn [res_bind]. destruct old.
    { intros [= <-] Hlen Hall. repeat split; auto. discriminate. }
    destruct (max_count <=? Z.of_nat (length all_media)) eqn:Hfull.
    { intros [= <-] Hlen Hall. repeat split; auto. discriminate. }
    apply Z.leb_gt in Hfull.
    intros Hs Hlen Hall.
    apply IH in Hs.
    + cbn zeta in Hs. destruct Hs as (H1 & H2 & H3 & H4).
      rewrite length_app in H3, H4. cbn [length] in *.
      repeat split; auto; [lia|]. intros l Hl. rewrite (H4 l Hl). lia.
    + rewrite length_app. cbn [length]. lia.
    + apply Forall_app. split; [exact Hall|].
      constructor; [|constructor]. exists t. auto.
Qed.

Lemma fetch_pages_keeps A limit max_count fuel :
  forall page target all_media tr l tr',
    InstagramFetch.fetch_pages fuel A limit max_count page target all_media tr
    = (Ret (Some l), tr') ->
    Z.of_nat (length all_media) <= Z.max 0 max_count ->
    Forall (Spec.in_window A limit) all_media ->
    Z.of_nat (length l) <= Z.max 0 max_count
    /\ Forall (Spec.in_window A limit) l.
Proof.
  induction fuel as [|fuel IH]; intros page target all_media tr l tr';
    cbn [InstagramFetch.fetch_pages]; [discriminate|].
  destruct (negb _).
  { unfold ret. intros [= <- <-]. auto. }
  destruct (InstagramFetch.top_media A page target) as [data| |e];
    [|unfold ret; intros [= <- <-]; auto | discriminate].
  destruct data as [| | | | | | |data]; try discriminate.
  unfold bind at 1, lift at 1.
  destruct (InstagramFetch.iterate _) as [new_media|]; [|discriminate].
  unfold bind at 1, lift at 1.
  destruct (InstagramFetch.scan_page A limit max_count new_media all_media)
    as [s|] eqn:Hs; [|discriminate].
  intros Hrun Hlen Hall.
  pose proof (scan_page_keeps _ _ _ _ _ _ Hs Hlen Hall) as Hkeep.
  cbn zeta in Hkeep. destruct Hkeep as (H1 & H2 & _ & _).
  destruct s as [collected|collected].
  - destruct (data !! "paging") as [paging|].
    2:{ unfold ret in Hrun. injection Hrun as <- <-. auto. }
    unfold bind at 1, lift at 1 in Hrun.
    destruct (InstagramFetch.has_member "next" paging) as [[|]|];
      try discriminate.
    2:{ unfold ret in Hrun. injection Hrun as <- <-. auto. }
    unfold bind at 1, lift at 1 in Hrun.
    destruct (item_key paging "next") as [url|]; [|discriminate].
    unfold bind at 1, emit in Hrun.
    apply IH in Hrun; auto.
  - unfold ret in Hrun. injection Hrun as <- <-. auto.
Qed.

(** X25.  What [get_top_hashtag_media] returns holds at most
    [max_count] items, and each of them has a timestamp that was read
    and is not earlier than the limit, now minus [max_days] days. *)
Theorem fetched_media_are_bounded_and_recent
    (fuel : nat) (A : InstagramFetch.api) (hashtag_id : pyval)
    (max_count max_days : Z) (tr tr' : trace)
    (media_list : list (gmap string pyval)) :
  InstagramFetch.get_top_hashtag_media fuel A hashtag_id max_count max_days tr
  = (Ret (Some media_list), tr') ->
  Z.of_nat (length media_list) <= Z.max 0 max_count
  /\ Forall (fun media =>
               exists t,
                 InstagramFetch.strptime A (get media "timestamp") = Ret t
                 /\ InstagramFetch.earlier t
                      (InstagramFetch.date_limit A max_days) = Ret false)
       media_list.
Proof.
  unfold InstagramFetch.get_top_hashtag_media.
  destruct (negb (truthy hashtag_id)).
  - unfold ret. intros [= <- <-]. split; [cbn; lia | constructor].
  - intros Hrun.
    apply fetch_pages_keeps in Hrun; [exact Hrun | cbn; lia | constructor].
Qed.

(** The sample hashtag: the two recent items are kept, the third ends the scan. *)
Lemma fetched_media_are_bounded_and_recent_witness :
  Z.of_nat (length [Samples.media_at "1" "2024-01-01T00:00:00+0000" 10;
                    Samples.media_at "2" "2023-12-25T10:00:00+0000" 500])
  <= Z.max 0 80
  /\ Forall (fun media =>
               exists t,
                 InstagramFetch.strptime Samples.hashtag_api
                   (get media "timestamp") = Ret t
                 /\ InstagramFetch.earlier t
                      (InstagramFetch.date_limit Samples.hashtag_api 30)
                    = Ret false)
       [Samples.media_at "1" "2024-01-01T00:00:00+0000" 10;
        Samples.media_at "2" "2023-12-25T10:00:00+0000" 500].
Proof.
  apply (fetched_media_are_bounded_and_recent 5 Samples.hashtag_api
           (PStr "17843826142012701") 80 30 [] [EvSleep 1]).
  by_vm.
Defined.

Lemma fetch_pages_terminates A limit max_count :
  (forall n target d paging,
     InstagramFetch.top_media A n target = InstagramFetch.Fetched (PDict d) ->
     InstagramFetch.iterate (get_default d "data" (PList [])) = Ret [] ->
     d !! "paging" = Some paging ->
     InstagramFetch.has_member "next" paging <> Ret true) ->
  forall fuel page target all_media tr,
    Z.max 0 (max_count - Z.of_nat (length all_media)) < Z.of_nat fuel ->
    fst (InstagramFetch.fetch_pages fuel A limit max_count page target
           all_media tr)
    <> Ret None.
Proof.
  intros Hprogress.
  induction fuel as [|fuel IH]; intros page target all_media tr Hfuel;
    cbn [InstagramFetch.fetch_pages].
  { exfalso. lia. }
  destruct (Z.of_nat (length all_media) <? max_count) eqn:Hcond;
    cbn [negb]; [|unfold ret; discriminate].
  apply Z.ltb_lt in Hcond.
  destruct (InstagramFetch.top_media A page target) as [data| |e] eqn:Hpage;
    [|unfold ret; discriminate | discriminate].
  destruct data as [| | | | | | |data]; try discriminate.
  unfold bind at 1, lift at 1.
  destruct (InstagramFetch.iterate _) as [new_media|] eqn:Hiter;
    [|discriminate].
  unfold bind at 1, lift at 1.
  destruct (InstagramFetch.scan_page A limit max_count new_media all_media)
    as [s|] eqn:Hs; [|discriminate].
  destruct s as [collected|collected]; [|unfold ret; discriminate].
  destruct (data !! "paging") as [paging|] eqn:Hpaging;
    [|unfold ret; discriminate].
  unfold bind at 1, lift at 1.
  destruct (InstagramFetch.has_member "next" paging) as [[|]|] eqn:Hnext;
    [|unfold ret; discriminate | discriminate].
  unfold bind at 1, lift at 1.
  destruct (item_key paging "next") as [url|]; [|discriminate].
  unfold bind at 1, emit.
  apply IH.
  assert (Hne : new_media <> []).
  { intros ->. now apply (Hprogress _ _ _ _ Hpage Hiter Hpaging). }
  assert (Hgrow : length collected = (length all_media + length new_media)%nat).
  { clear -Hs. revert all_media Hs.
    induction new_media as [|m rest IHn]; intros all_media;
      cbn [InstagramFetch.scan_page].
    - intros [= <-]. cbn. lia.
    - destruct m; try discriminate.
      repeat (step_res; [|discriminate]).
      destruct a0; [discriminate|].
      destruct (_ <=? _); [discriminate|].
      intros H. apply IHn in H. rewrite length_app in H. cbn in *. lia. }
  destruct new_media; [contradiction|]. cbn [length] in Hgrow. lia.
Qed.

(** X26.  If no page with an empty list of media names a next page
    (it has no [paging], or its [paging] has no [next]), the loop of
    [get_top_hashtag_media] ends within [max_count + 1] rounds: with
    more fuel than [max_count] (and at least one round) the function
    comes to a result, a list or an exception of the service. *)
Theorem fetch_terminates
    (fuel : nat) (A : InstagramFetch.api) (hashtag_id : pyval)
    (max_count max_days : Z) (tr : trace) :
  (forall n target d paging,
     InstagramFetch.top_media A n target = InstagramFetch.Fetched (PDict d) ->
     InstagramFetch.iterate (get_default d "data" (PList [])) = Ret [] ->
     d !! "paging" = Some paging ->
     InstagramFetch.has_member "next" paging <> Ret true) ->
  Z.max 0 max_count < Z.of_nat fuel ->
  fst (InstagramFetch.get_top_hashtag_media fuel A hashtag_id
         max_count max_days tr)
  <> Ret None.
Proof.
  intros Hprogress Hfuel. unfold InstagramFetch.get_top_hashtag_media.
  destruct (negb (truthy hashtag_id)); [unfold ret; discriminate|].
  apply fetch_pages_terminates; [exact Hprogress | cbn [length]; lia].
Qed.

(** A hashtag whose second page is empty and has a [paging] without
    [next], with 81 rounds for a limit of 80 items. *)
Lemma fetch_terminates_witness :
  fst (InstagramFetch.get_top_hashtag_media 81 Samples.drained_api
         (PStr "17843826142012701") 80 30 [])
  <> Ret None.
Proof.
  apply (fetch_terminates 81 Samples.drained_api
           (PStr "17843826142012701") 80 30 []).
  - intros [|n] target d paging; cbn; intros [= <-].
    + discriminate.
    + intros _ [= <-]. discriminate.
  - reflexivity.
Defined.

(** ** The crawler's handler *)

Lemma crawl_save_effects (E : InstagramCrawl.env) media tr :
  InstagramCrawl.save_to_dynamodb E media tr = (Ret false, tr)
  \/ exists item,
       InstagramCrawl.build_item E media = Ret item
       /\ InstagramCrawl.save_to_dynamodb E media tr
          = (Ret true, tr ++ [EvPut item]).
Proof.
  unfold InstagramCrawl.save_to_dynamodb.
  destruct (InstagramCrawl.table E); cbn [negb]; [|now left].
  destruct (InstagramCrawl.build_item E media) as [item|e]; [|now left].
  destruct (InstagramCrawl.put_item E item); [now left|].
  right. eauto.
Qed.

Lemma save_all_effects (E : InstagramCrawl.env) media_list :
  forall saved tr, exists ext,
    InstagramFetch.save_all E media_list saved tr
    = (Ret (saved + Z.of_nat (count is_put ext)), tr ++ ext)
    /\ (count is_put ext <= length media_list)%nat.
Proof.
  induction media_list as [|media rest IH]; intros saved tr;
    cbn [InstagramFetch.save_all].
  - exists []. rewrite app_nil_r. unfold ret, count. cbn.
    rewrite Z.add_0_r. split; [reflexivity | lia].
  - unfold bind.
    destruct (crawl_save_effects E media tr) as [-> | (item & _ & ->)].
    + destruct (IH saved tr) as (ext & -> & Hle).
      exists ext. split; [reflexivity | cbn [length]; lia].
    + destruct (IH (saved + 1) (tr ++ [EvPut item])) as (ext & -> & Hle).
      exists ([EvPut item] ++ ext). rewrite app_assoc, count_app.
      change (count is_put [EvPut item]) with 1%nat.
      replace (saved + Z.of_nat (1 + count is_put ext))
        with (saved + 1 + Z.of_nat (count is_put ext)) by lia.
      split; [reflexivity | cbn [length]; lia].
Qed.

Lemma insert_desc_perm {A} (x : Q * A) l :
  Permutation (InstagramFetch.insert_desc x l) (x :: l).
Proof.
  induction l as [|y l IH]; cbn; [reflexivity|].
  destruct (Qltb (fst x) (fst y)); [|reflexivity].
  rewrite IH. apply perm_swap.
Qed.

Lemma sort_desc_perm {A} (l : list (Q * A)) :
  Permutation (InstagramFetch.sort_desc l) l.
Proof.
  induction l as [|x l IH]; cbn; [reflexivity|].
  rewrite insert_desc_perm. now constructor.
Qed.

Lemma keyed_media media_list pairs :
  InstagramFetch.keyed media_list = Ret pairs ->
  pairs.*2 = media_list
  /\ Forall (fun p => InstagramFetch.like_key (snd p) = Ret (fst p)) pairs.
Proof.
  revert pairs. induction media_list as [|m rest IH]; intros pairs;
    cbn [InstagramFetch.keyed].
  - intros [= <-]. split; [reflexivity | constructor].
  - destruct (InstagramFetch.like_key m) as [k|] eqn:Hk; [|discriminate].
    cbn [res_bind].
    destruct (InstagramFetch.keyed rest) as [pr|]; [|discriminate].
    cbn [res_bind]. intros [= <-].
    destruct (IH pr eq_refl) as [Heq Hall].
    split; [cbn; now rewrite Heq|]. constructor; [exact Hk | exact Hall].
Qed.



Lemma fetch_pages_no_put A limit max_count fuel :
  forall page target all_media tr res tr',
    InstagramFetch.fetch_pages fuel A limit max_count page target all_media tr
    = (res, tr') ->
    count is_put tr' = count is_put tr.
Proof.
  induction fuel as [|fuel IH]; intros page target all_media tr res tr';
    cbn [InstagramFetch.fetch_pages].
  { unfold ret. now intros [= _ <-]. }
  destruct (negb _); [unfold ret; now intros [= _ <-]|].
  destruct (InstagramFetch.top_media A page target) as [data| |e];
    [|unfold ret; now intros [= _ <-] | unfold raise; now intros [= _ <-]].
  destruct data as [| | | | | | |data];
    try (unfold raise; now intros [= _ <-]).
  unfold bind at 1, lift at 1.
  destruct (InstagramFetch.iterate _) as [new_media|]; [|now intros [= _ <-]].
  unfold bind at 1, lift at 1.
  destruct (InstagramFetch.scan_page A limit max_count new_media all_media)
    as [[collected|collected]|]; [|unfold ret|]; try now intros [= _ <-].
  destruct (data !! "paging") as [paging|]; [|unfold ret; now intros [= _ <-]].
  unfold bind at 1, lift at 1.
  destruct (InstagramFetch.has_member "next" paging) as [[|]|];
    [|unfold ret|]; try now intros [= _ <-].
  unfold bind at 1, lift at 1.
  destruct (item_key paging "next") as [url|]; [|now intros [= _ <-]].
  unfold bind at 1, emit. intros H. apply IH in H. rewrite H, count_app.
  unfold count. cbn. lia.
Qed.

(** X27.  The count the crawler reports is the number of items it wrote
    in the invocation, and it is at most 80, the value of [MAX_COUNT]. *)
Theorem crawler_saved_count_is_writes
    (fuel : nat) (A : InstagramFetch.api) (E : InstagramCrawl.env)
    (tr tr' : trace) (status saved_count : Z) :
  InstagramFetch.lambda_handler fuel A E tr
  = (Ret (Some (status, saved_count)), tr') ->
  Z.of_nat (count is_put tr') = Z.of_nat (count is_put tr) + saved_count
  /\ 0 <= saved_count <= 80.
Proof.
  unfold InstagramFetch.lambda_handler.
  unfold bind at 1, lift at 1.
  destruct (InstagramFetch.get_hashtag_id A) as [hashtag_id|]; [|discriminate].
  destruct (negb (truthy hashtag_id) && _).
  { unfold ret. intros [= _ <- <-]. lia. }
  destruct (truthy hashtag_id) eqn:Hid;
    [|unfold ret; intros [= _ <- <-]; lia].
  unfold bind at 1.
  destruct (InstagramFetch.get_top_hashtag_media fuel A hashtag_id
              InstagramFetch.MAX_COUNT InstagramFetch.MAX_DAYS tr)
    as [[fetched_media|] tr1] eqn:Hfetch; [|discriminate].
  destruct fetched_media as [media_list|]; [|discriminate].
  assert (Hput : count is_put tr1 = count is_put tr).
  { unfold InstagramFetch.get_top_hashtag_media in Hfetch.
    rewrite Hid in Hfetch. cbn [negb] in Hfetch.
    now apply fetch_pages_no_put in Hfetch. }
  assert (Hlen : Z.of_nat (length media_list)
                 <= Z.max 0 InstagramFetch.MAX_COUNT).
  { unfold InstagramFetch.get_top_hashtag_media in Hfetch.
    rewrite Hid in Hfetch. cbn [negb] in Hfetch.
    apply fetch_pages_keeps in Hfetch; [apply Hfetch | cbn; lia | constructor]. }
  destruct media_list as [|m media_list].
  { unfold ret. intros [= _ <- <-]. lia. }
  unfold bind.
  destruct (save_all_effects E
              (InstagramFetch.media_list_sorted (m :: media_list)) 0 tr1)
    as (ext & -> & Hle).
  unfold ret. intros [= _ <- <-]. rewrite count_app, Hput.
  assert (Hsame : length (InstagramFetch.media_list_sorted (m :: media_list))
                  = length (m :: media_list)).
  { unfold InstagramFetch.media_list_sorted.
    destruct (InstagramFetch.keyed (m :: media_list)) as [pairs|] eqn:Hk;
      [|reflexivity].
    apply keyed_media in Hk as [<- _].
    rewrite !length_fmap. apply Permutation_length, sort_desc_perm. }
  rewrite Hsame in Hle. unfold InstagramFetch.MAX_COUNT in Hlen. lia.
Qed.


(** The two recent items of the sample hashtag are written, the one with
    500 likes first. *)
Lemma crawler_run_sample :
  InstagramFetch.lambda_handler 81 Samples.hashtag_api Samples.crawl_env []
  = (Ret (Some (200, 2)),
     [EvSleep 1;
      EvPut (Samples.crawled_item "2" "2023-12-25T10:00:00+0000" 500);
      EvPut (Samples.crawled_item "1" "2024-01-01T00:00:00+0000" 10)]).
Proof. by_vm. Qed.

(** The sample run: two writes, a count of 2. *)
Lemma crawler_saved_count_is_writes_witness :
  Z.of_nat (count is_put
              [EvSleep 1;
               EvPut (Samples.crawled_item "2" "2023-12-25T10:00:00+0000" 500);
               EvPut (Samples.crawled_item "1" "2024-01-01T00:00:00+0000" 10)])
  = Z.of_nat (count is_put []) + 2
  /\ 0 <= 2 <= 80.
Proof.
  apply (crawler_saved_count_is_writes 81 Samples.hashtag_api
           Samples.crawl_env [] _ 200 2).
  exact crawler_run_sample.
Defined.


(** X29.  A media item that [save_to_dynamodb] persists had a caption
    that was absent or a string (a null caption, or one of another type,
    makes the function return False without writing), and its
    [like_count] and [comments_count] are stored as the integers [int]
    makes of the source values, 0 standing for an absent one. *)
Theorem persisted_media_are_well_typed
    (E : InstagramCrawl.env) (media_item item : gmap string pyval)
    (tr : trace) :
  InstagramCrawl.save_to_dynamodb E media_item tr
  = (Ret true, tr ++ [EvPut item]) ->
  (media_item !! "caption" = None
   \/ exists s, media_item !! "caption" = Some (PStr s))
  /\ (exists likes comments,
        int_of_value (get_default media_item "like_count" (PInt 0))
        = Ret likes
        /\ int_of_value (get_default media_item "comments_count" (PInt 0))
           = Ret comments
        /\ item !! "like_count" = Some (PInt likes)
        /\ item !! "comments_count" = Some (PInt comments)).
Proof.
  unfold InstagramCrawl.save_to_dynamodb, InstagramCrawl.build_item.
  destruct (InstagramCrawl.table E); cbn [negb];
    [|intros [=]; discriminate].
  destruct (str_replace _ newline " ") as [caption|e] eqn:Hcap;
    cbn [res_bind]; [|intros [= H]; now apply app_one_neq in H].
  destruct (int_of_value (get_default media_item "like_count" (PInt 0)))
    as [likes|] eqn:Hl; cbn [res_bind];
    [|intros [= H]; now apply app_one_neq in H].
  destruct (int_of_value (get_default media_item "comments_count" (PInt 0)))
    as [comments|] eqn:Hc; cbn [res_bind];
    [|intros [= H]; now apply app_one_neq in H].
  destruct (InstagramCrawl.put_item E _);
    [intros [= H]; now apply app_one_neq in H|].
  unfold bind, emit, ret. intros [= H]. apply app_inv_head in H.
  injection H as <-. split.
  - unfold get_default in Hcap.
    destruct (media_item !! "caption") as [v|]; [|now left].
    right. destruct v; try discriminate. eauto.
  - exists likes, comments.
    split; [reflexivity|]. split; [reflexivity|]. split.
    + rewrite !lookup_insert_ne by done. now rewrite lookup_insert_eq.
    + rewrite !lookup_insert_ne by done. now rewrite lookup_insert_eq.
Qed.

(** The item of 500 likes of the sample hashtag. *)
Lemma persisted_media_are_well_typed_witness :
  (Samples.media_at "2" "2023-12-25T10:00:00+0000" 500 !! "caption" = None
   \/ exists s,
        Samples.media_at "2" "2023-12-25T10:00:00+0000" 500 !! "caption"
        = Some (PStr s))
  /\ (exists likes comments,
        int_of_value
          (get_default (Samples.media_at "2" "2023-12-25T10:00:00+0000" 500)
             "like_count" (PInt 0)) = Ret likes
        /\ int_of_value
             (get_default (Samples.media_at "2" "2023-12-25T10:00:00+0000" 500)
                "comments_count" (PInt 0)) = Ret comments
        /\ Samples.crawled_item "2" "2023-12-25T10:00:00+0000" 500
           !! "like_count" = Some (PInt likes)
        /\ Samples.crawled_item "2" "2023-12-25T10:00:00+0000" 500
           !! "comments_count" = Some (PInt comments)).
Proof.
  apply (persisted_media_are_well_typed Samples.crawl_env
           (Samples.media_at "2" "2023-12-25T10:00:00+0000" 500)
           (Samples.crawled_item "2" "2023-12-25T10:00:00+0000" 500) []).
  by_vm.
Defined.

(** ** More likes, no less buzz *)

Lemma truncate_mono a b :
  (0 <= a)%Q -> (a <= b)%Q -> Spec.truncate a <= Spec.truncate b.
Proof.
  intros Ha Hab. unfold Spec.truncate.
  assert (Hb : (0 <= b)%Q) by (eapply Qle_trans; eauto).
  destruct a as [na da], b as [nb db]. cbn [Qnum Qden].
  unfold Qle in Ha, Hb; cbn in Ha, Hb.
  rewrite !Z.quot_div_nonneg by lia.
  change (Qfloor (na # da) <= Qfloor (nb # db)). now apply Qfloor_resp_le.
Qed.

Lemma clamp_mono x y :
  (x <= y)%Q -> (1 <= Spec.clamp x 1 5 <= Spec.clamp y 1 5)%Q.
Proof.
  intros Hxy. unfold Spec.clamp.
  destruct (Qltb x 1) eqn:Hx1; destruct (Qltb y 1) eqn:Hy1;
    try apply Qltb_lt in Hx1; try apply Qltb_ge in Hx1;
    try apply Qltb_lt in Hy1; try apply Qltb_ge in Hy1.
  - split; discriminate.
  - destruct (Qltb 5 y); split; try discriminate; exact Hy1.
  - exfalso. apply (Qlt_irrefl 1).
    eapply Qle_lt_trans; [exact Hx1|]. eapply Qle_lt_trans; eauto.
  - destruct (Qltb 5 x) eqn:Hx5; destruct (Qltb 5 y) eqn:Hy5;
      try apply Qltb_lt in Hx5; try apply Qltb_ge in Hx5;
      try apply Qltb_lt in Hy5; try apply Qltb_ge in Hy5.
    + split; discriminate.
    + exfalso. apply (Qlt_irrefl 5).
      eapply Qlt_le_trans; [exact Hx5|]. eapply Qle_trans; eauto.
    + split; [exact Hx1 | exact Hx5].
    + split; [exact Hx1 | exact Hxy].
Qed.

Lemma clamp_1_5_mono x y :
  (x <= y)%Q ->
  py_int (Extract.clamp_1_5 x) <= py_int (Extract.clamp_1_5 y).
Proof.
  intros Hxy. rewrite !clamp_refines.
  destruct (clamp_mono x y Hxy) as [H1 H2].
  apply truncate_mono; [|exact H2].
  eapply Qle_trans; [|exact H1]. discriminate.
Qed.

Lemma clamp_score_mono x y :
  Float64.le x y ->
  py_int (Extract.clamp_score x) <= py_int (Extract.clamp_score y).
Proof.
  intros Hxy.
  destruct x as [p|[|]|]; [| | |contradiction].
  - destruct y as [q|[|]|]; try contradiction.
    + now apply clamp_1_5_mono.
    + cbn [Extract.clamp_score py_int]. apply clamp_range.
  - pose proof (clamp_score_range y). cbn [Extract.clamp_score py_int]. lia.
  - destruct y as [q|[|]|]; try contradiction.
    cbn [Extract.clamp_score py_int]. lia.
Qed.

(** X30.  Of two raw posts with the same [timestamp] and [crawled_at],
    the one with more likes gets no smaller a buzz score. *)
Theorem instagram_buzz_grows_with_likes
    (E : Extract.env) (post post' : gmap string pyval)
    (score score' : num) (likes likes' : Q) :
  get post "timestamp" = get post' "timestamp" ->
  get post "crawled_at" = get post' "crawled_at" ->
  as_number (get_default post "like_count" (PInt 0)) = Ret likes ->
  as_number (get_default post' "like_count" (PInt 0)) = Ret likes' ->
  (likes <= likes')%Q ->
  InstagramExtract.buzz_score E post = Ret score ->
  InstagramExtract.buzz_score E post' = Ret score' ->
  py_int score <= py_int score'.
Proof.
  intros Hts Hcr Hl Hl' Hle.
  unfold InstagramExtract.buzz_score. cbv zeta.
  rewrite <- Hts, <- Hcr.
  destruct (_ && _); [|intros [= <-] [= <-]; lia].
  destruct (Extract.parse_time E (get post "crawled_at")) as [dc|];
    [|discriminate].
  destruct (Extract.parse_time E (get post "timestamp")) as [dp|];
    [|discriminate].
  cbn [res_bind].
  destruct (total_seconds dc dp) as [secs|] eqn:Hsecs; [|discriminate].
  cbn [res_bind].
  rewrite float_div_ok by reflexivity. cbn [res_bind].
  destruct (floored_days _ _ _ Hsecs) as (days & Hdays & Hpos).
  change (Float64.quot secs (Float64.Finite (inject_Z (24 * 3600))))
    with (Spec.elapsed_days secs).
  change (if Float64.ltb (Spec.elapsed_days secs) Extract.hundredth
          then Extract.hundredth else Spec.elapsed_days secs)
    with (Spec.floor_at Extract.hundredth (Spec.elapsed_days secs)).
  rewrite Hdays.
  destruct (to_float (get_default post "like_count" (PInt 0)))
    as [l|] eqn:Hf; [|discriminate].
  destruct (to_float (get_default post' "like_count" (PInt 0)))
    as [l'|] eqn:Hf'; [|discriminate].
  cbn [res_bind].
  rewrite !float_div_ok by now apply positive_not_zero.
  cbn [res_bind]. rewrite !float_div_ok by reflexivity.
  intros [= <-] [= <-]. apply clamp_score_mono.
  apply quot_mono; [|reflexivity]. apply quot_mono; [|exact Hpos].
  rewrite (to_float_round _ _ _ Hl Hf), (to_float_round _ _ _ Hl' Hf').
  now apply round_mono.
Qed.

(** The sample post with 10 and with 500 likes, one day old. *)
Lemma instagram_buzz_grows_with_likes_witness :
  py_int (NInt 1) <= py_int (NInt 5).
Proof.
  apply (instagram_buzz_grows_with_likes (Samples.extract_env [])
           (Samples.instagram_post 10
              "2024-01-01T00:00:00+0000" "2024-01-02T00:00:00+00:00")
           (Samples.instagram_post 500
              "2024-01-01T00:00:00+0000" "2024-01-02T00:00:00+00:00")
           (NInt 1) (NInt 5) 10 500).
  - reflexivity.
  - reflexivity.
  - reflexivity.
  - reflexivity.
  - discriminate.
  - by_vm.
  - by_vm.
Defined.

(** X3.  Without configuration the crawler does nothing: when the
    access token or the account id is empty or still the placeholder,
    [get_hashtag_id] returns None whatever the API would answer, and
    [lambda_handler] ends without a request or a write, with status 400
    if one of the two is the placeholder and 500 otherwise. *)
Theorem crawler_needs_configuration
    (fuel : nat) (A : InstagramFetch.api) (E : InstagramCrawl.env)
    (tr : trace) :
  InstagramFetch.access_token A = ""
  \/ InstagramFetch.access_token A = "YOUR_ACCESS_TOKEN"
  \/ InstagramFetch.account_id A = ""
  \/ InstagramFetch.account_id A = "YOUR_INSTAGRAM_BUSINESS_ACCOUNT_ID" ->
  InstagramFetch.get_hashtag_id A = Ret PNone
  /\ InstagramFetch.lambda_handler fuel A E tr
     = (Ret (Some (if InstagramFetch.unset_token A
                      || InstagramFetch.unset_account A
                   then 400 else 500, 0)), tr).
Proof.
  intros Hconf.
  assert (Hid : InstagramFetch.get_hashtag_id A = Ret PNone).
  { unfold InstagramFetch.get_hashtag_id, InstagramFetch.unset_token,
      InstagramFetch.unset_account.
    destruct (String.eqb_spec (InstagramFetch.access_token A) ""),
      (String.eqb_spec (InstagramFetch.access_token A) "YOUR_ACCESS_TOKEN"),
      (String.eqb_spec (InstagramFetch.account_id A) ""),
      (String.eqb_spec (InstagramFetch.account_id A)
         "YOUR_INSTAGRAM_BUSINESS_ACCOUNT_ID");
      cbn [orb]; try reflexivity.
    exfalso. destruct Hconf as [H | [H | [H | H]]]; contradiction. }
  split; [exact Hid|].
  unfold InstagramFetch.lambda_handler. unfold bind, lift. rewrite Hid.
  cbn [truthy negb andb].
  now destruct (InstagramFetch.unset_token A || InstagramFetch.unset_account A).
Qed.

(** The sample API with its token left at the placeholder. *)
Lemma crawler_needs_configuration_witness :
  InstagramFetch.lambda_handler 81
    {| InstagramFetch.access_token := "YOUR_ACCESS_TOKEN";
       InstagramFetch.account_id := "17841400000000000";
       InstagramFetch.search_hashtag :=
         InstagramFetch.search_hashtag Samples.hashtag_api;
       InstagramFetch.top_media :=
         InstagramFetch.top_media Samples.hashtag_api;
       InstagramFetch.strptime :=
         InstagramFetch.strptime Samples.hashtag_api;
       InstagramFetch.now := InstagramFetch.now Samples.hashtag_api |}
    Samples.crawl_env []
  = (Ret (Some (400, 0)), []).
Proof.
  apply (crawler_needs_configuration 81
           {| InstagramFetch.access_token := "YOUR_ACCESS_TOKEN";
              InstagramFetch.account_id := "17841400000000000";
              InstagramFetch.search_hashtag :=
                InstagramFetch.search_hashtag Samples.hashtag_api;
              InstagramFetch.top_media :=
                InstagramFetch.top_media Samples.hashtag_api;
              InstagramFetch.strptime :=
                InstagramFetch.strptime Samples.hashtag_api;
              InstagramFetch.now := InstagramFetch.now Samples.hashtag_api |}
           Samples.crawl_env []).
  right; left. reflexivity.
Defined.
